(** * AgentBox: the sandbox manager and the test-run streamer

    A shallow embedding of [agent/core/sandbox_manager.py] (class
    [SandboxManager]) and of [agent/tests/plugins/realtime_streaming.py]
    (class [RealtimeTestStreamer] and the pytest hooks), followed by the
    properties of the design document that can be settled on them.

    The manager is stateful and every call it makes to a collaborator (the
    E2B provider, the Supabase store, the realtime streamer, the clock) may
    raise.  It is therefore embedded in a state-and-exception monad over a
    [World] that holds the two dictionaries of the manager, the rows of the
    [sandboxes] table, what reached the realtime sink, and a trace of the
    provider calls.  What the collaborators answer is read from an [Env] of
    oracles indexed by a call counter, so that every behaviour of the
    outside world (a failing insert, a provider that raises on [close], a
    sink that is down) is an instance of the model. *)

From stdpp Require Import base option list gmap strings pretty.
From Stdlib Require Import Ascii String ZArith QArith.

Local Open Scope string_scope.
Local Open Scope list_scope.
Local Open Scope Z_scope.

(** ** Python exceptions and results *)

(** Every error of the manager is a plain [Exception(message)]; handlers
    only ever look at [str(e)]. *)
Inductive PyExn : Type :=
  | Exception (msg : string).

Definition str (e : PyExn) : string :=
  match e with Exception msg => msg end.

Inductive Result (A : Type) : Type :=
  | Ok (a : A)
  | Raise (e : PyExn).
Arguments Ok {A} a.
Arguments Raise {A} e.

Definition is_ok {A} (r : Result A) : bool :=
  match r with Ok _ => true | Raise _ => false end.

(** ** Data *)

(** The [status] column of a sandbox row: ['running'] or ['stopped']. *)
Inductive Status : Type := Running | Stopped.

Definition Status_eqb (a b : Status) : bool :=
  match a, b with
  | Running, Running | Stopped, Stopped => true
  | _, _ => false
  end.

(** The dictionary [sandbox_data] built by [create_sandbox]: it is both the
    row inserted in the [sandboxes] table and the value kept in
    [sandbox_metadata].  Timestamps are microseconds since the epoch (the
    source stores their ISO-8601 rendering). *)
Record SandboxData : Type := {
  sd_id            : string;          (* 'id': the internal uuid         *)
  e2b_sandbox_id   : string;          (* 'e2b_sandbox_id': provider id   *)
  user_id          : string;
  template         : string;
  status           : Status;
  boot_time_ms     : Z;
  cpu_limit        : string;
  memory_limit     : string;
  disk_limit       : string;
  last_activity_at : Z;
  expires_at       : Z;
  md_task_id       : option string;   (* 'metadata'.'task_id'            *)
  md_created_at    : Z                (* 'metadata'.'created_at'         *)
}.

(** The provider handle ([SandboxSync]); the manager reads only its [id]. *)
Record SandboxSync : Type := { handle_id : string }.

(** What [sandbox.process.start] hands back on a normal return. *)
Record Execution : Type := {
  exit_code : Z;
  stdout    : string;
  stderr    : string
}.

(** The dictionary returned by [execute_code]. *)
Record ExecResult : Type := {
  r_exit_code         : Z;
  r_stdout            : string;
  r_stderr            : string;
  r_execution_time_ms : option Z
}.

(** The dictionary returned by [create_sandbox]. *)
Record CreateResult : Type := {
  c_sandbox_id   : string;
  c_internal_id  : string;
  c_boot_time_ms : Z;
  c_template     : string;
  c_status       : Status;
  c_expires_at   : Z
}.

Inductive OutStream : Type := OnStdout | OnStderr.

(** One run of [process.start]: the lines handed to the line callbacks, in
    arrival order, and then either the execution object or an exception. *)
Record ProcessRun : Type := {
  output   : list (OutStream * string);
  finished : Result Execution
}.

(** Payload of a sandbox event. *)
Inductive EventData : Type :=
  | CreatedData (sandbox_id internal_id : string) (boot_ms : Z)
                (template : string) (st : Status)
  | DestroyedData (sandbox_id : string) (st : Status).

(** What the manager asks the realtime streamer to publish. *)
Inductive StreamItem : Type :=
  | LogItem (sandbox_id log_type message : string) (task_id : option string)
  | SandboxItem (sandbox_id event_type : string) (data : EventData).

(** Calls that reach the isolated-execution provider. *)
Inductive ProviderCall : Type :=
  | PCreate (template : string)
  | PStart (sandbox_id cmd : string) (timeout : Z) (streaming : bool)
  | PClose (sandbox_id : string).

Inductive LogLevel : Type := INFO | WARNING | ERROR.

(** The result dictionary of [SecurityValidator.validate_code]. *)
Record SecurityResult : Type := {
  is_safe : bool;
  reason  : string
}.

(** Process-wide configuration read in [__init__]. *)
Record Config : Type := {
  default_template       : string;
  max_execution_time     : Z;
  max_memory             : string;
  max_sandboxes_per_user : Z
}.

(** ** The outside world *)

(** Every field answers one kind of external call; the [nat] is the value of
    the call counter when the call is made.  [validate_code] is the rule set
    of the Security Gate ([SecurityValidator.validate_code]): the manager
    only calls it, so it is a parameter here, a pure function of the code. *)
Record Env : Type := {
  e2b_create       : nat -> string -> Result SandboxSync;
  e2b_start        : nat -> string -> string -> ProcessRun;
  e2b_close        : nat -> string -> Result unit;
  supabase_execute : nat -> Result unit;
  sink_insert      : nat -> StreamItem -> Result unit;
  utcnow           : nat -> Z;
  time_ms          : nat -> Z;
  uuid4            : nat -> string;
  validate_code    : string -> SecurityResult
}.

Record World : Type := {
  active_sandboxes : gmap string SandboxSync;
  sandbox_metadata : gmap string SandboxData;
  sandboxes_table  : list SandboxData;
  delivered        : list StreamItem;
  scheduled        : list StreamItem;
  provider_calls   : list ProviderCall;
  logged           : list (LogLevel * string);
  tick             : nat
}.

Definition set_active (f : gmap string SandboxSync -> gmap string SandboxSync)
    (w : World) : World :=
  {| active_sandboxes := f (active_sandboxes w);
     sandbox_metadata := sandbox_metadata w;
     sandboxes_table := sandboxes_table w;
     delivered := delivered w; scheduled := scheduled w;
     provider_calls := provider_calls w; logged := logged w;
     tick := tick w |}.

Definition set_metadata (f : gmap string SandboxData -> gmap string SandboxData)
    (w : World) : World :=
  {| active_sandboxes := active_sandboxes w;
     sandbox_metadata := f (sandbox_metadata w);
     sandboxes_table := sandboxes_table w;
     delivered := delivered w; scheduled := scheduled w;
     provider_calls := provider_calls w; logged := logged w;
     tick := tick w |}.

Definition set_table (f : list SandboxData -> list SandboxData)
    (w : World) : World :=
  {| active_sandboxes := active_sandboxes w;
     sandbox_metadata := sandbox_metadata w;
     sandboxes_table := f (sandboxes_table w);
     delivered := delivered w; scheduled := scheduled w;
     provider_calls := provider_calls w; logged := logged w;
     tick := tick w |}.

Definition set_delivered (f : list StreamItem -> list StreamItem)
    (w : World) : World :=
  {| active_sandboxes := active_sandboxes w;
     sandbox_metadata := sandbox_metadata w;
     sandboxes_table := sandboxes_table w;
     delivered := f (delivered w); scheduled := scheduled w;
     provider_calls := provider_calls w; logged := logged w;
     tick := tick w |}.

Definition set_scheduled (f : list StreamItem -> list StreamItem)
    (w : World) : World :=
  {| active_sandboxes := active_sandboxes w;
     sandbox_metadata := sandbox_metadata w;
     sandboxes_table := sandboxes_table w;
     delivered := delivered w; scheduled := f (scheduled w);
     provider_calls := provider_calls w; logged := logged w;
     tick := tick w |}.

Definition set_calls (f : list ProviderCall -> list ProviderCall)
    (w : World) : World :=
  {| active_sandboxes := active_sandboxes w;
     sandbox_metadata := sandbox_metadata w;
     sandboxes_table := sandboxes_table w;
     delivered := delivered w; scheduled := scheduled w;
     provider_calls := f (provider_calls w); logged := logged w;
     tick := tick w |}.

Definition set_logged (f : list (LogLevel * string) -> list (LogLevel * string))
    (w : World) : World :=
  {| active_sandboxes := active_sandboxes w;
     sandbox_metadata := sandbox_metadata w;
     sandboxes_table := sandboxes_table w;
     delivered := delivered w; scheduled := scheduled w;
     provider_calls := provider_calls w; logged := f (logged w);
     tick := tick w |}.

Definition bump (w : World) : World :=
  {| active_sandboxes := active_sandboxes w;
     sandbox_metadata := sandbox_metadata w;
     sandboxes_table := sandboxes_table w;
     delivered := delivered w; scheduled := scheduled w;
     provider_calls := provider_calls w; logged := logged w;
     tick := S (tick w) |}.

(** ** The monad *)

(** A computation runs on a state and leaves a state behind, also when it
    raises: what was mutated before the exception stays mutated. *)
Definition ST (S A : Type) : Type := S -> Result A * S.

Definition ret {S A} (a : A) : ST S A := fun w => (Ok a, w).

Definition raise {S A} (e : PyExn) : ST S A := fun w => (Raise e, w).

Definition bind {S A B} (c : ST S A) (k : A -> ST S B) : ST S B :=
  fun w =>
    match c w with
    | (Ok a, w1) => k a w1
    | (Raise e, w1) => (Raise e, w1)
    end.

(** [try: body except Exception as e: handler]. *)
Definition try_except {S A} (body : ST S A) (handler : PyExn -> ST S A)
    : ST S A :=
  fun w =>
    match body w with
    | (Ok a, w1) => (Ok a, w1)
    | (Raise e, w1) => handler e w1
    end.

Definition get {S} : ST S S := fun w => (Ok w, w).
Definition modify {S} (f : S -> S) : ST S unit := fun w => (Ok tt, f w).

Definition lift {S A} (r : Result A) : ST S A :=
  match r with Ok a => ret a | Raise e => raise e end.

Definition when {S} (b : bool) (c : ST S unit) : ST S unit :=
  if b then c else ret tt.

Declare Scope M_scope.
Delimit Scope M_scope with M.
Notation "'let*' x ':=' c1 'in' c2" := (bind c1 (fun x => c2))
  (at level 10, x name, c1 at level 100, c2 at level 200) : M_scope.
Notation "c1 ;; c2" := (bind c1 (fun _ => c2))
  (at level 100, c2 at level 200, right associativity) : M_scope.

(** [wp c Q w]: running [c] on [w] ends in a result and a state that
    satisfy [Q]. *)
Definition wp {S A} (c : ST S A) (Q : Result A -> S -> Prop) (w : S) : Prop :=
  Q (fst (c w)) (snd (c w)).

(** The manager runs on a [World]. *)
Definition M (A : Type) : Type := ST World A.

(** An external call: read the counter and advance it. *)
Definition next : M nat := fun w => (Ok (tick w), bump w).

(** [logger.info/warning/error]. *)
Definition log (lvl : LogLevel) (msg : string) : M unit :=
  modify (set_logged (fun l => l ++ [(lvl, msg)])).

(** ** Strings of the source *)

Definition dquote : string := String "034"%char EmptyString.

(** [code.replace('"', '\\"')]: a backslash is put before every double
    quote. *)
Fixpoint escape_quotes (s : string) : string :=
  match s with
  | EmptyString => EmptyString
  | String c rest =>
      if Ascii.eqb c "034"%char
      then String "\"%char (String c (escape_quotes rest))
      else String c (escape_quotes rest)
  end.

(** The command line handed to [process.start]. *)
Definition python_cmd (code : string) : string :=
  "python3 -c " +:+ dquote +:+ escape_quotes code +:+ dquote.

Definition newline : string := String "010"%char EmptyString.

(** ['\n'.join(lines)]. *)
Definition join_lines (lines : list string) : string :=
  String.concat newline lines.

(** The messages of the exceptions the manager raises, named after the error
    kinds of the design document. *)
Definition quota_exceeded_msg (limit : Z) : string :=
  "User has reached maximum sandbox limit (" +:+ pretty limit +:+ ")".

Definition creation_failed_msg (cause : string) : string :=
  "Sandbox creation failed: " +:+ cause.

Definition not_found_msg (sandbox_id : string) : string :=
  "Sandbox " +:+ sandbox_id +:+ " not found or inactive".

Definition policy_violation_msg (why : string) : string :=
  "Code security validation failed: " +:+ why.

Definition execution_failed_msg (cause : string) : string :=
  "Code execution failed: " +:+ cause.

(** [timedelta(hours=1)], in microseconds. *)
Definition one_hour : Z := 3600000000.

(** The two dictionaries that the manager passes to [.update(...)]:
    [{'last_activity_at': now}] and
    [{'status': 'stopped', 'last_activity_at': now}]. *)
Definition set_last_activity (now : Z) (r : SandboxData) : SandboxData :=
  {| sd_id := sd_id r; e2b_sandbox_id := e2b_sandbox_id r;
     user_id := user_id r; template := template r; status := status r;
     boot_time_ms := boot_time_ms r; cpu_limit := cpu_limit r;
     memory_limit := memory_limit r; disk_limit := disk_limit r;
     last_activity_at := now;
     expires_at := expires_at r;
     md_task_id := md_task_id r; md_created_at := md_created_at r |}.

Definition mark_stopped (now : Z) (r : SandboxData) : SandboxData :=
  {| sd_id := sd_id r; e2b_sandbox_id := e2b_sandbox_id r;
     user_id := user_id r; template := template r;
     status := Stopped;
     boot_time_ms := boot_time_ms r; cpu_limit := cpu_limit r;
     memory_limit := memory_limit r; disk_limit := disk_limit r;
     last_activity_at := now;
     expires_at := expires_at r;
     md_task_id := md_task_id r; md_created_at := md_created_at r |}.

(** ** The collaborators, as monadic calls *)

Section Manager.

Variable env : Env.
Variable cfg : Config.

Local Open Scope M_scope.

(** [SandboxSync(template=...)]. *)
Definition SandboxSync_new (tpl : string) : M SandboxSync :=
  let* t := next in
  modify (set_calls (fun l => l ++ [PCreate tpl]));;
  lift (e2b_create env t tpl).

(** The provider hands the produced lines to the callback one by one; [L]
    is the state the callbacks close over. *)
Fixpoint deliver {L : Type} (on_line : OutStream -> string -> L -> M L)
    (out : list (OutStream * string)) (l : L) : M L :=
  match out with
  | [] => ret l
  | (s, line) :: rest =>
      let* l1 := on_line s line l in
      deliver on_line rest l1
  end.

(** [sandbox.process.start(cmd=..., timeout=..., on_stdout=..., on_stderr=...)].
    Without callbacks the produced lines are only buffered by the provider. *)
Definition process_start {L : Type} (sandbox : SandboxSync) (cmd : string)
    (timeout : Z) (callbacks : option (OutStream -> string -> L -> M L))
    (l : L) : M (Execution * L) :=
  let* t := next in
  modify (set_calls (fun c =>
    c ++ [PStart (handle_id sandbox) cmd timeout
            (match callbacks with Some _ => true | None => false end)]));;
  let run := e2b_start env t (handle_id sandbox) cmd in
  let* l1 := match callbacks with
             | Some h => deliver h (output run) l
             | None => ret l
             end in
  let* ex := lift (finished run) in
  ret (ex, l1).

(** [sandbox.close()]. *)
Definition sandbox_close (sandbox : SandboxSync) : M unit :=
  let* t := next in
  modify (set_calls (fun c => c ++ [PClose (handle_id sandbox)]));;
  lift (e2b_close env t (handle_id sandbox)).

(** [....execute()] on a Supabase query: the round trip that may raise. *)
Definition execute_query : M unit :=
  let* t := next in
  lift (supabase_execute env t).

Definition table_insert (row : SandboxData) : M unit :=
  execute_query;;
  modify (set_table (fun rows => rows ++ [row])).

(** [.update(...).eq('e2b_sandbox_id', sandbox_id).execute()]. *)
Definition table_update (f : SandboxData -> SandboxData)
    (sandbox_id : string) : M unit :=
  execute_query;;
  modify (set_table (List.map (fun r =>
    if String.eqb (e2b_sandbox_id r) sandbox_id then f r else r))).

Definition table_select (p : SandboxData -> bool) : M (list SandboxData) :=
  execute_query;;
  let* w := get in
  ret (List.filter p (sandboxes_table w)).

Definition datetime_utcnow : M Z :=
  let* t := next in ret (utcnow env t).

Definition time_time : M Z :=
  let* t := next in ret (time_ms env t).

Definition uuid_uuid4 : M string :=
  let* t := next in ret (uuid4 env t).

(** Modelled from the spec: [RealtimeStreamer] ([realtime_streamer.py]) is
    imported by the manager but its source is not available.  The design
    document (section 4.5) gives its contract: delivery to the sink is
    best-effort, and a sink failure is caught, logged and discarded, so a
    publish never raises into the caller. *)
Definition emit (item : StreamItem) : M unit :=
  let* t := next in
  match sink_insert env t item with
  | Ok _ => modify (set_delivered (fun d => d ++ [item]))
  | Raise e => log WARNING ("Failed to stream event: " +:+ str e)
  end.

Definition stream_log (sandbox_id log_type message : string)
    (task_id : option string) : M unit :=
  emit (LogItem sandbox_id log_type message task_id).

Definition stream_sandbox_event (sandbox_id event_type : string)
    (data : EventData) : M unit :=
  emit (SandboxItem sandbox_id event_type data).

(** [asyncio.create_task(self.streamer.stream_log(...))]: the publish is
    queued on the event loop and runs after the caller gives control back. *)
Definition create_task (item : StreamItem) : M unit :=
  modify (set_scheduled (fun q => q ++ [item])).

(** The event loop running the queued publishes, oldest first. *)
Fixpoint run_tasks (q : list StreamItem) : M unit :=
  match q with
  | [] => ret tt
  | item :: rest => emit item;; run_tasks rest
  end.

Definition run_scheduled : M unit :=
  let* w := get in
  modify (set_scheduled (fun _ => []));;
  run_tasks (scheduled w).

(** ** [SandboxManager] *)

(** The filter of the quota query:
    [.eq('user_id', user_id).eq('status', 'running')]. *)
Definition owned_running (user : string) (r : SandboxData) : bool :=
  String.eqb (user_id r) user && Status_eqb (status r) Running.

Definition _get_user_sandbox_count (user : string) : M Z :=
  let* rows := table_select (owned_running user) in
  ret (Z.of_nat (List.length rows)).

Definition _update_sandbox_activity (sandbox_id : string) : M unit :=
  let* now := datetime_utcnow in
  table_update (set_last_activity now) sandbox_id.

(** [template or self.default_template]: [None] and the empty string both
    fall back to the default. *)
Definition template_or_default (tpl : option string) : string :=
  match tpl with
  | Some t => if String.eqb t "" then default_template cfg else t
  | None => default_template cfg
  end.

Definition create_sandbox (user : string) (task_id tpl : option string)
    : M CreateResult :=
  try_except
    (let* user_sandboxes := _get_user_sandbox_count user in
     if max_sandboxes_per_user cfg <=? user_sandboxes then
       raise (Exception (quota_exceeded_msg (max_sandboxes_per_user cfg)))
     else
       let* start_time := time_time in
       let template_to_use := template_or_default tpl in
       log INFO ("Creating sandbox with template: " +:+ template_to_use
                 +:+ " for user: " +:+ user);;
       let* sandbox := SandboxSync_new template_to_use in
       let* end_time := time_time in
       let boot_ms := end_time - start_time in
       let* internal_id := uuid_uuid4 in
       let* now_activity := datetime_utcnow in
       let* now_expiry := datetime_utcnow in
       let* now_created := datetime_utcnow in
       let sandbox_data :=
         {| sd_id := internal_id;
            e2b_sandbox_id := handle_id sandbox;
            user_id := user;
            template := template_to_use;
            status := Running;
            boot_time_ms := boot_ms;
            cpu_limit := "1000m";
            memory_limit := max_memory cfg +:+ "Mi";
            disk_limit := "10Gi";
            last_activity_at := now_activity;
            expires_at := now_expiry + one_hour;
            md_task_id := task_id;
            md_created_at := now_created |} in
       table_insert sandbox_data;;
       modify (set_active (<[handle_id sandbox := sandbox]>));;
       modify (set_metadata (<[handle_id sandbox := sandbox_data]>));;
       log INFO ("✅ Sandbox created: " +:+ handle_id sandbox
                 +:+ " (boot time: " +:+ pretty boot_ms +:+ "ms)");;
       stream_sandbox_event (handle_id sandbox) "sandbox_created"
         (CreatedData (handle_id sandbox) internal_id boot_ms
                      template_to_use Running);;
       ret {| c_sandbox_id := handle_id sandbox;
              c_internal_id := internal_id;
              c_boot_time_ms := boot_ms;
              c_template := template_to_use;
              c_status := Running;
              c_expires_at := expires_at sandbox_data |})
    (fun e =>
       log ERROR ("❌ Failed to create sandbox: " +:+ str e);;
       raise (Exception (creation_failed_msg (str e)))).

(** The two line buffers [_execute_with_streaming] closes over. *)
Record Lines : Type := {
  stdout_lines : list string;
  stderr_lines : list string
}.

Definition on_stdout (sandbox_id : string) (task_id : option string)
    (line : string) (ls : Lines) : M Lines :=
  let ls1 := {| stdout_lines := stdout_lines ls ++ [line];
                stderr_lines := stderr_lines ls |} in
  create_task (LogItem sandbox_id "stdout" line task_id);;
  ret ls1.

Definition on_stderr (sandbox_id : string) (task_id : option string)
    (line : string) (ls : Lines) : M Lines :=
  let ls1 := {| stdout_lines := stdout_lines ls;
                stderr_lines := stderr_lines ls ++ [line] |} in
  create_task (LogItem sandbox_id "stderr" line task_id);;
  ret ls1.

Definition line_callbacks (sandbox_id : string) (task_id : option string)
    (s : OutStream) : string -> Lines -> M Lines :=
  match s with
  | OnStdout => on_stdout sandbox_id task_id
  | OnStderr => on_stderr sandbox_id task_id
  end.

Definition _execute_with_streaming (sandbox : SandboxSync)
    (sandbox_id code : string) (task_id : option string) : M ExecResult :=
  let* run := process_start sandbox (python_cmd code)
                (max_execution_time cfg)
                (Some (line_callbacks sandbox_id task_id))
                {| stdout_lines := []; stderr_lines := [] |} in
  let '(execution, ls) := run in
  ret {| r_exit_code := exit_code execution;
         r_stdout := join_lines (stdout_lines ls);
         r_stderr := join_lines (stderr_lines ls);
         r_execution_time_ms := None |}.

Definition with_execution_time (r : ExecResult) (ms : Z) : ExecResult :=
  {| r_exit_code := r_exit_code r; r_stdout := r_stdout r;
     r_stderr := r_stderr r; r_execution_time_ms := Some ms |}.

Definition execute_code (sandbox_id code : string) (task_id : option string)
    (stream_output : bool) : M ExecResult :=
  let* w := get in
  if negb (bool_decide (is_Some (active_sandboxes w !! sandbox_id))) then
    raise (Exception (not_found_msg sandbox_id))
  else
    let security_result := validate_code env code in
    if negb (is_safe security_result) then
      let error_msg := policy_violation_msg (reason security_result) in
      log WARNING ("⚠️ " +:+ error_msg);;
      when stream_output
        (stream_log sandbox_id "security_warning" error_msg task_id);;
      raise (Exception error_msg)
    else
      let* w1 := get in
      (* sandbox = self.active_sandboxes[sandbox_id]; the KeyError cannot
         happen, the membership test above has just succeeded *)
      match active_sandboxes w1 !! sandbox_id with
      | None => raise (Exception ("KeyError: " +:+ sandbox_id))
      | Some sandbox =>
        try_except
          (_update_sandbox_activity sandbox_id;;
           when stream_output
             (stream_log sandbox_id "code_execution_start"
                ("Executing code:" +:+ newline +:+ code) task_id);;
           let* start_time := time_time in
           let* result :=
             if stream_output then
               _execute_with_streaming sandbox sandbox_id code task_id
             else
               let* run := process_start sandbox (python_cmd code)
                             (max_execution_time cfg)
                             (@None (OutStream -> string -> unit -> M unit))
                             tt in
               let execution := fst run in
               ret {| r_exit_code := exit_code execution;
                      r_stdout := stdout execution;
                      r_stderr := stderr execution;
                      r_execution_time_ms := None |} in
           let* end_time := time_time in
           let execution_time_ms := end_time - start_time in
           let result1 := with_execution_time result execution_time_ms in
           when stream_output
             (stream_log sandbox_id "code_execution_complete"
                ("Execution completed in " +:+ pretty execution_time_ms
                 +:+ "ms (exit code: " +:+ pretty (r_exit_code result1)
                 +:+ ")") task_id);;
           log INFO ("Code executed in sandbox " +:+ sandbox_id
                     +:+ " - Time: " +:+ pretty execution_time_ms
                     +:+ "ms, Exit: " +:+ pretty (r_exit_code result1));;
           ret result1)
          (fun e =>
             let error_msg := execution_failed_msg (str e) in
             log ERROR ("❌ " +:+ error_msg);;
             when stream_output
               (stream_log sandbox_id "code_execution_error" error_msg
                  task_id);;
             raise (Exception error_msg))
      end.

Definition destroy_sandbox (sandbox_id : string) : M bool :=
  try_except
    (let* w := get in
     match active_sandboxes w !! sandbox_id with
     | Some sandbox =>
         sandbox_close sandbox;;
         modify (set_active (delete sandbox_id))
     | None => ret tt
     end;;
     let* w1 := get in
     when (bool_decide (is_Some (sandbox_metadata w1 !! sandbox_id)))
       (modify (set_metadata (delete sandbox_id)));;
     let* now := datetime_utcnow in
     table_update (mark_stopped now) sandbox_id;;
     stream_sandbox_event sandbox_id "sandbox_destroyed"
       (DestroyedData sandbox_id Stopped);;
     log INFO ("✅ Sandbox " +:+ sandbox_id +:+ " destroyed");;
     ret true)
    (fun e =>
       log ERROR ("❌ Failed to destroy sandbox " +:+ sandbox_id
                  +:+ ": " +:+ str e);;
       ret false).

(** The [for sandbox_data in result.data] loop of the reaper. *)
Fixpoint cleanup_loop (data : list SandboxData) (cleaned_count : Z) : M Z :=
  match data with
  | [] => ret cleaned_count
  | sandbox_data :: rest =>
      let* destroyed := destroy_sandbox (e2b_sandbox_id sandbox_data) in
      cleanup_loop rest
        (if destroyed then cleaned_count + 1 else cleaned_count)
  end.

(** The filter of the reaper's query:
    [.lt('expires_at', now).eq('status', 'running')]. *)
Definition is_expired (now : Z) (r : SandboxData) : bool :=
  (expires_at r <? now) && Status_eqb (status r) Running.

Definition cleanup_expired_sandboxes : M Z :=
  try_except
    (let* now := datetime_utcnow in
     let* data := table_select (is_expired now) in
     let* cleaned_count := cleanup_loop data 0 in
     log INFO ("Cleaned up " +:+ pretty cleaned_count
               +:+ " expired sandboxes");;
     ret cleaned_count)
    (fun e =>
       log ERROR ("Error cleaning up expired sandboxes: " +:+ str e);;
       ret 0).

(** [destroy_sandbox] called [n] times in a row on the same id. *)
Fixpoint destroy_times (n : nat) (sandbox_id : string) : M (list bool) :=
  match n with
  | O => ret []
  | S k =>
      let* b := destroy_sandbox sandbox_id in
      let* bs := destroy_times k sandbox_id in
      ret (b :: bs)
  end.

(** The answers of [destroy_sandbox] along the loop of the reaper, one per
    selected row, in order. *)
Fixpoint sweep_outcomes (data : list SandboxData) (w : World) : list bool :=
  match data with
  | [] => []
  | sandbox_data :: rest =>
      let run := destroy_sandbox (e2b_sandbox_id sandbox_data) w in
      match fst run with
      | Ok b => b
      | Raise _ => false
      end :: sweep_outcomes rest (snd run)
  end.

(** A series of [execute_code] requests, each caller handling its own
    error. *)
Fixpoint execute_each (reqs : list (string * string * option string * bool))
    : M unit :=
  match reqs with
  | [] => ret tt
  | (sandbox_id, code, task_id, stream_output) :: rest =>
      try_except
        (execute_code sandbox_id code task_id stream_output;; ret tt)
        (fun _ => ret tt);;
      execute_each rest
  end.

End Manager.

(** ** [RealtimeTestStreamer] and the session hooks *)

Module RealtimeStreaming.

(** The dataclass [TestEvent]; floats are rationals, and [timestamp] is
    already filled in (what [__post_init__] does). *)
Record TestEvent : Type := {
  event_type : string;
  test_id    : string;
  test_name  : string;
  duration   : option Q;
  error      : option string;
  coverage   : option Q;
  timestamp  : Q;
  category   : string
}.

(** A value of [streamer.test_results]. *)
Record TestResult : Type := {
  outcome     : string;
  tr_duration : Q;
  tr_category : string
}.

(** The ['message'] and ['data'] of a row of the [logs] table. *)
Inductive Message : Type :=
  | TestMessage (etype name : string)          (* Test {type}: {name} *)
  | SessionCompleted (passed total : Z) (cov : Q).

Inductive Payload : Type :=
  | EventPayload (e : TestEvent)               (* asdict(event) *)
  | SummaryPayload (session : string) (passed failed skipped : Z)
      (cov dur success_rate : Q) (coverage_met : bool)
      (categories : list (string * Z)).

Record LogEntry : Type := {
  level     : string;
  message   : Message;
  data      : Payload;
  source    : string;
  entry_ts  : Q
}.

(** The lines [print] writes, one constructor per [print] of the source. *)
Inductive Printed : Type :=
  | PStreamed (etype name : string)      (* Streamed: TYPE - name        *)
  | PStreamFailed (err : string)         (* Failed to stream test event  *)
  | PSeparator                           (* "-" * 60                     *)
  | PCompleted (dur : Q)                 (* Test session completed in .. *)
  | PResults (passed failed skipped : Z)
  | PSuccessRate (rate : Q)
  | PCoverage (cov : Q)                  (* Coverage: ..% (Threshold: 80%) *)
  | PCategories
  | PCategory (name : string) (count : Z)
  | PCoverageMet (cov : Q)               (* Coverage requirement MET     *)
  | PCoverageFailed (cov : Q)            (* Coverage requirement FAILED  *)
  | PBuildWillFail                       (* Build will FAIL due to ...   *)
  | PSessionEnd (now : Q)
  | PSummaryFailed (err : string)        (* Failed to log session end    *)
  | PCritical                            (* CRITICAL: Coverage below 80% *)
  | PCurrentCoverage (cov : Q)
  | PBuildWillFailPRD.                   (* BUILD WILL FAIL (as per PRD) *)

(** The Supabase client of the streamer and the wall clock. *)
Record TestEnv : Type := {
  logs_insert : nat -> LogEntry -> Result unit;
  clock       : nat -> Q
}.

(** The streamer object, together with what it printed and what reached the
    [logs] table.  [supabase] is [false] when [_init_supabase] returned
    [None]. *)
Record Streamer : Type := {
  supabase        : bool;
  session_id      : string;
  test_results    : gmap string TestResult;
  start_time      : Q;
  category_counts : list (string * Z);
  console         : list Printed;
  logs_table      : list LogEntry;
  calls           : nat
}.

Definition T (A : Type) : Type := ST Streamer A.

Definition add_console (lines : list Printed) (s : Streamer) : Streamer :=
  {| supabase := supabase s; session_id := session_id s;
     test_results := test_results s; start_time := start_time s;
     category_counts := category_counts s;
     console := console s ++ lines;
     logs_table := logs_table s; calls := calls s |}.

Definition print (line : Printed) : T unit :=
  modify (add_console [line]).

Definition tnext : T nat :=
  fun s =>
    (Ok (calls s),
     {| supabase := supabase s; session_id := session_id s;
        test_results := test_results s; start_time := start_time s;
        category_counts := category_counts s; console := console s;
        logs_table := logs_table s; calls := S (calls s) |}).

(** [ASCII upper case], for [event.event_type.upper()]. *)
Definition upper_char (c : ascii) : ascii :=
  let n := nat_of_ascii c in
  if ((97 <=? n)%nat && (n <=? 122)%nat)%bool then ascii_of_nat (n - 32) else c.

Fixpoint upper (s : string) : string :=
  match s with
  | EmptyString => EmptyString
  | String c rest => String (upper_char c) (upper rest)
  end.

(** The [log_entry] dictionary that [stream_event] builds. *)
Definition event_entry (event : TestEvent) : LogEntry :=
  {| level := "info";
     message := TestMessage (event_type event) (test_name event);
     data := EventPayload event;
     source := "test";
     entry_ts := timestamp event |}.

(** The lines that the category loop of [end_session] prints. *)
Definition category_lines (items : list (string * Z)) : list Printed :=
  List.concat (List.map (fun item : string * Z =>
    if 0 <? snd item then [PCategory (fst item) (snd item)] else []) items).

(** The lines with which [end_session] states whether the coverage
    requirement is met. *)
Definition is_verdict (line : Printed) : bool :=
  match line with
  | PCoverageMet _ | PCoverageFailed _ | PBuildWillFail => true
  | _ => false
  end.

(** The ['coverage_met'] of a session summary. *)
Definition coverage_met_of (entry : LogEntry) : option bool :=
  match data entry with
  | SummaryPayload _ _ _ _ _ _ _ met _ => Some met
  | EventPayload _ => None
  end.

Section Streamer.

Variable tenv : TestEnv.

Local Open Scope M_scope.

(** [self.supabase.table('logs').insert(entry).execute()]. *)
Definition insert_log (entry : LogEntry) : T unit :=
  let* n := tnext in
  lift (logs_insert tenv n entry);;
  modify (fun s =>
    {| supabase := supabase s; session_id := session_id s;
       test_results := test_results s; start_time := start_time s;
       category_counts := category_counts s; console := console s;
       logs_table := logs_table s ++ [entry]; calls := calls s |}).

Definition time_now : T Q :=
  let* n := tnext in ret (clock tenv n).

Definition stream_event (event : TestEvent) : T unit :=
  let* s := get in
  if negb (supabase s) then ret tt
  else
    try_except
      (let log_entry := event_entry event in
       insert_log log_entry;;
       print (PStreamed (upper (event_type event)) (test_name event)))
      (fun e => print (PStreamFailed (str e))).

(** [for category, count in self.category_counts.items(): if count > 0: print]. *)
Fixpoint print_categories (items : list (string * Z)) : T unit :=
  match items with
  | [] => ret tt
  | (cat, count) :: rest =>
      when (0 <? count) (print (PCategory cat count));;
      print_categories rest
  end.

(** [coverage >= 80] and [coverage < 80]. *)
Definition coverage_ok (cov : Q) : bool := Qle_bool 80 cov.
Definition coverage_low (cov : Q) : bool := negb (Qle_bool 80 cov).

Definition end_session (passed failed skipped : Z) (cov : Q) : T unit :=
  let* now := time_now in
  let* s := get in
  let dur := (now - start_time s)%Q in
  let total := passed + failed + skipped in
  let success_rate :=
    if 0 <? total
    then ((inject_Z passed / inject_Z total) * 100)%Q else 0%Q in
  print PSeparator;;
  print (PCompleted dur);;
  print (PResults passed failed skipped);;
  print (PSuccessRate success_rate);;
  print (PCoverage cov);;
  print PCategories;;
  print_categories (category_counts s);;
  (if coverage_ok cov then print (PCoverageMet cov)
   else (print (PCoverageFailed cov);; print PBuildWillFail));;
  let* now1 := time_now in
  print (PSessionEnd now1);;
  when (supabase s)
    (try_except
       (let* now2 := time_now in
        insert_log
          {| level := if coverage_ok cov then "info" else "error";
             message := SessionCompleted passed total cov;
             data := SummaryPayload (session_id s) passed failed skipped
                       cov dur success_rate (coverage_ok cov)
                       (category_counts s);
             source := "test";
             entry_ts := now2 |})
       (fun e => print (PSummaryFailed (str e)))).

(** [len([r for r in results if r['outcome'] == o])]. *)
Definition count_outcome (o : string) (results : list TestResult) : Z :=
  Z.of_nat (List.length
    (List.filter (fun r => String.eqb (outcome r) o) results)).

(** [pytest_sessionfinish]; it returns the new value of
    [session.testsfailed].  The local [coverage] is the placeholder [85.0]
    of the source. *)
Definition pytest_sessionfinish (testsfailed : Z) : T Z :=
  let* s := get in
  let results := (map_to_list (test_results s)).*2 in
  let passed := count_outcome "passed" results in
  let failed := count_outcome "failed" results in
  let skipped := count_outcome "skipped" results in
  let coverage := 85%Q in
  end_session passed failed skipped coverage;;
  if coverage_low coverage then
    print PCritical;;
    print (PCurrentCoverage coverage);;
    print PBuildWillFailPRD;;
    ret (testsfailed + 1)
  else ret testsfailed.

End Streamer.

(** A streamer with a client, a table that takes every insert, and a clock
    that advances by one second per reading. *)
Definition tenv0 : TestEnv :=
  {| logs_insert := fun _ _ => Ok tt;
     clock := fun n => inject_Z (Z.of_nat n) |}.

Definition tenv_down : TestEnv :=
  {| logs_insert := fun _ _ => Raise (Exception "Network error");
     clock := fun n => inject_Z (Z.of_nat n) |}.

Definition streamer0 : Streamer :=
  {| supabase := true;
     session_id := "test_session_0";
     test_results := ∅;
     start_time := 0;
     category_counts :=
       [("unit", 2); ("integration", 1); ("functional", 0);
        ("security", 0); ("performance", 0)];
     console := [];
     logs_table := [];
     calls := 0 |}.

End RealtimeStreaming.

(** The lines of one stream among what a run produced, in arrival order. *)
Definition same_stream (a b : OutStream) : bool :=
  match a, b with
  | OnStdout, OnStdout | OnStderr, OnStderr => true
  | _, _ => false
  end.

Definition lines_of (s : OutStream) (out : list (OutStream * string))
    : list string :=
  List.map snd (List.filter (fun p => same_stream (fst p) s) out).

(** The publish that the line callback of a stream queues for a line. *)
Definition line_item (sandbox_id : string) (task_id : option string)
    (p : OutStream * string) : StreamItem :=
  LogItem sandbox_id
    (match fst p with OnStdout => "stdout" | OnStderr => "stderr" end)
    (snd p) task_id.

(** The messages of the log items of one type, in order. *)
Definition messages_of (log_type : string) (items : list StreamItem)
    : list string :=
  List.concat (List.map (fun item =>
    match item with
    | LogItem _ ty msg _ => if String.eqb ty log_type then [msg] else []
    | SandboxItem _ _ _ => []
    end) items).

(** [r1] is [r] with at most [last_activity_at] changed. *)
Definition only_activity_changed (r r1 : SandboxData) : Prop :=
  r1 = set_last_activity (last_activity_at r1) r.

(** What an activity may change in the registry: nothing in the two
    dictionaries, and in the rows of the table nothing but
    [last_activity_at]. *)
Definition registry_frame (w w1 : World) : Prop :=
  active_sandboxes w1 = active_sandboxes w
  /\ sandbox_metadata w1 = sandbox_metadata w
  /\ Forall2 only_activity_changed (sandboxes_table w) (sandboxes_table w1).

(** A sandbox id is terminated when it is out of active tracking and every
    row of the table that carries it is stopped. *)
Definition terminated (sandbox_id : string) (w : World) : Prop :=
  active_sandboxes w !! sandbox_id = None
  /\ Forall (fun r => e2b_sandbox_id r = sandbox_id -> status r = Stopped)
       (sandboxes_table w).

Definition count_true (bs : list bool) : Z :=
  Z.of_nat (List.length (List.filter (fun b : bool => b) bs)).

(** What [execute_code] returns or raises, read off the answers of the
    store, the provider, the clock and the Security Gate.  The realtime sink
    is not among them. *)
Definition execute_code_result (env : Env) (cfg : Config)
    (sandbox_id code : string) (stream_output : bool) (w : World)
    : Result ExecResult :=
  match active_sandboxes w !! sandbox_id with
  | None => Raise (Exception (not_found_msg sandbox_id))
  | Some sandbox =>
      if negb (is_safe (validate_code env code)) then
        Raise (Exception
                 (policy_violation_msg (reason (validate_code env code))))
      else
        match supabase_execute env (1 + tick w) with
        | Raise e => Raise (Exception (execution_failed_msg (str e)))
        | Ok _ =>
            let t0 := ((if stream_output then 3 else 2) + tick w)%nat in
            let run :=
              e2b_start env (1 + t0) (handle_id sandbox) (python_cmd code) in
            match finished run with
            | Raise e => Raise (Exception (execution_failed_msg (str e)))
            | Ok execution =>
                Ok {| r_exit_code := exit_code execution;
                      r_stdout :=
                        if stream_output
                        then join_lines (lines_of OnStdout (output run))
                        else stdout execution;
                      r_stderr :=
                        if stream_output
                        then join_lines (lines_of OnStderr (output run))
                        else stderr execution;
                      r_execution_time_ms :=
                        Some (time_ms env (2 + t0) - time_ms env t0) |}
            end
        end
  end.

(** Replacing one collaborator of an environment. *)
Definition with_sink (f : nat -> StreamItem -> Result unit) (env : Env) : Env :=
  {| e2b_create := e2b_create env; e2b_start := e2b_start env;
     e2b_close := e2b_close env; supabase_execute := supabase_execute env;
     sink_insert := f;
     utcnow := utcnow env; time_ms := time_ms env; uuid4 := uuid4 env;
     validate_code := validate_code env |}.

Definition with_store (f : nat -> Result unit) (env : Env) : Env :=
  {| e2b_create := e2b_create env; e2b_start := e2b_start env;
     e2b_close := e2b_close env; supabase_execute := f;
     sink_insert := sink_insert env;
     utcnow := utcnow env; time_ms := time_ms env; uuid4 := uuid4 env;
     validate_code := validate_code env |}.

Definition with_start (f : nat -> string -> string -> ProcessRun) (env : Env)
    : Env :=
  {| e2b_create := e2b_create env; e2b_start := f;
     e2b_close := e2b_close env; supabase_execute := supabase_execute env;
     sink_insert := sink_insert env;
     utcnow := utcnow env; time_ms := time_ms env; uuid4 := uuid4 env;
     validate_code := validate_code env |}.

Definition with_close (f : nat -> string -> Result unit) (env : Env) : Env :=
  {| e2b_create := e2b_create env; e2b_start := e2b_start env;
     e2b_close := f; supabase_execute := supabase_execute env;
     sink_insert := sink_insert env;
     utcnow := utcnow env; time_ms := time_ms env; uuid4 := uuid4 env;
     validate_code := validate_code env |}.

Definition with_clock (f : nat -> Z) (env : Env) : Env :=
  {| e2b_create := e2b_create env; e2b_start := e2b_start env;
     e2b_close := e2b_close env; supabase_execute := supabase_execute env;
     sink_insert := sink_insert env;
     utcnow := f; time_ms := time_ms env; uuid4 := uuid4 env;
     validate_code := validate_code env |}.

(** The number of Running sandboxes of an owner, as the table has it. *)
Definition running_count (user : string) (rows : list SandboxData) : Z :=
  Z.of_nat (List.length (List.filter (owned_running user) rows)).

(** ** A concrete world, for running the model *)

Module Demo.

Definition cfg0 : Config :=
  {| default_template := "Python3";
     max_execution_time := 300;
     max_memory := "1024";
     max_sandboxes_per_user := 3 |}.

(** A toy rule set: the one program it rejects is [import os]. *)
Definition validate0 (code : string) : SecurityResult :=
  if String.eqb code "import os"
  then {| is_safe := false; reason := "os module is blocked" |}
  else {| is_safe := true; reason := "" |}.

Definition run0 : ProcessRun :=
  {| output := [(OnStdout, "line1"); (OnStderr, "warn"); (OnStdout, "line2")];
     finished := Ok {| exit_code := 0;
                       stdout := "line1" +:+ newline +:+ "line2";
                       stderr := "warn" |} |}.

(** Every collaborator answers; provider ids and uuids are numbered by the
    call counter. *)
Definition env0 : Env :=
  {| e2b_create := fun t _ => Ok {| handle_id := "sbx-" +:+ pretty t |};
     e2b_start := fun _ _ _ => run0;
     e2b_close := fun _ _ => Ok tt;
     supabase_execute := fun _ => Ok tt;
     sink_insert := fun _ _ => Ok tt;
     utcnow := fun t => 1000000 * Z.of_nat t;
     time_ms := fun t => 10 * Z.of_nat t;
     uuid4 := fun t => "uuid-" +:+ pretty t;
     validate_code := validate0 |}.

(** The same world with the realtime sink down. *)
Definition env_sink_down : Env :=
  with_sink (fun _ _ => Raise (Exception "sink unreachable")) env0.

(** The same world with a store that refuses every query from the ninth
    external call on (the insert of a first [create_sandbox]). *)
Definition env_insert_fails : Env :=
  with_store (fun t => if (8 <=? t)%nat then Raise (Exception "store is down")
                       else Ok tt) env0.

(** The same world with a provider whose [process.start] raises after one
    line of output. *)
Definition env_start_fails : Env :=
  with_start (fun _ _ _ =>
    {| output := [(OnStdout, "line1")];
       finished := Raise (Exception "timeout") |}) env0.

(** The same world with the clock stopped at [now]. *)
Definition env_at (now : Z) : Env := with_clock (fun _ => now) env0.

Definition empty_world : World :=
  {| active_sandboxes := ∅; sandbox_metadata := ∅; sandboxes_table := [];
     delivered := []; scheduled := []; provider_calls := []; logged := [];
     tick := 0 |}.

(** The world after user [u1] created one sandbox, and after three. *)
Definition world1 : World :=
  snd (create_sandbox env0 cfg0 "u1" (Some "task-1") None empty_world).

Definition world2 : World :=
  snd (create_sandbox env0 cfg0 "u1" None None world1).

Definition world3 : World :=
  snd (create_sandbox env0 cfg0 "u1" None None world2).

(** Long after both sandboxes of [world2] expired, with a provider that
    cannot close the first of them. *)
Definition env_reaper : Env :=
  with_close (fun _ id => if String.eqb id "sbx-2"
                          then Raise (Exception "handle is stuck")
                          else Ok tt)
    (env_at 9000000000).

End Demo.

(** ** Requests, and what the registry keeps true across them *)

(** One call of a client on the manager. *)
Inductive Request : Type :=
  | CreateReq (user : string) (task_id tpl : option string)
  | ExecuteReq (sandbox_id code : string) (task_id : option string)
               (stream_output : bool)
  | DestroyReq (sandbox_id : string)
  | SweepReq.

(** The manager serving one request; the client handles the error. *)
Definition serve (env : Env) (cfg : Config) (rq : Request) : M unit :=
  try_except
    (match rq with
     | CreateReq user task_id tpl =>
         bind (create_sandbox env cfg user task_id tpl) (fun _ => ret tt)
     | ExecuteReq sandbox_id code task_id stream_output =>
         bind (execute_code env cfg sandbox_id code task_id stream_output)
              (fun _ => ret tt)
     | DestroyReq sandbox_id =>
         bind (destroy_sandbox env sandbox_id) (fun _ => ret tt)
     | SweepReq =>
         bind (cleanup_expired_sandboxes env) (fun _ => ret tt)
     end)
    (fun _ => ret tt).

Fixpoint serve_all (env : Env) (cfg : Config) (rqs : list Request) : M unit :=
  match rqs with
  | [] => ret tt
  | rq :: rest => bind (serve env cfg rq) (fun _ => serve_all env cfg rest)
  end.

(** The two dictionaries have the same keys, and each handle and each
    record is stored under its own provider id. *)
Definition registry_ok (w : World) : Prop :=
  (forall id sb, active_sandboxes w !! id = Some sb -> handle_id sb = id)
  /\ (forall id md,
        sandbox_metadata w !! id = Some md -> e2b_sandbox_id md = id)
  /\ (forall id,
        is_Some (active_sandboxes w !! id)
        <-> is_Some (sandbox_metadata w !! id)).

(** No owner has more Running rows than the cap. *)
Definition quota_ok (cfg : Config) (w : World) : Prop :=
  forall user,
    running_count user (sandboxes_table w) <= max_sandboxes_per_user cfg.

(** Every sandbox in active tracking has a Running row in the table. *)
Definition alive_running (w : World) : Prop :=
  forall id,
    is_Some (active_sandboxes w !! id) ->
    exists r, In r (sandboxes_table w)
              /\ e2b_sandbox_id r = id /\ status r = Running.

(** [r1] is [r] after status updates: the same provider id and expiry,
    and Running only if [r] was. *)
Definition row_only_stops (r r1 : SandboxData) : Prop :=
  e2b_sandbox_id r1 = e2b_sandbox_id r
  /\ expires_at r1 = expires_at r
  /\ (status r1 = Running -> status r = Running).

(** ** The status queries *)

(** The dictionary returned by [get_sandbox_status]; a field read with
    [metadata.get] is [None] when the record is missing. *)
Record StatusInfo : Type := {
  s_sandbox_id     : string;
  s_status         : Status;
  s_template       : option string;
  s_boot_time_ms   : option Z;
  s_last_activity  : option Z;
  s_expires_at     : option Z;
  s_uptime_seconds : Z
}.

(** A value of the dictionary returned by [get_active_sandboxes]:
    [{**metadata, 'is_active': True, 'uptime_seconds': ...}]. *)
Record ActiveInfo : Type := {
  a_metadata       : SandboxData;
  a_is_active      : bool;
  a_uptime_seconds : Z
}.

Section Queries.

Variable env : Env.

(** [datetime.fromisoformat(created_at).timestamp()], in milliseconds: how
    the host reads the stored timestamp. *)
Variable timestamp_ms : Z -> Z.

Local Open Scope M_scope.

(** [int(time.time() - created.timestamp())]: [int] truncates towards
    zero. *)
Definition uptime_seconds (now_ms created_at : Z) : Z :=
  Z.quot (now_ms - timestamp_ms created_at) 1000.

Definition get_sandbox_status (sandbox_id : string) : M (option StatusInfo) :=
  let* w := get in
  if negb (bool_decide (is_Some (active_sandboxes w !! sandbox_id))) then
    ret None
  else
    let metadata := sandbox_metadata w !! sandbox_id in
    let* uptime :=
      match metadata with
      | Some md =>
          let* now := time_time env in
          ret (uptime_seconds now (md_created_at md))
      | None => ret 0
      end in
    ret (Some {| s_sandbox_id := sandbox_id;
                 s_status := Running;
                 s_template := template <$> metadata;
                 s_boot_time_ms := boot_time_ms <$> metadata;
                 s_last_activity := last_activity_at <$> metadata;
                 s_expires_at := expires_at <$> metadata;
                 s_uptime_seconds := uptime |}).

(** [get_active_sandboxes] reads the clock once per entry while it walks
    the dictionary; [now_at id] is the reading taken for the entry [id]. *)
Definition get_active_sandboxes (now_at : string -> Z) (w : World)
    : gmap string ActiveInfo :=
  map_imap (fun sandbox_id md =>
    if bool_decide (is_Some (active_sandboxes w !! sandbox_id))
    then Some {| a_metadata := md;
                 a_is_active := true;
                 a_uptime_seconds :=
                   uptime_seconds (now_at sandbox_id) (md_created_at md) |}
    else None) (sandbox_metadata w).

End Queries.

(** ** Packages *)

Section Packages.

Variable env : Env.
Variable cfg : Config.

(** [SecurityValidator.is_safe_package_name], a parameter like
    [validate_code]. *)
Variable is_safe_package_name : string -> bool.

Local Open Scope M_scope.

Definition unsafe_package_msg (package : string) : string :=
  "Invalid or potentially unsafe package name: " +:+ package.

Definition sandbox_missing_msg (sandbox_id : string) : string :=
  "Sandbox " +:+ sandbox_id +:+ " not found".

(** [for package in packages: if not is_safe_package_name(package): raise]. *)
Fixpoint check_packages (packages : list string) : M unit :=
  match packages with
  | [] => ret tt
  | package :: rest =>
      if negb (is_safe_package_name package) then
        raise (Exception (unsafe_package_msg package))
      else check_packages rest
  end.

(** [f"pip install {' '.join(packages)}"]. *)
Definition install_cmd (packages : list string) : string :=
  "pip install " +:+ String.concat " " packages.

Definition install_code (packages : list string) : string :=
  "import subprocess; subprocess.run('" +:+ install_cmd packages
  +:+ "', shell=True)".

Definition install_packages (sandbox_id : string) (packages : list string)
    : M ExecResult :=
  let* w := get in
  if negb (bool_decide (is_Some (active_sandboxes w !! sandbox_id))) then
    raise (Exception (sandbox_missing_msg sandbox_id))
  else
    check_packages packages;;
    execute_code env cfg sandbox_id (install_code packages) None true.

End Packages.

(** ** Files *)

(** A file object of the provider; it may lack the [size] attribute. *)
Record FileInfo : Type := {
  file_name   : string;
  file_path   : string;
  file_is_dir : bool;
  file_size   : option Z
}.

(** An entry of the list returned by [list_files]. *)
Record FileEntry : Type := {
  e_name   : string;
  e_path   : string;
  e_is_dir : bool;
  e_size   : Z
}.

(** Calls that reach the filesystem of a provider sandbox. *)
Inductive FsCall : Type :=
  | FsList (sandbox_id path : string)
  | FsRead (sandbox_id path : string)
  | FsWrite (sandbox_id path content : string).

(** The filesystem of the provider and
    [SecurityValidator.is_safe_file_path]. *)
Record FsEnv : Type := {
  fs_list           : nat -> string -> string -> Result (list FileInfo);
  fs_read           : nat -> string -> string -> Result string;
  fs_write          : nat -> string -> string -> string -> Result unit;
  is_safe_file_path : string -> bool
}.

(** The world of the manager together with the trace of filesystem calls. *)
Record FsWorld : Type := {
  base     : World;
  fs_calls : list FsCall
}.

Definition MF (A : Type) : Type := ST FsWorld A.

(** Running a computation of the manager inside the larger world. *)
Definition in_base {A} (c : M A) : MF A :=
  fun fw =>
    (fst (c (base fw)),
     {| base := snd (c (base fw)); fs_calls := fs_calls fw |}).

Definition record_fs (c : FsCall) : MF unit :=
  modify (fun fw => {| base := base fw; fs_calls := fs_calls fw ++ [c] |}).

(** [len(s)] of a Python [str]: the number of code points.  Strings are
    kept as their UTF-8 bytes, so these are the bytes that are not
    continuation bytes ([10xxxxxx]). *)
Definition is_continuation (c : ascii) : bool :=
  let n := nat_of_ascii c in ((128 <=? n)%nat && (n <? 192)%nat)%bool.

Fixpoint len (s : string) : nat :=
  match s with
  | EmptyString => O
  | String c rest => if is_continuation c then len rest else S (len rest)
  end.

Definition unsafe_path_msg (file_path : string) : string :=
  "Unsafe file path: " +:+ file_path.

Definition file_entry (file : FileInfo) : FileEntry :=
  {| e_name := file_name file;
     e_path := file_path file;
     e_is_dir := file_is_dir file;
     e_size := match file_size file with Some n => n | None => 0 end |}.

Section Files.

Variable env : Env.
Variable fenv : FsEnv.

Local Open Scope M_scope.

(** [sandbox.filesystem.list(path)], [.read(path)], [.write(path, content)]. *)
Definition filesystem_list (sandbox : SandboxSync) (path : string)
    : MF (list FileInfo) :=
  let* t := in_base next in
  record_fs (FsList (handle_id sandbox) path);;
  lift (fs_list fenv t (handle_id sandbox) path).

Definition filesystem_read (sandbox : SandboxSync) (path : string)
    : MF string :=
  let* t := in_base next in
  record_fs (FsRead (handle_id sandbox) path);;
  lift (fs_read fenv t (handle_id sandbox) path).

Definition filesystem_write (sandbox : SandboxSync) (path content : string)
    : MF unit :=
  let* t := in_base next in
  record_fs (FsWrite (handle_id sandbox) path content);;
  lift (fs_write fenv t (handle_id sandbox) path content).

Definition list_files (sandbox_id path : string) : MF (list FileEntry) :=
  let* fw := get in
  match active_sandboxes (base fw) !! sandbox_id with
  | None => raise (Exception (sandbox_missing_msg sandbox_id))
  | Some sandbox =>
      try_except
        (let* files := filesystem_list sandbox path in
         ret (List.map file_entry files))
        (fun e => raise (Exception ("Failed to list files: " +:+ str e)))
  end.

Definition read_file (sandbox_id file_path : string) : MF string :=
  let* fw := get in
  match active_sandboxes (base fw) !! sandbox_id with
  | None => raise (Exception (sandbox_missing_msg sandbox_id))
  | Some sandbox =>
      if negb (is_safe_file_path fenv file_path) then
        raise (Exception (unsafe_path_msg file_path))
      else
        try_except
          (let* content := filesystem_read sandbox file_path in
           ret content)
          (fun e => raise (Exception ("Failed to read file " +:+ file_path
                                      +:+ ": " +:+ str e)))
  end.

Definition write_file (sandbox_id file_path content : string) : MF bool :=
  let* fw := get in
  match active_sandboxes (base fw) !! sandbox_id with
  | None => raise (Exception (sandbox_missing_msg sandbox_id))
  | Some sandbox =>
      if negb (is_safe_file_path fenv file_path) then
        raise (Exception (unsafe_path_msg file_path))
      else
        try_except
          (filesystem_write sandbox file_path content;;
           in_base (stream_log env sandbox_id "file_write"
                      ("File written: " +:+ file_path +:+ " ("
                       +:+ pretty (Z.of_nat (len content))
                       +:+ " bytes)") None);;
           ret true)
          (fun e => raise (Exception ("Failed to write file " +:+ file_path
                                      +:+ ": " +:+ str e)))
  end.

End Files.

(** What a file operation leaves alone in the manager: the two
    dictionaries, the rows of the table and the trace of provider calls of
    the sandbox lifecycle. *)
Definition storage_untouched (w w1 : World) : Prop :=
  active_sandboxes w1 = active_sandboxes w
  /\ sandbox_metadata w1 = sandbox_metadata w
  /\ sandboxes_table w1 = sandboxes_table w
  /\ provider_calls w1 = provider_calls w.

(** ** The hooks of the streaming plugin *)

Module Hooks.

Import RealtimeStreaming.

(** [test_path.lower()] on the letters [A] to [Z]; every other character is
    kept. *)
Definition lower_char (c : ascii) : ascii :=
  let n := nat_of_ascii c in
  if ((65 <=? n)%nat && (n <=? 90)%nat)%bool then ascii_of_nat (n + 32) else c.

Fixpoint lower (s : string) : string :=
  match s with
  | EmptyString => EmptyString
  | String c rest => String (lower_char c) (lower rest)
  end.

(** A string of ASCII characters only. *)
Definition is_ascii (c : ascii) : bool := (nat_of_ascii c <? 128)%nat.

Fixpoint ascii_only (s : string) : bool :=
  match s with
  | EmptyString => true
  | String c rest => (is_ascii c && ascii_only rest)%bool
  end.

(** [sub in s]: [sub] occurs in [s] at some position. *)
Fixpoint contains (sub s : string) : bool :=
  (String.prefix sub s
   || match s with
      | EmptyString => false
      | String _ rest => contains sub rest
      end)%bool.

Definition categorize_test (test_path : string) : string :=
  let test_path := lower test_path in
  if contains "integration" test_path then "integration"
  else if contains "functional" test_path then "functional"
  else if contains "security" test_path then "security"
  else if contains "performance" test_path then "performance"
  else "unit".

(** The keys with which [__init__] fills [category_counts]. *)
Definition categories : list string :=
  ["unit"; "integration"; "functional"; "security"; "performance"].

Definition initial_category_counts : list (string * Z) :=
  List.map (fun c => (c, 0)) categories.

(** [d[k]] and [d[k] = v] on a dictionary kept in insertion order: an
    assignment to a present key keeps its place, one to a new key goes to
    the end. *)
Fixpoint dict_get (k : string) (d : list (string * Z)) : option Z :=
  match d with
  | [] => None
  | (k1, v) :: rest => if String.eqb k1 k then Some v else dict_get k rest
  end.

Fixpoint dict_set (k : string) (v : Z) (d : list (string * Z))
    : list (string * Z) :=
  match d with
  | [] => [(k, v)]
  | (k1, v1) :: rest =>
      if String.eqb k1 k then (k1, v) :: rest
      else (k1, v1) :: dict_set k v rest
  end.

Definition set_category_counts (f : list (string * Z) -> list (string * Z))
    (s : Streamer) : Streamer :=
  {| supabase := supabase s; session_id := session_id s;
     test_results := test_results s; start_time := start_time s;
     category_counts := f (category_counts s);
     console := console s; logs_table := logs_table s; calls := calls s |}.

Definition set_test_results
    (f : gmap string TestResult -> gmap string TestResult)
    (s : Streamer) : Streamer :=
  {| supabase := supabase s; session_id := session_id s;
     test_results := f (test_results s); start_time := start_time s;
     category_counts := category_counts s;
     console := console s; logs_table := logs_table s; calls := calls s |}.

(** What the hooks read of a pytest item: [str(item.fspath)],
    [item.nodeid], [item.name]. *)
Record Item : Type := {
  fspath : string;
  nodeid : string;
  name   : string
}.

(** What [pytest_runtest_makereport] reads of its [call]: [call.when];
    [call.excinfo], [None] or the [str] of the exception it holds;
    [call.duration]; and the attribute [result] when the object has one
    (it is only ever compared with ['skipped']). *)
Record CallInfo : Type := {
  call_when     : string;
  call_excinfo  : option string;
  call_duration : Q;
  call_result   : option string
}.

(** The line a hook prints when [asyncio.run] raises:
    [Streaming error (non-blocking): {e}]. *)
Inductive HookPrinted : Type :=
  | PStreamingError (err : string).

(** The global streamer of the plugin together with the lines the hooks
    print themselves; these are kept apart from the console of the
    streamer. *)
Record Plugin : Type := {
  streamer     : Streamer;
  hook_console : list HookPrinted
}.

Definition H (A : Type) : Type := ST Plugin A.

(** Running a method of the streamer that [get_streamer()] returns. *)
Definition in_streamer {A} (c : T A) : H A :=
  fun p =>
    (fst (c (streamer p)),
     {| streamer := snd (c (streamer p)); hook_console := hook_console p |}).

Definition hook_print (line : HookPrinted) : H unit :=
  modify (fun p => {| streamer := streamer p;
                      hook_console := hook_console p ++ [line] |}).

(** The streamer's collaborators and the event loop: [loop_run n] is what
    starting an event loop answers at the external call [n]. *)
Record HookEnv : Type := {
  tenv_of  : TestEnv;
  loop_run : nat -> Result unit
}.

Section Hooks.

Variable henv : HookEnv.

Local Open Scope M_scope.

(** [asyncio.run(coro)]: it raises when the event loop cannot be started,
    and otherwise runs the coroutine to its end. *)
Definition asyncio_run (coro : T unit) : H unit :=
  let* n := in_streamer tnext in
  lift (loop_run henv n);;
  in_streamer coro.

(** [streamer.category_counts[category] += 1]; an absent key is a
    [KeyError]. *)
Definition incr_category (category : string) : T unit :=
  let* s := get in
  match dict_get category (category_counts s) with
  | None => raise (Exception ("KeyError: " +:+ category))
  | Some count =>
      modify (set_category_counts (dict_set category (count + 1)))
  end.

Definition pytest_runtest_setup (item : Item) : H unit :=
  let category := categorize_test (fspath item) in
  in_streamer (incr_category category);;
  let* now := in_streamer (time_now (tenv_of henv)) in
  let event := {| event_type := "started";
                  test_id := nodeid item;
                  test_name := name item;
                  duration := None;
                  error := None;
                  coverage := None;
                  timestamp := now;
                  category := category |} in
  try_except
    (asyncio_run (stream_event (tenv_of henv) event))
    (fun e => hook_print (PStreamingError (str e))).

(** The [outcome] that [pytest_runtest_makereport] computes. *)
Definition outcome_of (call : CallInfo) : string :=
  let outcome :=
    match call_excinfo call with None => "passed" | Some _ => "failed" end in
  match call_result call with
  | Some r => if String.eqb r "skipped" then "skipped" else outcome
  | None => outcome
  end.

Definition pytest_runtest_makereport (item : Item) (call : CallInfo)
    : H unit :=
  if String.eqb (call_when call) "call" then
    let outcome := outcome_of call in
    let category := categorize_test (fspath item) in
    let* now := in_streamer (time_now (tenv_of henv)) in
    let event := {| event_type := outcome;
                    test_id := nodeid item;
                    test_name := name item;
                    duration := Some (call_duration call);
                    error := call_excinfo call;
                    coverage := None;
                    timestamp := now;
                    category := category |} in
    try_except
      (asyncio_run (stream_event (tenv_of henv) event))
      (fun e => hook_print (PStreamingError (str e)));;
    in_streamer
      (modify (set_test_results
                 (insert (nodeid item)
                    {| outcome := outcome;
                       tr_duration := call_duration call;
                       tr_category := category |})))
  else ret tt.

(** The calls pytest makes to the plugin while it runs the tests. *)
Inductive HookCall : Type :=
  | Setup (item : Item)
  | MakeReport (item : Item) (call : CallInfo).

Definition run_hook (c : HookCall) : H unit :=
  match c with
  | Setup item => pytest_runtest_setup item
  | MakeReport item call => pytest_runtest_makereport item call
  end.

(** A run of pytest: an exception that leaves a hook ends the run. *)
Fixpoint run_hooks (cs : list HookCall) : H unit :=
  match cs with
  | [] => ret tt
  | c :: rest => run_hook c;; run_hooks rest
  end.

End Hooks.

(** [sum(category_counts.values())]. *)
Definition total_count (d : list (string * Z)) : Z :=
  List.fold_right (fun kv acc => snd kv + acc) 0 d.

(** The number of [pytest_runtest_setup] calls of a run. *)
Definition setups (cs : list HookCall) : Z :=
  Z.of_nat (List.length
    (List.filter (fun c => match c with Setup _ => true | _ => false end) cs)).

(** The node ids of the call-phase reports of a run. *)
Definition reported (cs : list HookCall) : list string :=
  List.concat (List.map (fun c =>
    match c with
    | MakeReport item call =>
        if String.eqb (call_when call) "call" then [nodeid item] else []
    | Setup _ => []
    end) cs).

(** Every key of [categories] is in the dictionary. *)
Definition has_categories (d : list (string * Z)) : Prop :=
  Forall (fun c => is_Some (dict_get c d)) categories.

(** The numbers that [pytest_sessionfinish] hands to [end_session]. *)
Definition summary_counts (s : Streamer) : Z * Z * Z :=
  let results := (map_to_list (test_results s)).*2 in
  (count_outcome "passed" results,
   count_outcome "failed" results,
   count_outcome "skipped" results).

(** A plugin at the start of a run: no result yet and every count at
    zero. *)
Definition plugin0 (sup : bool) : Plugin :=
  {| streamer :=
       {| supabase := sup;
          session_id := "test_session_0";
          test_results := ∅;
          start_time := 0;
          category_counts := initial_category_counts;
          console := [];
          logs_table := [];
          calls := 0 |};
     hook_console := [] |}.

Definition henv0 : HookEnv :=
  {| tenv_of := tenv0; loop_run := fun _ => Ok tt |}.

(** No event loop can be started and the table refuses every insert. *)
Definition henv_down : HookEnv :=
  {| tenv_of := tenv_down;
     loop_run := fun _ =>
       Raise (Exception "cannot be called from a running event loop") |}.

End Hooks.

(** ** More concrete worlds *)

Module Scenes.

(** [Demo.env0] with a store that goes down after the first sandbox was
    created (from the eleventh external call on). *)
Definition env_store_lost : Env :=
  with_store (fun t => if (10 <=? t)%nat then Raise (Exception "store is down")
                       else Ok tt) Demo.env0.

(** A provider filesystem with one file in every directory but [/missing],
    a read-only [/ro] tree, and a path check that refuses [/etc]. *)
Definition fenv0 : FsEnv :=
  {| fs_list := fun _ _ path =>
       if String.eqb path "/missing"
       then Raise (Exception "no such directory")
       else Ok [ {| file_name := "main.py"; file_path := path +:+ "/main.py";
                    file_is_dir := false; file_size := Some 12 |};
                 {| file_name := "data"; file_path := path +:+ "/data";
                    file_is_dir := true; file_size := None |} ];
     fs_read := fun _ _ path =>
       if String.eqb path "/missing"
       then Raise (Exception "no such file")
       else Ok "print(1)";
     fs_write := fun _ _ path _ =>
       if String.prefix "/ro" path
       then Raise (Exception "read-only file system")
       else Ok tt;
     is_safe_file_path := fun path => negb (String.prefix "/etc" path) |}.

(** [Demo.world1] with no filesystem call made yet. *)
Definition fworld1 : FsWorld :=
  {| base := Demo.world1; fs_calls := [] |}.

End Scenes.

(** * Properties *)

(** ** Running the monad *)

Lemma bind_run {S A B} (c : ST S A) (k : A -> ST S B) (w : S) :
  bind c k w =
  match c w with
  | (Ok a, w1) => k a w1
  | (Raise e, w1) => (Raise e, w1)
  end.
Proof. reflexivity. Qed.

Lemma bind_ok_run {S A B} (c : ST S A) (k : A -> ST S B) (w w1 : S) (a : A) :
  c w = (Ok a, w1) -> bind c k w = k a w1.
Proof. intros H. unfold bind. now rewrite H. Qed.

(** *** Rules of the weakest-precondition calculus *)

Lemma wp_bind {S A B} (c : ST S A) (k : A -> ST S B) Q w :
  wp c (fun r w1 => match r with
                    | Ok a => wp (k a) Q w1
                    | Raise e => Q (Raise e) w1
                    end) w ->
  wp (bind c k) Q w.
Proof. unfold wp, bind. destruct (c w) as [[a|e] w1]; simpl; auto. Qed.

Lemma wp_try {S A} (b : ST S A) (h : PyExn -> ST S A) Q w :
  wp b (fun r w1 => match r with
                    | Ok a => Q (Ok a) w1
                    | Raise e => wp (h e) Q w1
                    end) w ->
  wp (try_except b h) Q w.
Proof. unfold wp, try_except. destruct (b w) as [[a|e] w1]; simpl; auto. Qed.

Lemma wp_ret {S A} (a : A) (Q : Result A -> S -> Prop) w :
  Q (Ok a) w -> wp (ret a) Q w.
Proof. auto. Qed.

Lemma wp_raise {S A} e (Q : Result A -> S -> Prop) w :
  Q (Raise e) w -> wp (raise e) Q w.
Proof. auto. Qed.

Lemma wp_get {S} (Q : Result S -> S -> Prop) w : Q (Ok w) w -> wp get Q w.
Proof. auto. Qed.

Lemma wp_modify {S} (f : S -> S) (Q : Result unit -> S -> Prop) w :
  Q (Ok tt) (f w) -> wp (modify f) Q w.
Proof. auto. Qed.

Lemma wp_lift {S A} (r : Result A) (Q : Result A -> S -> Prop) w :
  Q r w -> wp (lift r) Q w.
Proof. destruct r; auto. Qed.

Lemma wp_next (Q : Result nat -> World -> Prop) w :
  Q (Ok (tick w)) (bump w) -> wp next Q w.
Proof. auto. Qed.

Lemma wp_tnext (Q : Result nat -> RealtimeStreaming.Streamer -> Prop) s :
  Q (Ok (RealtimeStreaming.calls s)) (snd (RealtimeStreaming.tnext s)) ->
  wp RealtimeStreaming.tnext Q s.
Proof. auto. Qed.

Lemma wp_mono {S A} (c : ST S A) (Q1 Q2 : Result A -> S -> Prop) w :
  wp c Q1 w -> (forall r w1, Q1 r w1 -> Q2 r w1) -> wp c Q2 w.
Proof. unfold wp. auto. Qed.

Lemma wp_elim {S A} (c : ST S A) Q w r w1 :
  c w = (r, w1) -> wp c Q w -> Q r w1.
Proof. unfold wp. intros ->. auto. Qed.

Lemma wp_ex {S A} (c : ST S A) (Q : Result A -> S -> Prop) w :
  wp c Q w -> exists r w1, c w = (r, w1) /\ Q r w1.
Proof. unfold wp. destruct (c w) as [r w1]. eauto. Qed.

(** *** The line callbacks *)

Lemma lines_of_cons_same (s : OutStream) (line : string) out :
  lines_of s ((s, line) :: out) = line :: lines_of s out.
Proof. unfold lines_of. cbn. destruct s; reflexivity. Qed.

Lemma lines_of_cons_other (s s1 : OutStream) (line : string) out :
  same_stream s1 s = false ->
  lines_of s ((s1, line) :: out) = lines_of s out.
Proof. intros H. unfold lines_of. cbn. now rewrite H. Qed.

(** Handing the output of a run to the two callbacks appends to each buffer
    the lines of its stream, in arrival order, and queues one publish per
    line, in arrival order; the callbacks never raise. *)
Lemma deliver_line_callbacks (sandbox_id : string) (task_id : option string)
    (out : list (OutStream * string)) :
  forall (ls : Lines) (w : World),
    deliver (line_callbacks sandbox_id task_id) out ls w
    = (Ok {| stdout_lines := stdout_lines ls ++ lines_of OnStdout out;
             stderr_lines := stderr_lines ls ++ lines_of OnStderr out |},
       set_scheduled
         (fun _ => scheduled w ++ List.map (line_item sandbox_id task_id) out)
         w).
Proof.
  induction out as [|[s line] out IH]; intros ls w.
  - cbn. rewrite !app_nil_r. destruct ls, w; reflexivity.
  - cbn [deliver]. rewrite bind_run.
    destruct s; cbn [line_callbacks].
    + rewrite lines_of_cons_same, (lines_of_cons_other OnStderr OnStdout)
        by reflexivity.
      unfold on_stdout at 1. rewrite bind_run.
      unfold create_task, modify, ret. rewrite IH. cbn -[lines_of].
      rewrite <- !app_assoc. reflexivity.
    + rewrite lines_of_cons_same, (lines_of_cons_other OnStdout OnStderr)
        by reflexivity.
      unfold on_stderr at 1. rewrite bind_run.
      unfold create_task, modify, ret. rewrite IH. cbn -[lines_of].
      rewrite <- !app_assoc. reflexivity.
Qed.

Lemma wp_deliver (sandbox_id : string) (task_id : option string)
    (out : list (OutStream * string)) (ls : Lines)
    (Q : Result Lines -> World -> Prop) (w : World) :
  Q (Ok {| stdout_lines := stdout_lines ls ++ lines_of OnStdout out;
           stderr_lines := stderr_lines ls ++ lines_of OnStderr out |})
    (set_scheduled
       (fun _ => scheduled w ++ List.map (line_item sandbox_id task_id) out) w)
  -> wp (deliver (line_callbacks sandbox_id task_id) out ls) Q w.
Proof. unfold wp. now rewrite deliver_line_callbacks. Qed.

Ltac wp_unfold :=
  lazymatch goal with
  | |- wp (create_sandbox _ _ _ _ _) _ _ => unfold create_sandbox
  | |- wp (execute_code _ _ _ _ _ _) _ _ => unfold execute_code
  | |- wp (destroy_sandbox _ _) _ _ => unfold destroy_sandbox
  | |- wp (cleanup_expired_sandboxes _) _ _ =>
      unfold cleanup_expired_sandboxes
  | |- wp (_execute_with_streaming _ _ _ _ _ _) _ _ =>
      unfold _execute_with_streaming
  | |- wp (_update_sandbox_activity _ _) _ _ =>
      unfold _update_sandbox_activity
  | |- wp (_get_user_sandbox_count _ _) _ _ =>
      unfold _get_user_sandbox_count
  | |- wp (stream_sandbox_event _ _ _ _) _ _ => unfold stream_sandbox_event
  | |- wp (stream_log _ _ _ _ _) _ _ => unfold stream_log
  | |- wp (emit _ _) _ _ => unfold emit
  | |- wp (create_task _) _ _ => unfold create_task
  | |- wp (table_insert _ _) _ _ => unfold table_insert
  | |- wp (table_update _ _ _) _ _ => unfold table_update
  | |- wp (table_select _ _) _ _ => unfold table_select
  | |- wp (execute_query _) _ _ => unfold execute_query
  | |- wp (SandboxSync_new _ _) _ _ => unfold SandboxSync_new
  | |- wp (sandbox_close _ _) _ _ => unfold sandbox_close
  | |- wp (process_start _ _ _ _ _ _) _ _ => unfold process_start
  | |- wp (datetime_utcnow _) _ _ => unfold datetime_utcnow
  | |- wp (time_time _) _ _ => unfold time_time
  | |- wp (uuid_uuid4 _) _ _ => unfold uuid_uuid4
  | |- wp (log _ _) _ _ => unfold log
  end.

(** One step of symbolic execution; a case split wherever the outside
    world decides.  [unf] unfolds the operation at the head. *)
Ltac wp_step_with unf :=
  lazymatch goal with
  | |- wp (bind _ _) _ _ => apply wp_bind
  | |- wp (try_except _ _) _ _ => apply wp_try
  | |- wp (ret _) _ _ => apply wp_ret
  | |- wp (raise _) _ _ => apply wp_raise
  | |- wp get _ _ => apply wp_get
  | |- wp (modify _) _ _ => apply wp_modify
  | |- wp (lift _) _ _ => apply wp_lift
  | |- wp next _ _ => apply wp_next
  | |- wp RealtimeStreaming.tnext _ _ => apply wp_tnext
  | |- wp (deliver (line_callbacks _ _) _ _) _ _ => apply wp_deliver
  | |- wp (when _ _) _ _ => unfold when
  | |- wp (if ?b then _ else _) _ _ => destruct b eqn:?
  | |- wp (match ?x with _ => _ end) _ _ => destruct x eqn:?
  | |- match ?x with _ => _ end => destruct x eqn:?
  | |- wp _ _ _ => unf
  end; cbv beta iota.

Ltac wp_step := wp_step_with ltac:(idtac; wp_unfold).

Ltac wp_exec := repeat wp_step.

Lemma decide_is_Some_Some {V} (v : V) : bool_decide (is_Some (Some v)) = true.
Proof. reflexivity. Qed.

Lemma decide_is_Some_None {V} : bool_decide (is_Some (@None V)) = false.
Proof. reflexivity. Qed.

(** The streamer never raises, whatever the sink answers. *)
Lemma emit_returns (env : Env) (item : StreamItem) (w : World) :
  exists w1, emit env item w = (Ok tt, w1)
    /\ provider_calls w1 = provider_calls w
    /\ active_sandboxes w1 = active_sandboxes w
    /\ sandbox_metadata w1 = sandbox_metadata w
    /\ sandboxes_table w1 = sandboxes_table w
    /\ scheduled w1 = scheduled w
    /\ tick w1 = S (tick w).
Proof.
  unfold emit, bind, next. simpl.
  destruct (sink_insert env (tick w) item); simpl; eauto 10.
Qed.

(** ** The Security Gate comes before the provider (C1) *)

(** C1, as amended.  For every sandbox id, when the Security Gate rejects
    the code, [execute_code] raises and the trace of provider calls is what
    it was: the provider is never invoked.  The error is the policy
    violation carrying the reason of the gate whenever the id is in active
    tracking; for an id that is not, the lookup that precedes the gate
    has already raised the not-found error. *)
Theorem execute_code_rejected_never_reaches_provider
    (env : Env) (cfg : Config) (sandbox_id code : string)
    (task_id : option string) (stream_output : bool) (w : World) :
  is_safe (validate_code env code) = false ->
  exists e w1,
    execute_code env cfg sandbox_id code task_id stream_output w = (Raise e, w1)
    /\ provider_calls w1 = provider_calls w
    /\ (is_Some (active_sandboxes w !! sandbox_id) ->
        e = Exception (policy_violation_msg (reason (validate_code env code))))
    /\ (active_sandboxes w !! sandbox_id = None ->
        e = Exception (not_found_msg sandbox_id) /\ w1 = w).
Proof.
  intros Hrej. unfold execute_code.
  rewrite bind_run. unfold get at 1.
  destruct (active_sandboxes w !! sandbox_id) as [sb|] eqn:Hact.
  - rewrite decide_is_Some_Some. cbn [negb].
    rewrite Hrej. cbn [negb].
    destruct stream_output; cbn [when].
    + unfold stream_log.
      destruct (emit_returns env
        (LogItem sandbox_id "security_warning"
           (policy_violation_msg (reason (validate_code env code))) task_id)
        (set_logged (fun l => l ++ [(WARNING,
           "⚠️ " +:+ policy_violation_msg (reason (validate_code env code)))]) w))
        as (w1 & Hemit & Hcalls & _).
      eexists _, w1. split.
      { unfold log. rewrite bind_run. unfold modify at 1.
        rewrite bind_run, Hemit. reflexivity. }
      split; [exact Hcalls|]. split; [reflexivity|]. intros; discriminate.
    + eexists _, _. split; [reflexivity|]. cbn.
      split; [reflexivity|]. split; [reflexivity|]. intros; discriminate.
  - rewrite decide_is_Some_None. cbn [negb].
    eexists _, _. split; [reflexivity|]. split; [reflexivity|].
    split; [intros [? ?]; discriminate|]. auto.
Qed.

Lemma execute_code_rejected_witness :
  exists e w1,
    execute_code Demo.env0 Demo.cfg0 "sbx-2" "import os" (Some "task-1") true
      Demo.world1 = (Raise e, w1)
    /\ provider_calls w1 = provider_calls Demo.world1
    /\ (is_Some (active_sandboxes Demo.world1 !! "sbx-2") ->
        e = Exception (policy_violation_msg
              (reason (validate_code Demo.env0 "import os"))))
    /\ (active_sandboxes Demo.world1 !! "sbx-2" = None ->
        e = Exception (not_found_msg "sbx-2") /\ w1 = Demo.world1).
Proof.
  apply (execute_code_rejected_never_reaches_provider
           Demo.env0 Demo.cfg0 "sbx-2" "import os" (Some "task-1") true
           Demo.world1).
  reflexivity.
Defined.

(** C1 as stated fails for an id that is not in active tracking: the gate
    rejects [import os], yet the error raised for the unknown id [ghost] is
    the not-found error, not the policy violation. *)
Lemma execute_code_rejected_unknown_id_is_not_found :
  is_safe (validate_code Demo.env0 "import os") = false
  /\ fst (execute_code Demo.env0 Demo.cfg0 "ghost" "import os" None true
            Demo.empty_world)
     = Raise (Exception "Sandbox ghost not found or inactive")
  /\ fst (execute_code Demo.env0 Demo.cfg0 "ghost" "import os" None true
            Demo.empty_world)
     <> Raise (Exception (policy_violation_msg
                 (reason (validate_code Demo.env0 "import os")))).
Proof.
  split; [reflexivity|]. split; [reflexivity|].
  vm_compute. intros H. discriminate H.
Qed.

(** ** The quota check comes before everything else (C2) *)

Lemma table_select_run (env : Env) (p : SandboxData -> bool) (w : World) :
  table_select env p w =
  match supabase_execute env (tick w) with
  | Ok _ => (Ok (List.filter p (sandboxes_table w)), bump w)
  | Raise e => (Raise e, bump w)
  end.
Proof.
  unfold table_select, execute_query, bind, next, lift, get, ret, raise.
  destruct (supabase_execute env (tick w)); reflexivity.
Qed.

Lemma get_user_sandbox_count_run (env : Env) (user : string) (w : World) :
  _get_user_sandbox_count env user w =
  match supabase_execute env (tick w) with
  | Ok _ => (Ok (running_count user (sandboxes_table w)), bump w)
  | Raise e => (Raise e, bump w)
  end.
Proof.
  unfold _get_user_sandbox_count. rewrite bind_run, table_select_run.
  destruct (supabase_execute env (tick w)); reflexivity.
Qed.

(** C2.  When the owner already has [max_sandboxes_per_user] Running
    sandboxes or more, [create_sandbox] raises, and nothing happened: no
    provider call, no row, nothing in the two dictionaries, nothing
    published and nothing queued.  The error is the creation failure that
    wraps the quota message, provided the count query itself answered. *)
Theorem create_sandbox_over_quota_has_no_effect
    (env : Env) (cfg : Config) (user : string) (task_id tpl : option string)
    (w : World) :
  max_sandboxes_per_user cfg <= running_count user (sandboxes_table w) ->
  exists cause w1,
    create_sandbox env cfg user task_id tpl w
      = (Raise (Exception (creation_failed_msg cause)), w1)
    /\ (supabase_execute env (tick w) = Ok tt ->
        cause = quota_exceeded_msg (max_sandboxes_per_user cfg))
    /\ provider_calls w1 = provider_calls w
    /\ sandboxes_table w1 = sandboxes_table w
    /\ active_sandboxes w1 = active_sandboxes w
    /\ sandbox_metadata w1 = sandbox_metadata w
    /\ delivered w1 = delivered w
    /\ scheduled w1 = scheduled w.
Proof.
  intros Hquota. unfold create_sandbox, try_except.
  rewrite bind_run, get_user_sandbox_count_run.
  destruct (supabase_execute env (tick w)) as [[]|e] eqn:Hq.
  - apply Z.leb_le in Hquota. rewrite Hquota.
    eexists _, _. split; [reflexivity|]. cbn.
    repeat split; reflexivity.
  - eexists _, _. split; [reflexivity|]. cbn.
    split; [intros; discriminate|]. repeat split; reflexivity.
Qed.

Lemma create_sandbox_over_quota_witness :
  exists cause w1,
    create_sandbox Demo.env0 Demo.cfg0 "u1" None None Demo.world3
      = (Raise (Exception (creation_failed_msg cause)), w1)
    /\ (supabase_execute Demo.env0 (tick Demo.world3) = Ok tt ->
        cause = quota_exceeded_msg (max_sandboxes_per_user Demo.cfg0))
    /\ provider_calls w1 = provider_calls Demo.world3
    /\ sandboxes_table w1 = sandboxes_table Demo.world3
    /\ active_sandboxes w1 = active_sandboxes Demo.world3
    /\ sandbox_metadata w1 = sandbox_metadata Demo.world3
    /\ delivered w1 = delivered Demo.world3
    /\ scheduled w1 = scheduled Demo.world3.
Proof.
  apply (create_sandbox_over_quota_has_no_effect
           Demo.env0 Demo.cfg0 "u1" None None Demo.world3).
  vm_compute. intros H. discriminate H.
Defined.

(** ** What a failed creation leaves behind (C3) *)

(** Whatever makes [create_sandbox] raise, the error is the creation failure
    and nothing was registered or published. *)
Lemma create_sandbox_raise_frame
    (env : Env) (cfg : Config) (user : string) (task_id tpl : option string)
    (w : World) :
  wp (create_sandbox env cfg user task_id tpl)
     (fun r w1 =>
        forall e, r = Raise e ->
          (exists cause, e = Exception (creation_failed_msg cause))
          /\ active_sandboxes w1 = active_sandboxes w
          /\ sandbox_metadata w1 = sandbox_metadata w
          /\ sandboxes_table w1 = sandboxes_table w
          /\ delivered w1 = delivered w
          /\ scheduled w1 = scheduled w) w.
Proof.
  wp_exec; intros e' [=]; subst; cbn; eauto 10.
Qed.

(** A provider that raises on creation, or a store that raises on the
    insert, makes the call raise. *)
Lemma create_sandbox_step_failure_raises
    (env : Env) (cfg : Config) (user : string) (task_id tpl : option string)
    (w : World) :
  (exists e, e2b_create env (2 + tick w) (template_or_default cfg tpl) = Raise e)
  \/ (exists e, supabase_execute env (8 + tick w) = Raise e) ->
  wp (create_sandbox env cfg user task_id tpl)
     (fun r _ => is_ok r = false) w.
Proof.
  intros H. wp_exec; try reflexivity; exfalso; cbn in *;
    destruct H as [[err Herr]|[err Herr]]; congruence.
Qed.

(** When the count query, the quota check, the provider and the insert all
    go through, the call returns the record and the sandbox is registered,
    whatever the realtime sink does with the [sandbox_created] event. *)
Lemma create_sandbox_succeeds_whatever_the_sink
    (env : Env) (cfg : Config) (user : string) (task_id tpl : option string)
    (w : World) (sb : SandboxSync) :
  supabase_execute env (tick w) = Ok tt ->
  running_count user (sandboxes_table w) < max_sandboxes_per_user cfg ->
  e2b_create env (2 + tick w) (template_or_default cfg tpl) = Ok sb ->
  supabase_execute env (8 + tick w) = Ok tt ->
  wp (create_sandbox env cfg user task_id tpl)
     (fun r w1 =>
        (exists res, r = Ok res /\ c_sandbox_id res = handle_id sb)
        /\ active_sandboxes w1 !! handle_id sb = Some sb
        /\ (exists row, sandbox_metadata w1 !! handle_id sb = Some row
              /\ sandboxes_table w1 = sandboxes_table w ++ [row])) w.
Proof.
  intros Hq Hquota Hcreate Hins.
  apply Z.ltb_lt in Hquota. rewrite Z.ltb_antisym in Hquota.
  apply negb_true_iff in Hquota.
  unfold running_count in Hquota.
  wp_exec; cbn in *; try congruence.
  all: match goal with
       | Hc : e2b_create _ _ _ = Ok ?h |- _ =>
           assert (h = sb) by congruence; subst h
       end.
  all: split; [eexists; split; reflexivity|].
  all: split; [apply lookup_insert_eq|].
  all: eexists; split; [apply lookup_insert_eq|reflexivity].
Qed.

(** C3, as amended.  [create_sandbox] is all-or-nothing with respect to the
    provider and the store: when the provider raises on creation or the
    store raises on the insert, the caller receives the creation failure,
    and no record of the sandbox is left in [active_sandboxes], in
    [sandbox_metadata] or in the table, and nothing was published.  The
    emission of the [sandbox_created] event is not such a step: once the
    count query, the quota check, the provider and the insert have gone
    through, the call returns and the sandbox stays registered, whatever the
    realtime sink answers. *)
Theorem create_sandbox_all_or_nothing
    (env : Env) (cfg : Config) (user : string) (task_id tpl : option string)
    (w : World) :
  ((exists e,
      e2b_create env (2 + tick w) (template_or_default cfg tpl) = Raise e)
   \/ (exists e, supabase_execute env (8 + tick w) = Raise e) ->
   exists cause w1,
     create_sandbox env cfg user task_id tpl w
       = (Raise (Exception (creation_failed_msg cause)), w1)
     /\ active_sandboxes w1 = active_sandboxes w
     /\ sandbox_metadata w1 = sandbox_metadata w
     /\ sandboxes_table w1 = sandboxes_table w
     /\ delivered w1 = delivered w
     /\ scheduled w1 = scheduled w)
  /\
  (forall sb,
     supabase_execute env (tick w) = Ok tt ->
     running_count user (sandboxes_table w) < max_sandboxes_per_user cfg ->
     e2b_create env (2 + tick w) (template_or_default cfg tpl) = Ok sb ->
     supabase_execute env (8 + tick w) = Ok tt ->
     exists res w1,
       create_sandbox env cfg user task_id tpl w = (Ok res, w1)
       /\ c_sandbox_id res = handle_id sb
       /\ active_sandboxes w1 !! handle_id sb = Some sb
       /\ exists row, sandbox_metadata w1 !! handle_id sb = Some row
            /\ sandboxes_table w1 = sandboxes_table w ++ [row]).
Proof.
  split.
  - intros Hfail.
    destruct (create_sandbox env cfg user task_id tpl w) as [r w1] eqn:Hrun.
    pose proof (wp_elim _ _ _ _ _ Hrun
      (create_sandbox_step_failure_raises env cfg user task_id tpl w Hfail))
      as Hraise.
    pose proof (wp_elim _ _ _ _ _ Hrun
      (create_sandbox_raise_frame env cfg user task_id tpl w)) as Hframe.
    destruct r as [res|e]; [discriminate Hraise|].
    destruct (Hframe e eq_refl) as ([cause ->] & Hrest).
    exists cause, w1. split; [reflexivity|exact Hrest].
  - intros sb Hq Hquota Hcreate Hins.
    destruct (create_sandbox env cfg user task_id tpl w) as [r w1] eqn:Hrun.
    pose proof (wp_elim _ _ _ _ _ Hrun
      (create_sandbox_succeeds_whatever_the_sink env cfg user task_id tpl w sb
         Hq Hquota Hcreate Hins)) as ((res & -> & Hid) & Hact & Hrow).
    exists res, w1. auto.
Qed.

Lemma create_sandbox_all_or_nothing_witness :
  (exists cause w1,
     create_sandbox Demo.env_insert_fails Demo.cfg0 "u1" None None
       Demo.empty_world
       = (Raise (Exception (creation_failed_msg cause)), w1)
     /\ active_sandboxes w1 = active_sandboxes Demo.empty_world
     /\ sandbox_metadata w1 = sandbox_metadata Demo.empty_world
     /\ sandboxes_table w1 = sandboxes_table Demo.empty_world
     /\ delivered w1 = delivered Demo.empty_world
     /\ scheduled w1 = scheduled Demo.empty_world)
  /\
  (exists res w1,
     create_sandbox Demo.env_sink_down Demo.cfg0 "u1" None None
       Demo.empty_world = (Ok res, w1)
     /\ c_sandbox_id res = "sbx-2"
     /\ active_sandboxes w1 !! "sbx-2" = Some {| handle_id := "sbx-2" |}
     /\ exists row, sandbox_metadata w1 !! "sbx-2" = Some row
          /\ sandboxes_table w1 = sandboxes_table Demo.empty_world ++ [row]).
Proof.
  split.
  - apply (proj1 (create_sandbox_all_or_nothing Demo.env_insert_fails
                    Demo.cfg0 "u1" None None Demo.empty_world)).
    right. exists (Exception "store is down"). reflexivity.
  - apply (proj2 (create_sandbox_all_or_nothing Demo.env_sink_down
                    Demo.cfg0 "u1" None None Demo.empty_world)
                 {| handle_id := "sbx-2" |});
      reflexivity.
Defined.

(** C3 as stated counts the emission of the event among the steps whose
    failure undoes the creation.  With the realtime sink down the
    [sandbox_created] event is not delivered, yet the caller receives the
    record, not an error, and the sandbox stays in active tracking and in
    the table. *)
Lemma create_sandbox_emission_failure_keeps_record :
  sink_insert Demo.env_sink_down 9
    (SandboxItem "sbx-2" "sandbox_created"
       (CreatedData "sbx-2" "uuid-4" 20 "Python3" Running))
    = Raise (Exception "sink unreachable")
  /\ is_ok (fst (create_sandbox Demo.env_sink_down Demo.cfg0 "u1" None None
                   Demo.empty_world)) = true
  /\ delivered (snd (create_sandbox Demo.env_sink_down Demo.cfg0 "u1" None None
                       Demo.empty_world)) = []
  /\ active_sandboxes
       (snd (create_sandbox Demo.env_sink_down Demo.cfg0 "u1" None None
               Demo.empty_world)) !! "sbx-2"
     = Some {| handle_id := "sbx-2" |}
  /\ List.map e2b_sandbox_id
       (sandboxes_table
          (snd (create_sandbox Demo.env_sink_down Demo.cfg0 "u1" None None
                  Demo.empty_world)))
     = ["sbx-2"].
Proof. repeat split; vm_compute; reflexivity. Qed.

(** ** Destroying a sandbox (C4) *)

Lemma destroy_sandbox_returns (env : Env) (sandbox_id : string) (w : World) :
  exists b w1, destroy_sandbox env sandbox_id w = (Ok b, w1).
Proof.
  destruct (wp_ex (destroy_sandbox env sandbox_id)
              (fun r _ => exists b, r = Ok b) w) as (r & w1 & Hrun & b & ->).
  - wp_exec; eauto.
  - eauto.
Qed.

(** An id that is not in active tracking: the provider is left alone, and
    the answer is [True] unless the store refuses the update. *)
Lemma destroy_sandbox_inactive (env : Env) (sandbox_id : string) (w : World) :
  active_sandboxes w !! sandbox_id = None ->
  wp (destroy_sandbox env sandbox_id)
     (fun r w1 =>
        r = Ok (is_ok (supabase_execute env (1 + tick w)))
        /\ provider_calls w1 = provider_calls w
        /\ active_sandboxes w1 !! sandbox_id = None) w.
Proof.
  intros Hact. do 5 wp_step. rewrite Hact.
  wp_exec; cbn in *;
    repeat match goal with
           | H : supabase_execute _ _ = _ |- _ => rewrite H
           end; auto.
Qed.

(** An id in active tracking whose handle closes: one [close], and the id
    leaves both dictionaries, also when the store then refuses the update. *)
Lemma destroy_sandbox_live (env : Env) (sandbox_id : string) (w : World)
    (sb : SandboxSync) :
  active_sandboxes w !! sandbox_id = Some sb ->
  e2b_close env (tick w) (handle_id sb) = Ok tt ->
  wp (destroy_sandbox env sandbox_id)
     (fun r w1 =>
        r = Ok (is_ok (supabase_execute env (2 + tick w)))
        /\ provider_calls w1 = provider_calls w ++ [PClose (handle_id sb)]
        /\ active_sandboxes w1 !! sandbox_id = None
        /\ sandbox_metadata w1 !! sandbox_id = None) w.
Proof.
  intros Hact Hclose. do 5 wp_step. rewrite Hact.
  wp_exec; cbn in *;
    repeat match goal with
           | H : supabase_execute _ _ = _ |- _ => rewrite H
           end;
    try congruence;
    repeat split; auto using lookup_delete_eq.
  all: try (apply lookup_delete_eq).
  all: try (apply bool_decide_eq_false_1 in Heqb;
            destruct (sandbox_metadata w !! sandbox_id) eqn:E; [|reflexivity];
            exfalso; apply Heqb; eauto).
Qed.

Lemma destroy_times_inactive (env : Env) (sandbox_id : string) (n : nat) :
  forall w,
    active_sandboxes w !! sandbox_id = None ->
    wp (destroy_times env n sandbox_id)
       (fun r w1 =>
          (exists bs, r = Ok bs /\ List.length bs = n)
          /\ provider_calls w1 = provider_calls w
          /\ active_sandboxes w1 !! sandbox_id = None) w.
Proof.
  induction n as [|n IH]; intros w Hact.
  - apply wp_ret. eauto.
  - cbn [destroy_times]. apply wp_bind.
    eapply wp_mono; [apply destroy_sandbox_inactive; exact Hact|].
    intros r w1 (-> & Hcalls & Hact1). apply wp_bind.
    eapply wp_mono; [apply IH; exact Hact1|].
    intros r2 w2 ((bs & -> & Hlen) & Hcalls2 & Hact2).
    apply wp_ret. split; [eexists; split; [reflexivity|cbn; lia]|].
    split; [congruence|exact Hact2].
Qed.

Lemma destroy_times_live (env : Env) (sandbox_id : string) (n : nat)
    (w : World) (sb : SandboxSync) :
  active_sandboxes w !! sandbox_id = Some sb ->
  e2b_close env (tick w) (handle_id sb) = Ok tt ->
  wp (destroy_times env (S n) sandbox_id)
     (fun r w1 =>
        (exists bs, r = Ok bs /\ List.length bs = S n)
        /\ provider_calls w1 = provider_calls w ++ [PClose (handle_id sb)]
        /\ active_sandboxes w1 !! sandbox_id = None) w.
Proof.
  intros Hact Hclose. cbn [destroy_times]. apply wp_bind.
  eapply wp_mono; [apply (destroy_sandbox_live env _ _ sb Hact Hclose)|].
  intros r w1 (-> & Hcalls & Hact1 & _). apply wp_bind.
  eapply wp_mono; [apply (destroy_times_inactive env _ n _ Hact1)|].
  intros r2 w2 ((bs & -> & Hlen) & Hcalls2 & Hact2).
  apply wp_ret. split; [eexists; split; [reflexivity|cbn; lia]|].
  split; [congruence|exact Hact2].
Qed.

(** C4, as amended.  [destroy_sandbox] never raises.  On an id in active
    tracking whose handle closes, it calls [close] once, removes the id from
    both dictionaries, and answers [True] when the store takes the status
    update ([False] when the store refuses it).  On an id that is not in
    active tracking (never created, or destroyed before) it does not call
    the provider, and it answers [True] as well when the store takes the
    update.  Across [n + 1] calls in a row the provider sees exactly one
    [close] for a live id, and across any number of calls none for an
    unknown id. *)
Theorem destroy_sandbox_idempotent (env : Env) (sandbox_id : string) :
  (forall w, exists b w1, destroy_sandbox env sandbox_id w = (Ok b, w1))
  /\
  (forall w,
     active_sandboxes w !! sandbox_id = None ->
     exists w1,
       destroy_sandbox env sandbox_id w
         = (Ok (is_ok (supabase_execute env (1 + tick w))), w1)
       /\ provider_calls w1 = provider_calls w
       /\ active_sandboxes w1 !! sandbox_id = None)
  /\
  (forall w sb,
     active_sandboxes w !! sandbox_id = Some sb ->
     e2b_close env (tick w) (handle_id sb) = Ok tt ->
     exists w1,
       destroy_sandbox env sandbox_id w
         = (Ok (is_ok (supabase_execute env (2 + tick w))), w1)
       /\ provider_calls w1 = provider_calls w ++ [PClose (handle_id sb)]
       /\ active_sandboxes w1 !! sandbox_id = None
       /\ sandbox_metadata w1 !! sandbox_id = None)
  /\
  (forall n w sb,
     active_sandboxes w !! sandbox_id = Some sb ->
     e2b_close env (tick w) (handle_id sb) = Ok tt ->
     exists bs w1,
       destroy_times env (S n) sandbox_id w = (Ok bs, w1)
       /\ List.length bs = S n
       /\ provider_calls w1 = provider_calls w ++ [PClose (handle_id sb)])
  /\
  (forall n w,
     active_sandboxes w !! sandbox_id = None ->
     exists bs w1,
       destroy_times env n sandbox_id w = (Ok bs, w1)
       /\ List.length bs = n
       /\ provider_calls w1 = provider_calls w).
Proof.
  split; [intros w; apply destroy_sandbox_returns|].
  split.
  { intros w Hact.
    destruct (wp_ex _ _ _ (destroy_sandbox_inactive env sandbox_id w Hact))
      as (r & w1 & Hrun & -> & Hrest).
    exists w1. auto. }
  split.
  { intros w sb Hact Hclose.
    destruct (wp_ex _ _ _ (destroy_sandbox_live env sandbox_id w sb Hact Hclose))
      as (r & w1 & Hrun & -> & Hrest).
    exists w1. auto. }
  split.
  { intros n w sb Hact Hclose.
    destruct (wp_ex _ _ _ (destroy_times_live env sandbox_id n w sb Hact Hclose))
      as (r & w1 & Hrun & (bs & -> & Hlen) & Hcalls & _).
    exists bs, w1. auto. }
  { intros n w Hact.
    destruct (wp_ex _ _ _ (destroy_times_inactive env sandbox_id n w Hact))
      as (r & w1 & Hrun & (bs & -> & Hlen) & Hcalls & _).
    exists bs, w1. auto. }
Qed.

Lemma destroy_sandbox_idempotent_witness :
  (exists bs w1,
     destroy_times Demo.env0 3 "sbx-2" Demo.world1 = (Ok bs, w1)
     /\ List.length bs = 3%nat
     /\ provider_calls w1
        = provider_calls Demo.world1 ++ [PClose "sbx-2"])
  /\
  (exists bs w1,
     destroy_times Demo.env0 3 "ghost" Demo.world1 = (Ok bs, w1)
     /\ List.length bs = 3%nat
     /\ provider_calls w1 = provider_calls Demo.world1).
Proof.
  split.
  - apply (proj1 (proj2 (proj2 (proj2
             (destroy_sandbox_idempotent Demo.env0 "sbx-2"))))
             2%nat Demo.world1 {| handle_id := "sbx-2" |});
      reflexivity.
  - apply (proj2 (proj2 (proj2 (proj2
             (destroy_sandbox_idempotent Demo.env0 "ghost"))))
             3%nat Demo.world1);
      reflexivity.
Defined.

(** C4 as stated wants [False] from every call on an unknown id and from
    every repeated call.  With a store that answers, the call on the id
    [ghost], which was never created, returns [True], and so do the second
    and the third call on the destroyed [sbx-2]. *)
Lemma destroy_sandbox_unknown_id_returns_true :
  active_sandboxes Demo.empty_world !! "ghost" = None
  /\ fst (destroy_sandbox Demo.env0 "ghost" Demo.empty_world) = Ok true
  /\ fst (destroy_times Demo.env0 3 "sbx-2" Demo.world1)
     = Ok [true; true; true].
Proof. repeat split; vm_compute; reflexivity. Qed.

(** ** The streamed lines and the buffered result (C10) *)

Lemma messages_of_line_items (sandbox_id : string) (task_id : option string)
    (out : list (OutStream * string)) :
  messages_of "stdout" (List.map (line_item sandbox_id task_id) out)
    = lines_of OnStdout out
  /\ messages_of "stderr" (List.map (line_item sandbox_id task_id) out)
    = lines_of OnStderr out.
Proof.
  unfold messages_of, lines_of.
  induction out as [|[[] line] out [IH1 IH2]]; [split; reflexivity| |];
    split; cbn in *; congruence.
Qed.

(** C10.  When the provider returns from a streamed run, the [stdout] of
    the result is the newline-join of the lines that were handed to the
    stdout callback, in arrival order, and likewise for [stderr]; the
    publishes queued by the callbacks during the run carry the same lines in
    the same order, so the buffered result and the streamed line events
    agree. *)
Theorem streamed_result_joins_the_callback_lines
    (env : Env) (cfg : Config) (sandbox : SandboxSync)
    (sandbox_id code : string) (task_id : option string) (w : World)
    (execution : Execution) :
  finished (e2b_start env (tick w) (handle_id sandbox) (python_cmd code))
    = Ok execution ->
  exists res w1 queued,
    _execute_with_streaming env cfg sandbox sandbox_id code task_id w
      = (Ok res, w1)
    /\ r_exit_code res = exit_code execution
    /\ r_stdout res
       = join_lines (lines_of OnStdout
           (output (e2b_start env (tick w) (handle_id sandbox)
                      (python_cmd code))))
    /\ r_stderr res
       = join_lines (lines_of OnStderr
           (output (e2b_start env (tick w) (handle_id sandbox)
                      (python_cmd code))))
    /\ scheduled w1 = scheduled w ++ queued
    /\ queued = List.map (line_item sandbox_id task_id)
                  (output (e2b_start env (tick w) (handle_id sandbox)
                             (python_cmd code)))
    /\ r_stdout res = join_lines (messages_of "stdout" queued)
    /\ r_stderr res = join_lines (messages_of "stderr" queued).
Proof.
  intros Hfin.
  destruct (messages_of_line_items sandbox_id task_id
              (output (e2b_start env (tick w) (handle_id sandbox)
                         (python_cmd code)))) as [Hout Herr].
  destruct (wp_ex (_execute_with_streaming env cfg sandbox sandbox_id code
                     task_id)
    (fun r w1 =>
       exists res, r = Ok res
       /\ r_exit_code res = exit_code execution
       /\ r_stdout res
          = join_lines (lines_of OnStdout
              (output (e2b_start env (tick w) (handle_id sandbox)
                         (python_cmd code))))
       /\ r_stderr res
          = join_lines (lines_of OnStderr
              (output (e2b_start env (tick w) (handle_id sandbox)
                         (python_cmd code))))
       /\ scheduled w1
          = scheduled w ++ List.map (line_item sandbox_id task_id)
              (output (e2b_start env (tick w) (handle_id sandbox)
                         (python_cmd code)))) w)
    as (r & w1 & Hrun & res & -> & Hcode & Hso & Hse & Hq).
  - wp_exec; cbn in *; try congruence.
    eexists. split; [reflexivity|]. cbn.
    repeat split; congruence.
  - exists res, w1, (List.map (line_item sandbox_id task_id)
      (output (e2b_start env (tick w) (handle_id sandbox) (python_cmd code)))).
    rewrite Hout, Herr. auto 10.
Qed.

Lemma streamed_result_joins_the_callback_lines_witness :
  exists res w1 queued,
    _execute_with_streaming Demo.env0 Demo.cfg0 {| handle_id := "sbx-2" |}
      "sbx-2" "print(1)" None Demo.world1 = (Ok res, w1)
    /\ r_exit_code res = exit_code
         {| exit_code := 0; stdout := "line1" +:+ newline +:+ "line2";
            stderr := "warn" |}
    /\ r_stdout res
       = join_lines (lines_of OnStdout
           (output (e2b_start Demo.env0 (tick Demo.world1)
                      (handle_id {| handle_id := "sbx-2" |})
                      (python_cmd "print(1)"))))
    /\ r_stderr res
       = join_lines (lines_of OnStderr
           (output (e2b_start Demo.env0 (tick Demo.world1)
                      (handle_id {| handle_id := "sbx-2" |})
                      (python_cmd "print(1)"))))
    /\ scheduled w1 = scheduled Demo.world1 ++ queued
    /\ queued = List.map (line_item "sbx-2" None)
                  (output (e2b_start Demo.env0 (tick Demo.world1)
                             (handle_id {| handle_id := "sbx-2" |})
                             (python_cmd "print(1)")))
    /\ r_stdout res = join_lines (messages_of "stdout" queued)
    /\ r_stderr res = join_lines (messages_of "stderr" queued).
Proof.
  apply (streamed_result_joins_the_callback_lines Demo.env0 Demo.cfg0
           {| handle_id := "sbx-2" |} "sbx-2" "print(1)" None Demo.world1
           {| exit_code := 0; stdout := "line1" +:+ newline +:+ "line2";
              stderr := "warn" |}).
  reflexivity.
Defined.

Example streamed_result_demo :
  fst (_execute_with_streaming Demo.env0 Demo.cfg0 {| handle_id := "sbx-2" |}
         "sbx-2" "print(1)" None Demo.world1)
  = Ok {| r_exit_code := 0;
          r_stdout := "line1" +:+ newline +:+ "line2";
          r_stderr := "warn";
          r_execution_time_ms := None |}.
Proof. reflexivity. Qed.

(** When the event loop runs the queued publishes on a sink that takes
    them, they are delivered in the order in which they were queued. *)
Lemma run_tasks_delivers (env : Env) (q : list StreamItem) :
  (forall t item, sink_insert env t item = Ok tt) ->
  forall w,
    wp (run_tasks env q)
       (fun r w1 => r = Ok tt
                    /\ delivered w1 = delivered w ++ q
                    /\ scheduled w1 = scheduled w
                    /\ provider_calls w1 = provider_calls w) w.
Proof.
  intros Hsink. induction q as [|item q IH]; intros w.
  - apply wp_ret. rewrite app_nil_r. auto.
  - cbn [run_tasks]. do 4 wp_step. rewrite Hsink. wp_step.
    eapply wp_mono; [apply IH|].
    intros r w1 (-> & Hd & Hs & Hc). cbn in Hd, Hs, Hc.
    rewrite <- app_assoc in Hd. auto.
Qed.

Lemma run_scheduled_delivers (env : Env) (w : World) :
  (forall t item, sink_insert env t item = Ok tt) ->
  wp (run_scheduled env)
     (fun r w1 => r = Ok tt
                  /\ delivered w1 = delivered w ++ scheduled w
                  /\ scheduled w1 = []
                  /\ provider_calls w1 = provider_calls w) w.
Proof.
  intros Hsink. unfold run_scheduled. do 4 wp_step.
  eapply wp_mono; [apply (run_tasks_delivers env _ Hsink)|].
  intros r w1 (-> & Hd & Hs & Hc). cbn in Hd, Hs, Hc. auto.
Qed.

(** A streamed execution followed by a turn of the event loop: the stdout
    events that reach the sink are the lines of the result, in order. *)
Example streamed_events_demo :
  messages_of "stdout"
    (delivered
       (snd (run_scheduled Demo.env0
          (snd (_execute_with_streaming Demo.env0 Demo.cfg0
                  {| handle_id := "sbx-2" |} "sbx-2" "print(1)" None
                  Demo.empty_world)))))
  = ["line1"; "line2"].
Proof. vm_compute. reflexivity. Qed.

(** ** What an execution changes in the registry (C5, C9) *)

Lemma only_activity_changed_refl (r : SandboxData) : only_activity_changed r r.
Proof. destruct r; reflexivity. Qed.

Lemma only_activity_changed_trans (r r1 r2 : SandboxData) :
  only_activity_changed r r1 -> only_activity_changed r1 r2 ->
  only_activity_changed r r2.
Proof.
  unfold only_activity_changed. intros H1 H2. rewrite H2, H1.
  destruct r; reflexivity.
Qed.

Lemma only_activity_changed_touch (now : Z) (r : SandboxData) :
  only_activity_changed r (set_last_activity now r).
Proof. destruct r; reflexivity. Qed.

Lemma only_activity_changed_expires (r r1 : SandboxData) :
  only_activity_changed r r1 ->
  expires_at r1 = expires_at r /\ status r1 = status r
  /\ e2b_sandbox_id r1 = e2b_sandbox_id r /\ user_id r1 = user_id r
  /\ md_created_at r1 = md_created_at r.
Proof. intros ->. destruct r; cbn; auto. Qed.

Lemma rows_frame_refl (rows : list SandboxData) :
  Forall2 only_activity_changed rows rows.
Proof.
  induction rows; constructor; auto using only_activity_changed_refl.
Qed.

Lemma rows_frame_trans (l l1 l2 : list SandboxData) :
  Forall2 only_activity_changed l l1 -> Forall2 only_activity_changed l1 l2 ->
  Forall2 only_activity_changed l l2.
Proof.
  intros H. revert l2. induction H; intros l2 H2; inversion H2; subst;
    constructor; eauto using only_activity_changed_trans.
Qed.

Lemma rows_frame_touch (now : Z) (sandbox_id : string)
    (rows : list SandboxData) :
  Forall2 only_activity_changed rows
    (List.map (fun r => if String.eqb (e2b_sandbox_id r) sandbox_id
                        then set_last_activity now r else r) rows).
Proof.
  induction rows as [|r rows IH]; cbn; constructor; auto.
  destruct (String.eqb (e2b_sandbox_id r) sandbox_id);
    auto using only_activity_changed_refl, only_activity_changed_touch.
Qed.

Lemma rows_frame_expires (l l1 : list SandboxData) :
  Forall2 only_activity_changed l l1 ->
  List.map expires_at l1 = List.map expires_at l.
Proof.
  induction 1 as [|r r1 l l1 Hr _ IH]; cbn; [reflexivity|].
  destruct (only_activity_changed_expires _ _ Hr) as [-> _]. now rewrite IH.
Qed.

Lemma registry_frame_refl (w : World) : registry_frame w w.
Proof. unfold registry_frame. auto using rows_frame_refl. Qed.

Lemma registry_frame_trans (w w1 w2 : World) :
  registry_frame w w1 -> registry_frame w1 w2 -> registry_frame w w2.
Proof.
  unfold registry_frame. intros (A1 & M1 & T1) (A2 & M2 & T2).
  repeat split; [congruence|congruence|eauto using rows_frame_trans].
Qed.

Lemma update_sandbox_activity_frame (env : Env) (sandbox_id : string)
    (w : World) :
  wp (_update_sandbox_activity env sandbox_id)
     (fun _ w1 => registry_frame w w1) w.
Proof.
  wp_exec; unfold registry_frame; cbn;
    auto using rows_frame_refl, rows_frame_touch.
Qed.

Lemma execute_code_frame (env : Env) (cfg : Config) (sandbox_id code : string)
    (task_id : option string) (stream_output : bool) (w : World) :
  wp (execute_code env cfg sandbox_id code task_id stream_output)
     (fun _ w1 => registry_frame w w1) w.
Proof.
  wp_exec; unfold registry_frame; cbn;
    auto using rows_frame_refl, rows_frame_touch.
Qed.

Lemma execute_each_frame (env : Env) (cfg : Config)
    (reqs : list (string * string * option string * bool)) :
  forall w, wp (execute_each env cfg reqs) (fun _ w1 => registry_frame w w1) w.
Proof.
  induction reqs as [|[[[sandbox_id code] task_id] stream_output] reqs IH];
    intros w.
  - apply wp_ret, registry_frame_refl.
  - cbn [execute_each]. apply wp_bind, wp_try, wp_bind.
    eapply wp_mono; [apply execute_code_frame|].
    intros r w1 Hf.
    assert (Hnext : wp (execute_each env cfg reqs)
                       (fun _ w2 => registry_frame w w2) w1).
    { eapply wp_mono; [apply IH|].
      intros r2 w2 Hf2. cbv beta in Hf2.
      exact (registry_frame_trans _ _ _ Hf Hf2). }
    destruct r; cbv beta iota; wp_exec; exact Hnext.
Qed.

(** When the provider raises, the caller receives the execution failure
    that wraps the cause, and the trace shows the one attempt. *)
Lemma execute_code_provider_failure
    (env : Env) (cfg : Config) (sandbox_id code : string)
    (task_id : option string) (stream_output : bool) (w : World)
    (sb : SandboxSync) (e : PyExn) :
  active_sandboxes w !! sandbox_id = Some sb ->
  is_safe (validate_code env code) = true ->
  supabase_execute env (1 + tick w) = Ok tt ->
  finished (e2b_start env ((if stream_output then 4 else 3) + tick w)
              (handle_id sb) (python_cmd code)) = Raise e ->
  wp (execute_code env cfg sandbox_id code task_id stream_output)
     (fun r w1 =>
        r = Raise (Exception (execution_failed_msg (str e)))
        /\ provider_calls w1
           = provider_calls w ++ [PStart (handle_id sb) (python_cmd code)
                                    (max_execution_time cfg) stream_output]) w.
Proof.
  intros Hact Hsafe Hstore Hfail.
  do 3 wp_step. rewrite Hact, decide_is_Some_Some, Hsafe. cbn [negb].
  do 2 wp_step. rewrite Hact.
  destruct stream_output; wp_exec; cbn in *; try congruence.
  all: split; [congruence|reflexivity].
Qed.

(** C5, as amended.  [execute_code] keeps no usage counters.  Whatever the
    outcome of a call, the two dictionaries of the manager are what they
    were and the rows of the table differ at most in [last_activity_at],
    which is refreshed before the provider is called; nothing counts
    commands or seconds.  When the provider call fails, the error is still
    returned to the caller, as the execution failure that carries the cause,
    and the provider saw the one attempt. *)
Theorem execute_code_touches_only_activity
    (env : Env) (cfg : Config) (sandbox_id code : string)
    (task_id : option string) (stream_output : bool) (w : World) :
  (exists r w1,
     execute_code env cfg sandbox_id code task_id stream_output w = (r, w1)
     /\ active_sandboxes w1 = active_sandboxes w
     /\ sandbox_metadata w1 = sandbox_metadata w
     /\ Forall2 only_activity_changed (sandboxes_table w) (sandboxes_table w1))
  /\
  (forall sb e,
     active_sandboxes w !! sandbox_id = Some sb ->
     is_safe (validate_code env code) = true ->
     supabase_execute env (1 + tick w) = Ok tt ->
     finished (e2b_start env ((if stream_output then 4 else 3) + tick w)
                 (handle_id sb) (python_cmd code)) = Raise e ->
     exists w1,
       execute_code env cfg sandbox_id code task_id stream_output w
         = (Raise (Exception (execution_failed_msg (str e))), w1)
       /\ provider_calls w1
          = provider_calls w ++ [PStart (handle_id sb) (python_cmd code)
                                   (max_execution_time cfg) stream_output]).
Proof.
  split.
  - destruct (wp_ex _ _ _
      (execute_code_frame env cfg sandbox_id code task_id stream_output w))
      as (r & w1 & Hrun & Hframe).
    exists r, w1. split; [exact Hrun|exact Hframe].
  - intros sb e Hact Hsafe Hstore Hfail.
    destruct (wp_ex _ _ _
      (execute_code_provider_failure env cfg sandbox_id code task_id
         stream_output w sb e Hact Hsafe Hstore Hfail))
      as (r & w1 & Hrun & -> & Hcalls).
    exists w1. auto.
Qed.

Lemma execute_code_touches_only_activity_witness :
  exists w1,
    execute_code Demo.env_start_fails Demo.cfg0 "sbx-2" "print(1)" None true
      Demo.world1
      = (Raise (Exception (execution_failed_msg (str (Exception "timeout")))),
         w1)
    /\ provider_calls w1
       = provider_calls Demo.world1
         ++ [PStart "sbx-2" (python_cmd "print(1)")
               (max_execution_time Demo.cfg0) true].
Proof.
  apply (proj2 (execute_code_touches_only_activity Demo.env_start_fails
                  Demo.cfg0 "sbx-2" "print(1)" None true Demo.world1)
               {| handle_id := "sbx-2" |} (Exception "timeout"));
    reflexivity.
Defined.

(** C5 as stated has the usage counters of the sandbox incremented once the
    provider call returns.  Here the provider call returns (the trace shows
    it and the result is there), and the record of the sandbox is unchanged:
    the entry of [sandbox_metadata] is the same, and the row of the table is
    the same once [last_activity_at] is set aside.  The record has no field
    that counts commands or execution time. *)
Lemma execute_code_increments_no_counter :
  fst (execute_code Demo.env0 Demo.cfg0 "sbx-2" "print(1)" None false
         Demo.world1)
  = Ok {| r_exit_code := 0;
          r_stdout := "line1" +:+ newline +:+ "line2";
          r_stderr := "warn";
          r_execution_time_ms := Some 20 |}
  /\ provider_calls
       (snd (execute_code Demo.env0 Demo.cfg0 "sbx-2" "print(1)" None false
               Demo.world1))
     = provider_calls Demo.world1
       ++ [PStart "sbx-2" (python_cmd "print(1)") 300 false]
  /\ sandbox_metadata
       (snd (execute_code Demo.env0 Demo.cfg0 "sbx-2" "print(1)" None false
               Demo.world1)) !! "sbx-2"
     = sandbox_metadata Demo.world1 !! "sbx-2"
  /\ List.map (set_last_activity 0)
       (sandboxes_table
          (snd (execute_code Demo.env0 Demo.cfg0 "sbx-2" "print(1)" None false
                  Demo.world1)))
     = List.map (set_last_activity 0) (sandboxes_table Demo.world1).
Proof. repeat split; vm_compute; reflexivity. Qed.

(** ** Activity does not extend the lease (C9) *)

(** A successful creation appends one Running row whose [expires_at] is the
    clock reading taken for it plus one hour; [created_at] is the reading
    that follows, so the two differ by one hour less the time between the
    readings. *)
Lemma create_sandbox_fixes_expiry
    (env : Env) (cfg : Config) (user : string) (task_id tpl : option string)
    (w : World) :
  wp (create_sandbox env cfg user task_id tpl)
     (fun r w1 =>
        forall res, r = Ok res ->
          exists row,
            sandboxes_table w1 = sandboxes_table w ++ [row]
            /\ sandbox_metadata w1 !! c_sandbox_id res = Some row
            /\ e2b_sandbox_id row = c_sandbox_id res
            /\ status row = Running
            /\ expires_at row = utcnow env (6 + tick w) + one_hour
            /\ md_created_at row = utcnow env (7 + tick w)
            /\ expires_at row
               = md_created_at row + one_hour
                 - (utcnow env (7 + tick w) - utcnow env (6 + tick w))
            /\ c_expires_at res = expires_at row) w.
Proof.
  wp_exec; intros res [=]; subst; cbn.
  all: eexists; split; [reflexivity|].
  all: split; [apply lookup_insert_eq|]; cbn.
  all: repeat split; auto.
  all: lia.
Qed.

(** C9, as amended.  The activity refresh is frame-limited.  The touch that
    [execute_code] performs, [execute_code] itself, and any series of
    [execute_code] requests leave the two dictionaries alone and change, in
    the rows of the table, nothing but [last_activity_at]; in particular the
    [expires_at] of every row stays what it was.  That value is fixed by
    [create_sandbox]: the clock reading taken for it plus one hour.
    [created_at] is a reading of its own, taken after that one, so
    [expires_at] is [created_at] plus one hour less the time that passed
    between the two readings. *)
Theorem activity_never_extends_expiry (env : Env) (cfg : Config) (w : World) :
  (forall user task_id tpl res w1,
     create_sandbox env cfg user task_id tpl w = (Ok res, w1) ->
     exists row,
       sandboxes_table w1 = sandboxes_table w ++ [row]
       /\ sandbox_metadata w1 !! c_sandbox_id res = Some row
       /\ e2b_sandbox_id row = c_sandbox_id res
       /\ status row = Running
       /\ expires_at row = utcnow env (6 + tick w) + one_hour
       /\ md_created_at row = utcnow env (7 + tick w)
       /\ expires_at row
          = md_created_at row + one_hour
            - (utcnow env (7 + tick w) - utcnow env (6 + tick w))
       /\ c_expires_at res = expires_at row)
  /\
  (forall sandbox_id, exists r w1,
     _update_sandbox_activity env sandbox_id w = (r, w1)
     /\ registry_frame w w1
     /\ List.map expires_at (sandboxes_table w1)
        = List.map expires_at (sandboxes_table w))
  /\
  (forall sandbox_id code task_id stream_output, exists r w1,
     execute_code env cfg sandbox_id code task_id stream_output w = (r, w1)
     /\ registry_frame w w1
     /\ List.map expires_at (sandboxes_table w1)
        = List.map expires_at (sandboxes_table w))
  /\
  (forall reqs, exists r w1,
     execute_each env cfg reqs w = (r, w1)
     /\ registry_frame w w1
     /\ List.map expires_at (sandboxes_table w1)
        = List.map expires_at (sandboxes_table w)).
Proof.
  split.
  { intros user task_id tpl res w1 Hrun.
    exact (wp_elim _ _ _ _ _ Hrun
             (create_sandbox_fixes_expiry env cfg user task_id tpl w)
             res eq_refl). }
  split.
  { intros sandbox_id.
    destruct (wp_ex _ _ _ (update_sandbox_activity_frame env sandbox_id w))
      as (r & w1 & Hrun & Hf).
    exists r, w1. split; [exact Hrun|]. split; [exact Hf|].
    apply rows_frame_expires, Hf. }
  split.
  { intros sandbox_id code task_id stream_output.
    destruct (wp_ex _ _ _
      (execute_code_frame env cfg sandbox_id code task_id stream_output w))
      as (r & w1 & Hrun & Hf).
    exists r, w1. split; [exact Hrun|]. split; [exact Hf|].
    apply rows_frame_expires, Hf. }
  { intros reqs.
    destruct (wp_ex _ _ _ (execute_each_frame env cfg reqs w))
      as (r & w1 & Hrun & Hf).
    exists r, w1. split; [exact Hrun|]. split; [exact Hf|].
    apply rows_frame_expires, Hf. }
Qed.

Lemma activity_never_extends_expiry_witness :
  (exists row,
     sandboxes_table Demo.world1 = sandboxes_table Demo.empty_world ++ [row]
     /\ sandbox_metadata Demo.world1 !! "sbx-2" = Some row
     /\ e2b_sandbox_id row = "sbx-2"
     /\ status row = Running
     /\ expires_at row = 6000000 + one_hour
     /\ md_created_at row = 7000000
     /\ expires_at row = md_created_at row + one_hour - (7000000 - 6000000)
     /\ 3606000000 = expires_at row)
  /\
  (exists r w1,
     execute_each Demo.env0 Demo.cfg0
       [("sbx-2", "print(1)", None, true); ("sbx-2", "import os", None, true);
        ("sbx-2", "print(2)", Some "task-1", false)] Demo.world1 = (r, w1)
     /\ registry_frame Demo.world1 w1
     /\ List.map expires_at (sandboxes_table w1)
        = List.map expires_at (sandboxes_table Demo.world1)).
Proof.
  split.
  - apply (proj1 (activity_never_extends_expiry Demo.env0 Demo.cfg0
                    Demo.empty_world)
                 "u1" (Some "task-1") None
                 {| c_sandbox_id := "sbx-2"; c_internal_id := "uuid-4";
                    c_boot_time_ms := 20; c_template := "Python3";
                    c_status := Running; c_expires_at := 3606000000 |}
                 Demo.world1).
    reflexivity.
  - apply (proj2 (proj2 (proj2 (activity_never_extends_expiry Demo.env0
                                  Demo.cfg0 Demo.world1)))).
Defined.

(** C9 as stated has [expires_at] equal to [created_at] plus the hour of
    the lease.  In [world1], made by one [create_sandbox] under a clock that
    advances by a second per reading, the row was created at 7000000 and
    expires at 3606000000, a second before 7000000 plus one hour. *)
Lemma expiry_is_not_created_at_plus_ttl :
  List.map (fun r => (md_created_at r, expires_at r))
    (sandboxes_table Demo.world1)
  = [(7000000, 3606000000)]
  /\ 7000000 + one_hour = 3607000000
  /\ Forall (fun r => expires_at r <> md_created_at r + one_hour)
       (sandboxes_table Demo.world1).
Proof.
  split; [vm_compute; reflexivity|].
  split; [vm_compute; reflexivity|].
  repeat constructor. vm_compute. discriminate.
Qed.

Example activity_demo :
  List.map (fun r => (last_activity_at r, expires_at r))
    (sandboxes_table
       (snd (execute_code Demo.env0 Demo.cfg0 "sbx-2" "print(1)" None true
               Demo.world1)))
  = [(10000000, 3606000000)]
  /\ List.map (fun r => (last_activity_at r, expires_at r))
       (sandboxes_table Demo.world1)
     = [(5000000, 3606000000)].
Proof. split; reflexivity. Qed.

(** ** The reaper (C7) *)

Lemma is_expired_spec (now : Z) (r : SandboxData) :
  is_expired now r = true <-> expires_at r < now /\ status r = Running.
Proof.
  unfold is_expired. rewrite andb_true_iff, Z.ltb_lt.
  destruct (status r); cbn; intuition congruence.
Qed.

Lemma rows_stopped_after_update (now : Z) (sandbox_id : string)
    (rows : list SandboxData) :
  Forall (fun r => e2b_sandbox_id r = sandbox_id -> status r = Stopped)
    (List.map (fun r => if String.eqb (e2b_sandbox_id r) sandbox_id
                        then mark_stopped now r else r) rows).
Proof.
  induction rows as [|r rows IH]; cbn; constructor; auto.
  destruct (String.eqb (e2b_sandbox_id r) sandbox_id) eqn:E.
  - reflexivity.
  - apply String.eqb_neq in E. intros; contradiction.
Qed.

Lemma rows_stopped_preserved (now : Z) (id other : string)
    (rows : list SandboxData) :
  Forall (fun r => e2b_sandbox_id r = other -> status r = Stopped) rows ->
  Forall (fun r => e2b_sandbox_id r = other -> status r = Stopped)
    (List.map (fun r => if String.eqb (e2b_sandbox_id r) id
                        then mark_stopped now r else r) rows).
Proof.
  induction 1 as [|r rows Hr _ IH]; cbn; constructor; auto.
  destruct (String.eqb (e2b_sandbox_id r) id); auto.
Qed.

(** A destroy that answers [True] has terminated the id. *)
Lemma destroy_sandbox_true_terminates (env : Env) (sandbox_id : string)
    (w : World) :
  wp (destroy_sandbox env sandbox_id)
     (fun r w1 => r = Ok true -> terminated sandbox_id w1) w.
Proof.
  wp_exec; intros [=]; unfold terminated; cbn;
    (split; [first [apply lookup_delete_eq | assumption]
            | apply rows_stopped_after_update]).
Qed.

(** No destroy brings a terminated id back. *)
Lemma destroy_sandbox_keeps_terminated (env : Env) (sandbox_id other : string)
    (w : World) :
  terminated other w ->
  wp (destroy_sandbox env sandbox_id) (fun _ w1 => terminated other w1) w.
Proof.
  intros [Hact Hrows].
  wp_exec; unfold terminated; cbn;
    (split; [first [assumption
                   | apply lookup_delete_None; right; assumption]
            | first [assumption | apply rows_stopped_preserved, Hrows]]).
Qed.

Lemma sweep_outcomes_length (env : Env) (data : list SandboxData) :
  forall w, List.length (sweep_outcomes env data w) = List.length data.
Proof. induction data as [|d data IH]; intros w; cbn; auto. Qed.

(** The loop of the reaper never raises, visits every selected row, counts
    the destroys that answered [True], and leaves the ids of those
    terminated. *)
Lemma cleanup_loop_spec (env : Env) (data : list SandboxData) :
  forall (acc : Z) (w : World),
    wp (cleanup_loop env data acc)
       (fun r w1 =>
          r = Ok (acc + count_true (sweep_outcomes env data w))
          /\ (forall other, terminated other w -> terminated other w1)
          /\ (forall i d,
                data !! i = Some d ->
                sweep_outcomes env data w !! i = Some true ->
                terminated (e2b_sandbox_id d) w1)) w.
Proof.
  induction data as [|d data IH]; intros acc w.
  - apply wp_ret. split; [unfold count_true; cbn; f_equal; lia|].
    split; [auto|]. intros i x Hi. destruct i; discriminate Hi.
  - cbn [cleanup_loop sweep_outcomes].
    destruct (destroy_sandbox_returns env (e2b_sandbox_id d) w)
      as (b & w1 & Hrun).
    pose proof (wp_elim _ _ _ _ _ Hrun
      (destroy_sandbox_true_terminates env (e2b_sandbox_id d) w)) as Hterm.
    assert (Hkeep : forall other, terminated other w -> terminated other w1).
    { intros other Ho.
      exact (wp_elim _ _ _ _ _ Hrun
        (destroy_sandbox_keeps_terminated env (e2b_sandbox_id d) other w Ho)). }
    unfold wp. rewrite (bind_ok_run _ _ _ _ _ Hrun), Hrun. cbn [fst snd].
    specialize (IH (if b then acc + 1 else acc) w1).
    unfold wp in IH. destruct IH as (Hres & Hmono & Hdone).
    split.
    { rewrite Hres. f_equal. unfold count_true. destruct b; cbn; lia. }
    split; [auto|].
    intros i x Hi Ho. destruct i as [|i]; cbn in Hi, Ho.
    + injection Hi as <-. injection Ho as ->. apply Hmono, Hterm. reflexivity.
    + eauto.
Qed.

(** When neither the provider nor the store ever raises, every destroy
    answers [True]. *)
Lemma destroy_sandbox_succeeds (env : Env) (sandbox_id : string) (w : World) :
  (forall t id, e2b_close env t id = Ok tt) ->
  (forall t, supabase_execute env t = Ok tt) ->
  wp (destroy_sandbox env sandbox_id) (fun r _ => r = Ok true) w.
Proof.
  intros Hclose Hstore. wp_exec; try reflexivity; exfalso.
  all: match goal with
       | H : e2b_close _ _ _ = Raise _ |- _ => rewrite Hclose in H
       | H : supabase_execute _ _ = Raise _ |- _ => rewrite Hstore in H
       end; discriminate.
Qed.

Lemma sweep_outcomes_all_true (env : Env) (data : list SandboxData) :
  (forall t id, e2b_close env t id = Ok tt) ->
  (forall t, supabase_execute env t = Ok tt) ->
  forall w, sweep_outcomes env data w = List.map (fun _ => true) data.
Proof.
  intros Hclose Hstore. induction data as [|d data IH]; intros w; cbn;
    [reflexivity|].
  pose proof (destroy_sandbox_succeeds env (e2b_sandbox_id d) w Hclose Hstore)
    as H. unfold wp in H. rewrite H, IH. reflexivity.
Qed.

Lemma count_true_all {A} (l : list A) :
  count_true (List.map (fun _ => true) l) = Z.of_nat (List.length l).
Proof.
  unfold count_true. f_equal. induction l; cbn; auto.
Qed.

Lemma cleanup_expired_sandboxes_spec (env : Env) (w : World) :
  wp (cleanup_expired_sandboxes env)
     (fun r w1 =>
        match supabase_execute env (1 + tick w) with
        | Ok _ =>
            r = Ok (count_true
                      (sweep_outcomes env
                         (List.filter (is_expired (utcnow env (tick w)))
                            (sandboxes_table w))
                         (bump (bump w))))
            /\ (forall i d,
                  List.filter (is_expired (utcnow env (tick w)))
                    (sandboxes_table w) !! i = Some d ->
                  sweep_outcomes env
                    (List.filter (is_expired (utcnow env (tick w)))
                       (sandboxes_table w))
                    (bump (bump w)) !! i = Some true ->
                  terminated (e2b_sandbox_id d) w1)
        | Raise _ =>
            r = Ok 0
            /\ provider_calls w1 = provider_calls w
            /\ active_sandboxes w1 = active_sandboxes w
            /\ sandboxes_table w1 = sandboxes_table w
        end) w.
Proof.
  destruct (supabase_execute env (1 + tick w)) as [[]|e] eqn:Hq;
    cbn [Nat.add] in Hq.
  - wp_exec; try (exfalso; cbn in *; congruence).
    eapply wp_mono; [apply cleanup_loop_spec|].
    intros r w1 (-> & _ & Hdone). wp_exec.
    split; [f_equal; lia|exact Hdone].
  - wp_exec; try (exfalso; cbn in *; congruence).
    cbn. auto.
Qed.

(** C7, as amended.  The reaper selects a row if and only if its
    [expires_at] is strictly before the clock reading and its status is
    Running.  The sweep never raises.  When the selection query raises it
    returns 0 and destroys nothing.  Otherwise it calls [destroy_sandbox]
    once per selected row, whatever the earlier calls answered, and returns
    the number of calls that answered [True]; after the sweep every id
    whose destroy answered [True] is terminated.  When neither the provider
    nor the store ever raises, that is every selected id. *)
Theorem sweep_terminates_what_it_counts (env : Env) (w : World) :
  let selected :=
    List.filter (is_expired (utcnow env (tick w))) (sandboxes_table w) in
  let outcomes := sweep_outcomes env selected (bump (bump w)) in
  (forall r,
     In r selected
     <-> In r (sandboxes_table w)
         /\ expires_at r < utcnow env (tick w) /\ status r = Running)
  /\ List.length outcomes = List.length selected
  /\ exists n w1,
       cleanup_expired_sandboxes env w = (Ok n, w1)
       /\ match supabase_execute env (1 + tick w) with
          | Ok _ =>
              n = count_true outcomes
              /\ (forall i d,
                    selected !! i = Some d ->
                    outcomes !! i = Some true ->
                    terminated (e2b_sandbox_id d) w1)
          | Raise _ =>
              n = 0
              /\ provider_calls w1 = provider_calls w
              /\ active_sandboxes w1 = active_sandboxes w
              /\ sandboxes_table w1 = sandboxes_table w
          end
       /\ ((forall t id, e2b_close env t id = Ok tt) ->
           (forall t, supabase_execute env t = Ok tt) ->
           n = Z.of_nat (List.length selected)
           /\ (forall d, In d selected -> terminated (e2b_sandbox_id d) w1)).
Proof.
  cbv zeta. split.
  { intros r. rewrite filter_In, is_expired_spec. reflexivity. }
  split; [apply sweep_outcomes_length|].
  destruct (wp_ex _ _ _ (cleanup_expired_sandboxes_spec env w))
    as (r & w1 & Hrun & Hspec).
  assert (Hr : exists n, r = Ok n).
  { destruct (supabase_execute env (1 + tick w)); destruct Hspec as [-> _];
      eauto. }
  destruct Hr as [n ->]. exists n, w1. split; [exact Hrun|]. split.
  { destruct (supabase_execute env (1 + tick w)).
    - destruct Hspec as [[= ->] Hdone]. split; [reflexivity|exact Hdone].
    - destruct Hspec as ([= ->] & Hp & Ha & Ht). auto. }
  intros Hclose Hstore. rewrite Hstore in Hspec.
  destruct Hspec as ([= ->] & Hdone).
  rewrite (sweep_outcomes_all_true env _ Hclose Hstore) in Hdone |- *.
  split; [apply count_true_all|].
  intros d Hin. apply list_elem_of_In, list_elem_of_lookup in Hin.
  destruct Hin as [i Hi]. apply (Hdone i d Hi).
  rewrite list_lookup_fmap, Hi. reflexivity.
Qed.

Lemma sweep_terminates_what_it_counts_witness :
  (exists w1,
     cleanup_expired_sandboxes Demo.env_reaper Demo.world2 = (Ok 1, w1)
     /\ terminated "sbx-12" w1)
  /\ (exists w1,
        cleanup_expired_sandboxes Demo.env_insert_fails Demo.world2
          = (Ok 0, w1)
        /\ sandboxes_table w1 = sandboxes_table Demo.world2).
Proof.
  split.
  - destruct (proj2 (proj2
               (sweep_terminates_what_it_counts Demo.env_reaper Demo.world2)))
      as (n & w1 & Hrun & (Hn & Hdone) & _).
    exists w1. split.
    + rewrite Hrun, Hn. reflexivity.
    + assert (Hsel : exists d,
                List.filter
                  (is_expired (utcnow Demo.env_reaper (tick Demo.world2)))
                  (sandboxes_table Demo.world2) !! 1%nat = Some d
                /\ e2b_sandbox_id d = "sbx-12").
      { eexists. split; lazy; reflexivity. }
      destruct Hsel as (d & Hi & <-).
      apply (Hdone 1%nat d Hi). vm_compute. reflexivity.
  - destruct (proj2 (proj2
               (sweep_terminates_what_it_counts Demo.env_insert_fails
                  Demo.world2)))
      as (n & w1 & Hrun & (Hn & _ & _ & Ht) & _).
    exists w1. split; [rewrite Hrun, Hn; reflexivity | exact Ht].
Defined.

(** A stuck handle is left out of the count and does not stop the sweep:
    the first of two expired sandboxes cannot be closed, the second is
    destroyed all the same, and the sweep returns 1. *)
Example sweep_partial_failure_demo :
  List.map e2b_sandbox_id
    (List.filter (is_expired 9000000000) (sandboxes_table Demo.world2))
  = ["sbx-2"; "sbx-12"]
  /\ sweep_outcomes Demo.env_reaper
       (List.filter (is_expired 9000000000) (sandboxes_table Demo.world2))
       (bump (bump Demo.world2))
     = [false; true]
  /\ fst (cleanup_expired_sandboxes Demo.env_reaper Demo.world2) = Ok 1
  /\ List.map (fun r => (e2b_sandbox_id r, status r))
       (sandboxes_table
          (snd (cleanup_expired_sandboxes Demo.env_reaper Demo.world2)))
     = [("sbx-2", Running); ("sbx-12", Stopped)].
Proof. repeat split; vm_compute; reflexivity. Qed.

(** C7 as stated selects a sandbox whose [expires_at] equals the clock
    reading.  The only row of [world1] is Running and expires at
    3606000000; with the clock at exactly that value the filter of the
    reaper rejects it, the sweep returns 0 and the row is still Running.
    One microsecond later it is selected and destroyed. *)
Lemma reaper_skips_sandbox_expiring_now :
  List.map (fun r => (expires_at r, status r)) (sandboxes_table Demo.world1)
  = [(3606000000, Running)]
  /\ utcnow (Demo.env_at 3606000000) (tick Demo.world1) = 3606000000
  /\ List.filter (is_expired 3606000000) (sandboxes_table Demo.world1) = []
  /\ fst (cleanup_expired_sandboxes (Demo.env_at 3606000000) Demo.world1)
     = Ok 0
  /\ List.map status
       (sandboxes_table
          (snd (cleanup_expired_sandboxes (Demo.env_at 3606000000)
                  Demo.world1)))
     = [Running]
  /\ fst (cleanup_expired_sandboxes (Demo.env_at 3606000001) Demo.world1)
     = Ok 1.
Proof. repeat split; vm_compute; reflexivity. Qed.

(** ** Emission is best-effort (C6) *)

(** The outcome of [execute_code] is a function of what the store, the
    provider, the clock and the gate answer. *)
Lemma execute_code_outcome (env : Env) (cfg : Config)
    (sandbox_id code : string) (task_id : option string)
    (stream_output : bool) (w : World) :
  wp (execute_code env cfg sandbox_id code task_id stream_output)
     (fun r _ => r = execute_code_result env cfg sandbox_id code stream_output w)
     w.
Proof.
  unfold execute_code_result.
  destruct (active_sandboxes w !! sandbox_id) as [sb|] eqn:Hact.
  - do 3 wp_step. rewrite Hact, decide_is_Some_Some. cbn [negb].
    destruct (is_safe (validate_code env code)) eqn:Hsafe; cbn [negb].
    + do 2 wp_step. rewrite Hact. cbn [Nat.add].
      destruct stream_output; wp_exec; cbn in *;
        repeat match goal with
               | H : supabase_execute env _ = _ |- _ => rewrite H
               | H : finished _ = _ |- _ => rewrite H
               end; cbn; try reflexivity.
    + wp_exec; reflexivity.
  - do 3 wp_step. rewrite Hact, decide_is_Some_None. cbn [negb].
    wp_exec. reflexivity.
Qed.

Import RealtimeStreaming.

Lemma add_console_nil (s : Streamer) : add_console [] s = s.
Proof. destruct s. unfold add_console. cbn. now rewrite app_nil_r. Qed.

Lemma add_console_app (l1 l2 : list Printed) (s : Streamer) :
  add_console l2 (add_console l1 s) = add_console (l1 ++ l2) s.
Proof. unfold add_console. cbn. now rewrite app_assoc. Qed.

Lemma print_categories_run (items : list (string * Z)) :
  forall s, print_categories items s
            = (Ok tt, add_console (category_lines items) s).
Proof.
  induction items as [|[cat count] items IH]; intros s.
  - cbn. now rewrite add_console_nil.
  - cbn [print_categories]. rewrite bind_run.
    unfold category_lines. cbn [List.map List.concat fst snd].
    fold (category_lines items).
    destruct (0 <? count); cbn [when].
    + unfold print, modify. rewrite IH, add_console_app. reflexivity.
    + unfold ret. rewrite IH. reflexivity.
Qed.

Lemma wp_print_categories (items : list (string * Z))
    (Q : Result unit -> Streamer -> Prop) (s : Streamer) :
  Q (Ok tt) (add_console (category_lines items) s) ->
  wp (print_categories items) Q s.
Proof. unfold wp. now rewrite print_categories_run. Qed.

Lemma category_lines_no_verdict (items : list (string * Z)) :
  List.filter is_verdict (category_lines items) = [].
Proof.
  unfold category_lines.
  induction items as [|[cat count] items IH]; cbn; [reflexivity|].
  rewrite List.filter_app, IH. destruct (0 <? count); reflexivity.
Qed.

Ltac twp_unfold :=
  lazymatch goal with
  | |- wp (print_categories _) _ _ => apply wp_print_categories
  | |- wp (stream_event _ _) _ _ => unfold stream_event
  | |- wp (end_session _ _ _ _ _) _ _ => unfold end_session
  | |- wp (pytest_sessionfinish _ _) _ _ => unfold pytest_sessionfinish
  | |- wp (insert_log _ _) _ _ => unfold insert_log
  | |- wp (time_now _) _ _ => unfold time_now
  | |- wp (print _) _ _ => unfold print
  end.

Ltac twp_step := wp_step_with ltac:(idtac; twp_unfold).
Ltac twp_exec := repeat twp_step.

(** [stream_event] returns normally whatever the [logs] table answers; a
    refused insert leaves the table as it was and is reported on the
    console. *)
Lemma stream_event_returns (tenv : TestEnv) (event : TestEvent) (s : Streamer) :
  wp (stream_event tenv event)
     (fun r s1 =>
        r = Ok tt
        /\ (supabase s = false -> s1 = s)
        /\ (supabase s = true ->
            match logs_insert tenv (calls s) (event_entry event) with
            | Ok _ =>
                logs_table s1 = logs_table s ++ [event_entry event]
                /\ console s1
                   = console s ++ [PStreamed (upper (event_type event))
                                     (test_name event)]
            | Raise e =>
                logs_table s1 = logs_table s
                /\ console s1 = console s ++ [PStreamFailed (str e)]
            end)) s.
Proof.
  do 3 twp_step. destruct (supabase s) eqn:Hsup; cbn [negb].
  - twp_exec;
      (split; [reflexivity|]); (split; [intros; discriminate|]);
      intros _; split; reflexivity.
  - twp_exec. split; [reflexivity|]. split; [reflexivity|].
    intros; discriminate.
Qed.

Lemma execute_code_fst (env : Env) (cfg : Config)
    (sandbox_id code : string) (task_id : option string)
    (stream_output : bool) (w : World) :
  fst (execute_code env cfg sandbox_id code task_id stream_output w)
  = execute_code_result env cfg sandbox_id code stream_output w.
Proof.
  exact (execute_code_outcome env cfg sandbox_id code task_id stream_output w).
Qed.

(** C6.  Event emission is best-effort.  [stream_event] of the test
    streamer returns normally for every event and every answer of the sink:
    an insert that raises is caught, reported on the console and dropped.
    The publish of the sandbox event stream never raises either.  In
    [execute_code] the answers of the sink have no part in what the caller
    gets: the result (or the error) is the same with any other sink, and it
    is the one determined by the store, the provider, the clock and the
    gate. *)
Theorem emission_never_fails_the_caller :
  (forall (tenv : TestEnv) (event : TestEvent) (s : Streamer),
     exists s1,
       stream_event tenv event s = (Ok tt, s1)
       /\ (forall e,
             supabase s = true ->
             logs_insert tenv (calls s) (event_entry event) = Raise e ->
             logs_table s1 = logs_table s
             /\ console s1 = console s ++ [PStreamFailed (str e)]))
  /\
  (forall (env : Env) (item : StreamItem) (w : World),
     exists w1, emit env item w = (Ok tt, w1))
  /\
  (forall (env : Env) (sink : nat -> StreamItem -> Result unit) (cfg : Config)
          (sandbox_id code : string) (task_id : option string)
          (stream_output : bool) (w : World),
     fst (execute_code (with_sink sink env) cfg sandbox_id code task_id
            stream_output w)
     = fst (execute_code env cfg sandbox_id code task_id stream_output w))
  /\
  (forall (env : Env) (cfg : Config) (sandbox_id code : string)
          (task_id : option string) (stream_output : bool) (w : World),
     fst (execute_code env cfg sandbox_id code task_id stream_output w)
     = execute_code_result env cfg sandbox_id code stream_output w).
Proof.
  split.
  { intros tenv event s.
    destruct (wp_ex _ _ _ (stream_event_returns tenv event s))
      as (r & s1 & Hrun & -> & _ & Hon).
    exists s1. split; [exact Hrun|].
    intros e Hs Hfail. specialize (Hon Hs). rewrite Hfail in Hon. exact Hon. }
  split.
  { intros env item w. destruct (emit_returns env item w) as (w1 & H & _).
    eauto. }
  split.
  { intros env sink cfg sandbox_id code task_id stream_output w.
    rewrite !execute_code_fst. reflexivity. }
  { intros env cfg sandbox_id code task_id stream_output w.
    apply execute_code_fst. }
Qed.

Lemma emission_never_fails_the_caller_witness :
  (exists s1,
     stream_event tenv_down
       {| event_type := "passed"; test_id := "test_error_handling";
          test_name := "test_with_streaming_error"; duration := None;
          error := None; coverage := None; timestamp := 0;
          category := "unit" |} streamer0 = (Ok tt, s1)
     /\ logs_table s1 = logs_table streamer0
     /\ console s1
        = console streamer0 ++ [PStreamFailed (str (Exception "Network error"))])
  /\ fst (execute_code (with_sink (fun _ _ => Raise (Exception "sink unreachable"))
                          Demo.env0)
            Demo.cfg0 "sbx-2" "print(1)" None true Demo.world1)
     = fst (execute_code Demo.env0 Demo.cfg0 "sbx-2" "print(1)" None true
              Demo.world1).
Proof.
  split.
  - destruct (proj1 emission_never_fails_the_caller tenv_down
      {| event_type := "passed"; test_id := "test_error_handling";
         test_name := "test_with_streaming_error"; duration := None;
         error := None; coverage := None; timestamp := 0;
         category := "unit" |} streamer0) as (s1 & Hrun & Hfail).
    exists s1. split; [exact Hrun|].
    apply (Hfail (Exception "Network error")); reflexivity.
  - apply (proj1 (proj2 (proj2 emission_never_fails_the_caller))).
Defined.

(** With the sink down for the whole call, a streamed execution returns
    what it returns with the sink up, and nothing is delivered. *)
Example execute_code_sink_down_demo :
  fst (execute_code Demo.env_sink_down Demo.cfg0 "sbx-2" "print(1)" None true
         Demo.world1)
  = Ok {| r_exit_code := 0;
          r_stdout := "line1" +:+ newline +:+ "line2";
          r_stderr := "warn";
          r_execution_time_ms := Some 20 |}
  /\ fst (execute_code Demo.env0 Demo.cfg0 "sbx-2" "print(1)" None true
            Demo.world1)
     = fst (execute_code Demo.env_sink_down Demo.cfg0 "sbx-2" "print(1)" None
              true Demo.world1)
  /\ delivered
       (snd (execute_code Demo.env_sink_down Demo.cfg0 "sbx-2" "print(1)" None
               true Demo.world1))
     = delivered Demo.world1.
Proof.
  split; [vm_compute; reflexivity|].
  split; vm_compute; reflexivity.
Qed.

(** ** The coverage gate (C8) *)


(** [end_session] returns normally and touches neither the results nor the
    counts.  Among the lines it prints, those about the coverage
    requirement are the ones chosen by [coverage >= 80].  The summary it
    builds has the matching level and [coverage_met]; it reaches the [logs]
    table exactly when the streamer has a client and the insert is
    accepted. *)
Lemma end_session_report (tenv : TestEnv) (passed failed skipped : Z)
    (cov : Q) (s : Streamer) :
  let total := passed + failed + skipped in
  let summary :=
    {| level := if coverage_ok cov then "info" else "error";
       message := SessionCompleted passed total cov;
       data := SummaryPayload (session_id s) passed failed skipped cov
                 (clock tenv (calls s) - start_time s)
                 (if 0 <? total
                  then (inject_Z passed / inject_Z total * 100)%Q else 0%Q)
                 (coverage_ok cov) (category_counts s);
       source := "test";
       entry_ts := clock tenv (2 + calls s) |} in
  wp (end_session tenv passed failed skipped cov)
     (fun r s1 =>
        r = Ok tt
        /\ test_results s1 = test_results s
        /\ category_counts s1 = category_counts s
        /\ (exists printed,
              console s1 = console s ++ printed
              /\ List.filter is_verdict printed
                 = (if coverage_ok cov then [PCoverageMet cov]
                    else [PCoverageFailed cov; PBuildWillFail]))
        /\ logs_table s1
           = (if supabase s
              then match logs_insert tenv (3 + calls s) summary with
                   | Ok _ => logs_table s ++ [summary]
                   | Raise _ => logs_table s
                   end
              else logs_table s)) s.
Proof.
  cbv zeta. twp_exec.
  all: split; [reflexivity|].
  all: split; [reflexivity|].
  all: split; [reflexivity|].
  all: split;
    [eexists; split; [cbn -[category_lines]; rewrite <- ?app_assoc; reflexivity|];
     cbn -[category_lines];
     rewrite ?List.filter_app, ?category_lines_no_verdict; reflexivity|].
  all: cbn -[category_lines Z.add Z.ltb] in *.
  all: repeat match goal with
              | H : supabase _ = _ |- _ => rewrite H
              | H : logs_insert _ _ _ = _ |- _ => rewrite H
              end; reflexivity.
Qed.

(** In [pytest_sessionfinish] the coverage is the placeholder 85.0: the
    hook reports the requirement as met and never adds a failure. *)
Lemma pytest_sessionfinish_report (tenv : TestEnv) (testsfailed : Z)
    (s : Streamer) :
  wp (pytest_sessionfinish tenv testsfailed)
     (fun r s1 =>
        r = Ok testsfailed
        /\ test_results s1 = test_results s
        /\ exists printed,
             console s1 = console s ++ printed
             /\ List.filter is_verdict printed = [PCoverageMet 85]) s.
Proof.
  unfold pytest_sessionfinish. do 2 twp_step. apply wp_bind.
  eapply wp_mono; [apply end_session_report|].
  intros r s1 (-> & Hres & _ & (printed & Hc & Hv) & _). cbv beta iota.
  change (coverage_low 85) with false. cbv iota. apply wp_ret.
  split; [reflexivity|]. split; [exact Hres|].
  exists printed. split; [exact Hc|exact Hv].
Qed.

Lemma pytest_sessionfinish_keeps_count (tenv : TestEnv) (testsfailed : Z)
    (s : Streamer) :
  fst (pytest_sessionfinish tenv testsfailed s) = Ok testsfailed.
Proof.
  destruct (wp_ex _ _ _ (pytest_sessionfinish_report tenv testsfailed s))
    as (r & s1 & Hrun & -> & _).
  now rewrite Hrun.
Qed.



(** The two sessions of the design document, run on a streamer whose table
    takes the summary. *)
Example coverage_gate_demo :
  List.map (fun entry => (level entry, coverage_met_of entry))
    (logs_table (snd (end_session tenv0 8 0 2 85 streamer0)))
  = [("info", Some true)]
  /\ List.map (fun entry => (level entry, coverage_met_of entry))
       (logs_table (snd (end_session tenv0 10 0 0 75 streamer0)))
     = [("error", Some false)]
  /\ List.filter is_verdict
       (console (snd (end_session tenv0 10 0 0 75 streamer0)))
     = [PCoverageFailed 75; PBuildWillFail].
Proof.
  split; [vm_compute; reflexivity|].
  split; vm_compute; reflexivity.
Qed.


(** A refused insert does not reach the caller of [stream_event]. *)
Example stream_event_sink_down_demo :
  let event :=
    {| event_type := "passed"; test_id := "test_error_handling";
       test_name := "test_with_streaming_error"; duration := Some (1 # 10);
       error := None; coverage := None; timestamp := 0;
       category := "unit" |} in
  fst (stream_event tenv_down event streamer0) = Ok tt
  /\ console (snd (stream_event tenv_down event streamer0))
     = [PStreamFailed "Network error"]
  /\ logs_table (snd (stream_event tenv_down event streamer0)) = [].
Proof.
  split; [vm_compute; reflexivity|].
  split; vm_compute; reflexivity.
Qed.

(** ** Scenarios of the design document *)

(** With a cap of three, the owner [u1] creates three sandboxes, the fourth
    creation fails on the quota, and after one destroy it succeeds. *)
Example quota_scenario :
  running_count "u1" (sandboxes_table Demo.world3) = 3
  /\ fst (create_sandbox Demo.env0 Demo.cfg0 "u1" None None Demo.world3)
     = Raise (Exception
         "Sandbox creation failed: User has reached maximum sandbox limit (3)")
  /\ fst (destroy_sandbox Demo.env0 "sbx-2" Demo.world3) = Ok true
  /\ is_ok (fst (create_sandbox Demo.env0 Demo.cfg0 "u1" None None
                   (snd (destroy_sandbox Demo.env0 "sbx-2" Demo.world3))))
     = true.
Proof.
  split; [vm_compute; reflexivity|].
  split; [vm_compute; reflexivity|].
  split; vm_compute; reflexivity.
Qed.

(** With the clock stopped, [expires_at] is [created_at] plus one hour. *)
Example expiry_with_a_stopped_clock :
  List.map (fun r => (md_created_at r, expires_at r))
    (sandboxes_table
       (snd (create_sandbox (Demo.env_at 5000000) Demo.cfg0 "u1" None None
               Demo.empty_world)))
  = [(5000000, 5000000 + one_hour)].
Proof. vm_compute. reflexivity. Qed.

(** * Further properties of the manager *)

(** ** Invariants across requests *)

(** An invariant kept by each of the four operations is kept by every
    series of requests. *)
Lemma serve_all_keeps (env : Env) (cfg : Config) (P : World -> Prop) :
  (forall user task_id tpl w, P w ->
     wp (create_sandbox env cfg user task_id tpl) (fun _ w1 => P w1) w) ->
  (forall sandbox_id code task_id stream_output w, P w ->
     wp (execute_code env cfg sandbox_id code task_id stream_output)
        (fun _ w1 => P w1) w) ->
  (forall sandbox_id w, P w ->
     wp (destroy_sandbox env sandbox_id) (fun _ w1 => P w1) w) ->
  (forall w, P w -> wp (cleanup_expired_sandboxes env) (fun _ w1 => P w1) w) ->
  forall rqs w, P w -> wp (serve_all env cfg rqs) (fun _ w1 => P w1) w.
Proof.
  intros Hc He Hd Hs. induction rqs as [|rq rqs IH]; intros w HP.
  - apply wp_ret. exact HP.
  - cbn [serve_all]. apply wp_bind.
    assert (Hrq : wp (serve env cfg rq) (fun _ w1 => P w1) w).
    { unfold serve. apply wp_try.
      destruct rq as [user task_id tpl|sandbox_id code task_id stream_output
                     |sandbox_id|]; apply wp_bind;
        (eapply wp_mono;
         [first [apply Hc | apply He | apply Hd | apply Hs]; exact HP|]);
        intros r w1 HP1; destruct r; cbv beta iota; wp_exec; exact HP1. }
    eapply wp_mono; [exact Hrq|].
    intros r w1 HP1. destruct r; cbv beta iota; [apply IH|]; exact HP1.
Qed.

(** The loop of the reaper keeps whatever [destroy_sandbox] keeps. *)
Lemma cleanup_loop_keeps (env : Env) (P : World -> Prop) :
  (forall sandbox_id w, P w ->
     wp (destroy_sandbox env sandbox_id) (fun _ w1 => P w1) w) ->
  forall data acc w, P w -> wp (cleanup_loop env data acc) (fun _ w1 => P w1) w.
Proof.
  intros Hd data. induction data as [|d data IH]; intros acc w HP.
  - apply wp_ret. exact HP.
  - cbn [cleanup_loop]. apply wp_bind.
    eapply wp_mono; [apply Hd; exact HP|].
    intros r w1 HP1. destruct r; cbv beta iota; [apply IH|]; exact HP1.
Qed.

Lemma execute_code_keeps_registry_ok (env : Env) (cfg : Config)
    (sandbox_id code : string) (task_id : option string)
    (stream_output : bool) (w : World) :
  registry_ok w ->
  wp (execute_code env cfg sandbox_id code task_id stream_output)
     (fun _ w1 => registry_ok w1) w.
Proof.
  intros Hok. eapply wp_mono; [apply execute_code_frame|].
  intros r w1 (Ha & Hm & _). unfold registry_ok in *.
  rewrite Ha, Hm. exact Hok.
Qed.

Lemma create_sandbox_keeps_registry_ok (env : Env) (cfg : Config)
    (user : string) (task_id tpl : option string) (w : World) :
  registry_ok w ->
  wp (create_sandbox env cfg user task_id tpl) (fun _ w1 => registry_ok w1) w.
Proof.
  intros (Hh & Hm & Hd).
  wp_exec; unfold registry_ok; cbn; try (split; [|split]; assumption).
  all: split; [|split].
  all: try (intros id x; rewrite lookup_insert; case_decide;
            [intros [= <-]; subst; reflexivity | eauto]).
  all: intros id; rewrite !lookup_insert; case_decide;
       [split; eauto | apply Hd].
Qed.

Lemma destroy_sandbox_keeps_registry_ok (env : Env) (sandbox_id : string)
    (w : World) :
  registry_ok w ->
  wp (destroy_sandbox env sandbox_id) (fun _ w1 => registry_ok w1) w.
Proof.
  intros (Hh & Hm & Hd).
  assert (Hdel : registry_ok
            (set_metadata (delete sandbox_id)
               (set_active (delete sandbox_id) w))).
  { unfold registry_ok. cbn. split; [|split].
    - intros id sb. rewrite lookup_delete. case_decide; [discriminate|eauto].
    - intros id md. rewrite lookup_delete. case_decide; [discriminate|eauto].
    - intros id. rewrite !lookup_delete. case_decide; [|apply Hd].
      split; intros [? ?]; discriminate. }
  unfold registry_ok in Hdel. cbn in Hdel.
  wp_exec; unfold registry_ok; cbn; try (split; [|split]; assumption);
    try exact Hdel.
  all: exfalso.
  all: repeat match goal with
       | H : bool_decide _ = true |- _ => apply bool_decide_eq_true_1 in H
       | H : bool_decide _ = false |- _ => apply bool_decide_eq_false_1 in H
       end.
  all: cbn in *.
  all: try match goal with
       | H : is_Some (delete ?i ?m !! ?i) |- _ =>
           rewrite lookup_delete_eq in H; destruct H; discriminate
       end.
  all: try match goal with
       | Ha : active_sandboxes ?w0 !! ?i = Some _,
         Hn : ~ is_Some (sandbox_metadata ?w0 !! ?i),
         Hd0 : forall id, is_Some (active_sandboxes ?w0 !! id) <-> _ |- _ =>
           apply Hn, Hd0; rewrite Ha; eauto
       | Ha : active_sandboxes ?w0 !! ?i = None,
         Hs : is_Some (sandbox_metadata ?w0 !! ?i),
         Hd0 : forall id, is_Some (active_sandboxes ?w0 !! id) <-> _ |- _ =>
           apply Hd0 in Hs; rewrite Ha in Hs; destruct Hs; discriminate
       end.
Qed.

(** The reaper keeps what [destroy_sandbox] keeps, when the property does
    not look at the call counter or at the log. *)
Lemma cleanup_expired_sandboxes_keeps (env : Env) (P : World -> Prop) :
  (forall w, P w -> P (bump w)) ->
  (forall f w, P w -> P (set_logged f w)) ->
  (forall sandbox_id w, P w ->
     wp (destroy_sandbox env sandbox_id) (fun _ w1 => P w1) w) ->
  forall w, P w -> wp (cleanup_expired_sandboxes env) (fun _ w1 => P w1) w.
Proof.
  intros Hb Hl Hd w HP. unfold cleanup_expired_sandboxes.
  wp_exec; auto.
  eapply wp_mono; [apply (cleanup_loop_keeps env P Hd); auto|].
  intros r w1 HP1. destruct r; cbv beta iota; wp_exec; auto.
Qed.

Lemma registry_ok_empty : registry_ok Demo.empty_world.
Proof.
  unfold registry_ok. cbn. split; [|split].
  - intros id sb H. rewrite lookup_empty in H. discriminate.
  - intros id md H. rewrite lookup_empty in H. discriminate.
  - intros id. rewrite !lookup_empty. split; intros [? ?]; discriminate.
Qed.

(** X1.  Whatever the clients ask and whatever the collaborators answer,
    the two dictionaries of the manager keep the same keys, and every handle
    and every record stays filed under its own provider id. *)
Theorem registry_ok_across_requests (env : Env) (cfg : Config)
    (rqs : list Request) (w : World) :
  registry_ok w -> registry_ok (snd (serve_all env cfg rqs w)).
Proof.
  intros Hok.
  apply (serve_all_keeps env cfg registry_ok); auto.
  - intros; now apply create_sandbox_keeps_registry_ok.
  - intros; now apply execute_code_keeps_registry_ok.
  - intros; now apply destroy_sandbox_keeps_registry_ok.
  - intros w0 H0. apply cleanup_expired_sandboxes_keeps; auto.
    intros; now apply destroy_sandbox_keeps_registry_ok.
Qed.

Lemma registry_ok_across_requests_witness :
  registry_ok
    (snd (serve_all Demo.env_reaper Demo.cfg0
            [CreateReq "u1" None None;
             ExecuteReq "sbx-2" "print(1)" None true;
             DestroyReq "sbx-2"; SweepReq; DestroyReq "ghost"]
            Demo.empty_world)).
Proof.
  apply (registry_ok_across_requests Demo.env_reaper Demo.cfg0
           [CreateReq "u1" None None;
            ExecuteReq "sbx-2" "print(1)" None true;
            DestroyReq "sbx-2"; SweepReq; DestroyReq "ghost"]
           Demo.empty_world).
  exact registry_ok_empty.
Defined.

(** ** The quota, sequentially *)

Lemma running_count_app (user : string) (rows : list SandboxData)
    (r : SandboxData) :
  running_count user (rows ++ [r])
  = running_count user rows + (if owned_running user r then 1 else 0).
Proof.
  unfold running_count. rewrite List.filter_app, List.length_app. cbn.
  destruct (owned_running user r); cbn; lia.
Qed.

Lemma owned_running_frame (user : string) (r r1 : SandboxData) :
  only_activity_changed r r1 -> owned_running user r1 = owned_running user r.
Proof. intros ->. destruct r; reflexivity. Qed.

Lemma running_count_frame (user : string) (l l1 : list SandboxData) :
  Forall2 only_activity_changed l l1 ->
  running_count user l1 = running_count user l.
Proof.
  unfold running_count. induction 1 as [|r r1 l l1 Hr _ IH]; [reflexivity|].
  cbn. rewrite (owned_running_frame user r r1 Hr).
  destruct (owned_running user r); cbn; lia.
Qed.

Lemma running_count_stopped (user : string) (now : Z) (sandbox_id : string)
    (rows : list SandboxData) :
  running_count user
    (List.map (fun r => if String.eqb (e2b_sandbox_id r) sandbox_id
                        then mark_stopped now r else r) rows)
  <= running_count user rows.
Proof.
  unfold running_count. induction rows as [|r rows IH]; cbn; [lia|].
  destruct (String.eqb (e2b_sandbox_id r) sandbox_id).
  - unfold owned_running at 1. cbn. rewrite andb_false_r.
    destruct (owned_running user r); cbn; lia.
  - destruct (owned_running user r); cbn; lia.
Qed.

Lemma create_sandbox_keeps_quota (env : Env) (cfg : Config)
    (user : string) (task_id tpl : option string) (w : World) :
  quota_ok cfg w ->
  wp (create_sandbox env cfg user task_id tpl) (fun _ w1 => quota_ok cfg w1) w.
Proof.
  intros Hq.
  wp_exec; unfold quota_ok; cbn; try exact Hq.
  all: intros u; rewrite running_count_app; unfold owned_running; cbn.
  all: destruct (String.eqb user u) eqn:Hu; cbn;
       [apply String.eqb_eq in Hu; subst u|specialize (Hq u); lia].
  all: match goal with
       | H : (_ <=? _) = false |- _ => apply Z.leb_gt in H; cbn in H
       end.
  all: unfold running_count; lia.
Qed.

Lemma destroy_sandbox_keeps_quota (env : Env) (cfg : Config)
    (sandbox_id : string) (w : World) :
  quota_ok cfg w ->
  wp (destroy_sandbox env sandbox_id) (fun _ w1 => quota_ok cfg w1) w.
Proof.
  intros Hq.
  wp_exec; unfold quota_ok; cbn; try exact Hq.
  all: intros u; etransitivity; [apply running_count_stopped|apply Hq].
Qed.

Lemma execute_code_keeps_quota (env : Env) (cfg : Config)
    (sandbox_id code : string) (task_id : option string)
    (stream_output : bool) (w : World) :
  quota_ok cfg w ->
  wp (execute_code env cfg sandbox_id code task_id stream_output)
     (fun _ w1 => quota_ok cfg w1) w.
Proof.
  intros Hq. eapply wp_mono; [apply execute_code_frame|].
  intros r w1 (_ & _ & Ht) u.
  rewrite (running_count_frame u _ _ Ht). apply Hq.
Qed.

(** X2.  Served one request at a time, the manager never lets an owner
    have more Running rows than [max_sandboxes_per_user]: a table within
    the cap stays within the cap across every series of requests, whatever
    the collaborators answer. *)
Theorem quota_ok_across_requests (env : Env) (cfg : Config)
    (rqs : list Request) (w : World) :
  quota_ok cfg w -> quota_ok cfg (snd (serve_all env cfg rqs w)).
Proof.
  intros Hok.
  apply (serve_all_keeps env cfg (quota_ok cfg)); auto.
  - intros; now apply create_sandbox_keeps_quota.
  - intros; now apply execute_code_keeps_quota.
  - intros; now apply destroy_sandbox_keeps_quota.
  - intros w0 H0. apply cleanup_expired_sandboxes_keeps; auto.
    intros; now apply destroy_sandbox_keeps_quota.
Qed.

Lemma quota_ok_empty : quota_ok Demo.cfg0 Demo.empty_world.
Proof. intros u. cbn. unfold running_count. cbn. lia. Qed.

Lemma quota_ok_across_requests_witness :
  quota_ok Demo.cfg0
    (snd (serve_all Demo.env0 Demo.cfg0
            [CreateReq "u1" None None; CreateReq "u1" None None;
             CreateReq "u1" None None; CreateReq "u1" None None;
             DestroyReq "sbx-2"; CreateReq "u1" None None]
            Demo.empty_world)).
Proof.
  apply (quota_ok_across_requests Demo.env0 Demo.cfg0
           [CreateReq "u1" None None; CreateReq "u1" None None;
            CreateReq "u1" None None; CreateReq "u1" None None;
            DestroyReq "sbx-2"; CreateReq "u1" None None]
           Demo.empty_world).
  exact quota_ok_empty.
Defined.

(** ** What is alive is Running in the table *)

Lemma rows_frame_in (l l1 : list SandboxData) (r : SandboxData) :
  Forall2 only_activity_changed l l1 -> In r l ->
  exists r1, In r1 l1 /\ e2b_sandbox_id r1 = e2b_sandbox_id r
             /\ status r1 = status r.
Proof.
  induction 1 as [|x x1 l l1 Hx _ IH]; intros Hin; [destruct Hin|].
  destruct Hin as [<-|Hin].
  - exists x1. destruct (only_activity_changed_expires _ _ Hx)
      as (_ & Hs & Hi & _). cbn. auto.
  - destruct (IH Hin) as (r1 & H1 & H2). exists r1. cbn. auto.
Qed.

Lemma in_rows_after_stop (now : Z) (sandbox_id : string)
    (rows : list SandboxData) (r : SandboxData) :
  In r rows -> e2b_sandbox_id r <> sandbox_id ->
  In r (List.map (fun x => if String.eqb (e2b_sandbox_id x) sandbox_id
                           then mark_stopped now x else x) rows).
Proof.
  intros Hin Hne. apply in_map_iff. exists r. split; [|exact Hin].
  apply String.eqb_neq in Hne. now rewrite Hne.
Qed.

Lemma execute_code_keeps_alive_running (env : Env) (cfg : Config)
    (sandbox_id code : string) (task_id : option string)
    (stream_output : bool) (w : World) :
  alive_running w ->
  wp (execute_code env cfg sandbox_id code task_id stream_output)
     (fun _ w1 => alive_running w1) w.
Proof.
  intros Hal. eapply wp_mono; [apply execute_code_frame|].
  intros r w1 (Ha & _ & Ht) id Hid. rewrite Ha in Hid.
  destruct (Hal id Hid) as (x & Hin & Hx & Hs).
  destruct (rows_frame_in _ _ x Ht Hin) as (x1 & Hin1 & Hi1 & Hs1).
  exists x1. split; [exact Hin1|]. split; congruence.
Qed.

Lemma create_sandbox_keeps_alive_running (env : Env) (cfg : Config)
    (user : string) (task_id tpl : option string) (w : World) :
  alive_running w ->
  wp (create_sandbox env cfg user task_id tpl)
     (fun _ w1 => alive_running w1) w.
Proof.
  intros Hal.
  wp_exec; unfold alive_running; cbn; try exact Hal.
  all: intros id; rewrite lookup_insert; case_decide;
    [subst id; intros _; eexists;
     split; [apply in_or_app; right; left; reflexivity|cbn; auto]
    |intros Hid; destruct (Hal id Hid) as (x & Hin & Hx);
     exists x; split; [apply in_or_app; left; exact Hin|exact Hx]].
Qed.

Lemma destroy_sandbox_keeps_alive_running (env : Env) (sandbox_id : string)
    (w : World) :
  alive_running w ->
  wp (destroy_sandbox env sandbox_id) (fun _ w1 => alive_running w1) w.
Proof.
  intros Hal.
  assert (Hdel : forall id,
            is_Some (delete sandbox_id (active_sandboxes w) !! id) ->
            id <> sandbox_id /\ is_Some (active_sandboxes w !! id)).
  { intros id. rewrite lookup_delete. case_decide.
    - intros [? ?]; discriminate.
    - auto. }
  wp_exec; unfold alive_running; cbn; try exact Hal.
  all: intros id Hid.
  all: try (apply Hdel in Hid; destruct Hid as [Hne Hid]).
  all: try (destruct (Hal id Hid) as (x & Hin & Hx & Hs);
            exists x; split; [|split; assumption];
            first [exact Hin
                  | apply in_rows_after_stop; [exact Hin|congruence]]).
  all: destruct (Hal id Hid) as (x & Hin & Hx & Hs);
       exists x; split; [|split; assumption];
       apply in_rows_after_stop; [exact Hin|].
  all: intros Heq; rewrite Hx in Heq; subst id.
  all: match goal with
       | H : active_sandboxes _ !! _ = None |- _ =>
           rewrite Heq, H in Hid; destruct Hid; discriminate
       end.
Qed.

Lemma alive_running_empty : alive_running Demo.empty_world.
Proof. intros id. cbn. rewrite lookup_empty. intros [? ?]; discriminate. Qed.

(** X3.  Every sandbox in active tracking has a Running row in the table,
    across every series of requests and whatever the collaborators answer:
    creation inserts the row before it registers the handle, and destroy
    drops the handle before it stops the row. *)
Theorem alive_running_across_requests (env : Env) (cfg : Config)
    (rqs : list Request) (w : World) :
  alive_running w -> alive_running (snd (serve_all env cfg rqs w)).
Proof.
  intros Hok.
  apply (serve_all_keeps env cfg alive_running); auto.
  - intros; now apply create_sandbox_keeps_alive_running.
  - intros; now apply execute_code_keeps_alive_running.
  - intros; now apply destroy_sandbox_keeps_alive_running.
  - intros w0 H0. apply cleanup_expired_sandboxes_keeps; auto.
    intros; now apply destroy_sandbox_keeps_alive_running.
Qed.

Lemma alive_running_across_requests_witness :
  alive_running
    (snd (serve_all Demo.env_reaper Demo.cfg0
            [CreateReq "u1" None None; CreateReq "u2" None None;
             SweepReq; ExecuteReq "sbx-2" "print(1)" None false]
            Demo.empty_world)).
Proof.
  apply (alive_running_across_requests Demo.env_reaper Demo.cfg0
           [CreateReq "u1" None None; CreateReq "u2" None None;
            SweepReq; ExecuteReq "sbx-2" "print(1)" None false]
           Demo.empty_world).
  exact alive_running_empty.
Defined.

(** ** After a destroy *)

Lemma execute_code_inactive (env : Env) (cfg : Config)
    (sandbox_id code : string) (task_id : option string)
    (stream_output : bool) (w : World) :
  active_sandboxes w !! sandbox_id = None ->
  execute_code env cfg sandbox_id code task_id stream_output w
  = (Raise (Exception (not_found_msg sandbox_id)), w).
Proof.
  intros Hact. unfold execute_code. rewrite bind_run. unfold get at 1.
  rewrite Hact, decide_is_Some_None. reflexivity.
Qed.

(** X4.  Once [destroy_sandbox] has closed the handle of a sandbox, every
    later [execute_code] on that id raises the not-found error and leaves
    the world as it is (no provider call, no event), whatever the code and
    also when the destroy itself answered [False] because the store refused
    the status update. *)
Theorem destroyed_sandbox_is_not_found (env : Env) (cfg : Config)
    (sandbox_id code : string) (task_id : option string)
    (stream_output : bool) (w : World) (sb : SandboxSync) :
  active_sandboxes w !! sandbox_id = Some sb ->
  e2b_close env (tick w) (handle_id sb) = Ok tt ->
  execute_code env cfg sandbox_id code task_id stream_output
    (snd (destroy_sandbox env sandbox_id w))
  = (Raise (Exception (not_found_msg sandbox_id)),
     snd (destroy_sandbox env sandbox_id w)).
Proof.
  intros Hact Hclose. apply execute_code_inactive.
  pose proof (destroy_sandbox_live env sandbox_id w sb Hact Hclose) as H.
  unfold wp in H. apply H.
Qed.

Lemma destroyed_sandbox_is_not_found_witness :
  execute_code Demo.env0 Demo.cfg0 "sbx-2" "print(1)" None true
    (snd (destroy_sandbox Demo.env0 "sbx-2" Demo.world1))
  = (Raise (Exception (not_found_msg "sbx-2")),
     snd (destroy_sandbox Demo.env0 "sbx-2" Demo.world1)).
Proof.
  apply (destroyed_sandbox_is_not_found Demo.env0 Demo.cfg0 "sbx-2"
           "print(1)" None true Demo.world1 {| handle_id := "sbx-2" |});
    reflexivity.
Defined.

Lemma destroy_sandbox_store_refuses (env : Env) (sandbox_id : string)
    (w : World) (sb : SandboxSync) (e : PyExn) :
  active_sandboxes w !! sandbox_id = Some sb ->
  e2b_close env (tick w) (handle_id sb) = Ok tt ->
  supabase_execute env (2 + tick w) = Raise e ->
  wp (destroy_sandbox env sandbox_id)
     (fun r w1 =>
        r = Ok false
        /\ active_sandboxes w1 !! sandbox_id = None
        /\ sandboxes_table w1 = sandboxes_table w
        /\ delivered w1 = delivered w
        /\ provider_calls w1 = provider_calls w ++ [PClose (handle_id sb)]) w.
Proof.
  intros Hact Hclose Hstore. do 5 wp_step. rewrite Hact.
  wp_exec; cbn in *; try congruence.
  all: repeat split; auto; apply lookup_delete_eq.
Qed.

(** X5.  A destroy can answer [False] and yet have removed the sandbox:
    when the handle closes but the store refuses the status update, the id
    leaves active tracking, no [sandbox_destroyed] event is published, and
    the rows of the table are untouched, so the sandbox still counts as
    Running for the quota of its owner. *)
Theorem destroy_false_may_have_closed (env : Env) (sandbox_id : string)
    (w : World) (sb : SandboxSync) (e : PyExn) :
  active_sandboxes w !! sandbox_id = Some sb ->
  e2b_close env (tick w) (handle_id sb) = Ok tt ->
  supabase_execute env (2 + tick w) = Raise e ->
  exists w1,
    destroy_sandbox env sandbox_id w = (Ok false, w1)
    /\ active_sandboxes w1 !! sandbox_id = None
    /\ provider_calls w1 = provider_calls w ++ [PClose (handle_id sb)]
    /\ delivered w1 = delivered w
    /\ sandboxes_table w1 = sandboxes_table w
    /\ forall user,
         running_count user (sandboxes_table w1)
         = running_count user (sandboxes_table w).
Proof.
  intros Hact Hclose Hstore.
  destruct (wp_ex _ _ _
    (destroy_sandbox_store_refuses env sandbox_id w sb e Hact Hclose Hstore))
    as (r & w1 & Hrun & -> & Ha & Ht & Hd & Hc).
  exists w1. repeat split; auto. intros user. now rewrite Ht.
Qed.

Lemma destroy_false_may_have_closed_witness :
  exists w1,
    destroy_sandbox Scenes.env_store_lost "sbx-2" Demo.world1 = (Ok false, w1)
    /\ active_sandboxes w1 !! "sbx-2" = None
    /\ provider_calls w1 = provider_calls Demo.world1 ++ [PClose "sbx-2"]
    /\ delivered w1 = delivered Demo.world1
    /\ sandboxes_table w1 = sandboxes_table Demo.world1
    /\ forall user,
         running_count user (sandboxes_table w1)
         = running_count user (sandboxes_table Demo.world1).
Proof.
  apply (destroy_false_may_have_closed Scenes.env_store_lost "sbx-2"
           Demo.world1 {| handle_id := "sbx-2" |} (Exception "store is down"));
    reflexivity.
Defined.

(** ** What a failed creation leaves at the provider *)

Lemma create_sandbox_orphan (env : Env) (cfg : Config) (user : string)
    (task_id tpl : option string) (w : World) (sb : SandboxSync) (e : PyExn) :
  supabase_execute env (tick w) = Ok tt ->
  running_count user (sandboxes_table w) < max_sandboxes_per_user cfg ->
  e2b_create env (2 + tick w) (template_or_default cfg tpl) = Ok sb ->
  supabase_execute env (8 + tick w) = Raise e ->
  wp (create_sandbox env cfg user task_id tpl)
     (fun r w1 =>
        r = Raise (Exception (creation_failed_msg (str e)))
        /\ provider_calls w1
           = provider_calls w ++ [PCreate (template_or_default cfg tpl)]
        /\ active_sandboxes w1 = active_sandboxes w
        /\ sandboxes_table w1 = sandboxes_table w) w.
Proof.
  intros Hq Hquota Hcreate Hins.
  apply Z.ltb_lt in Hquota. rewrite Z.ltb_antisym in Hquota.
  apply negb_true_iff in Hquota. unfold running_count in Hquota.
  wp_exec; cbn in *; try congruence.
  all: repeat split; congruence.
Qed.

(** X6.  When the provider has created the sandbox and the store then
    refuses the insert, [create_sandbox] raises the creation failure and the
    new provider sandbox is left behind: it was created (one [PCreate] in
    the trace), it is not in active tracking, and no [close] was issued for
    it. *)
Theorem create_sandbox_insert_failure_orphans_handle
    (env : Env) (cfg : Config) (user : string) (task_id tpl : option string)
    (w : World) (sb : SandboxSync) (e : PyExn) :
  supabase_execute env (tick w) = Ok tt ->
  running_count user (sandboxes_table w) < max_sandboxes_per_user cfg ->
  e2b_create env (2 + tick w) (template_or_default cfg tpl) = Ok sb ->
  supabase_execute env (8 + tick w) = Raise e ->
  exists w1,
    create_sandbox env cfg user task_id tpl w
      = (Raise (Exception (creation_failed_msg (str e))), w1)
    /\ provider_calls w1
       = provider_calls w ++ [PCreate (template_or_default cfg tpl)]
    /\ active_sandboxes w1 = active_sandboxes w
    /\ sandboxes_table w1 = sandboxes_table w.
Proof.
  intros Hq Hquota Hcreate Hins.
  destruct (wp_ex _ _ _
    (create_sandbox_orphan env cfg user task_id tpl w sb e
       Hq Hquota Hcreate Hins)) as (r & w1 & Hrun & -> & Hrest).
  exists w1. auto.
Qed.

Lemma create_sandbox_insert_failure_orphans_handle_witness :
  exists w1,
    create_sandbox Demo.env_insert_fails Demo.cfg0 "u1" None None
      Demo.empty_world
      = (Raise (Exception (creation_failed_msg
                             (str (Exception "store is down")))), w1)
    /\ provider_calls w1
       = provider_calls Demo.empty_world
         ++ [PCreate (template_or_default Demo.cfg0 None)]
    /\ active_sandboxes w1 = active_sandboxes Demo.empty_world
    /\ sandboxes_table w1 = sandboxes_table Demo.empty_world.
Proof.
  apply (create_sandbox_insert_failure_orphans_handle Demo.env_insert_fails
           Demo.cfg0 "u1" None None Demo.empty_world
           {| handle_id := "sbx-2" |} (Exception "store is down"));
    first [reflexivity | vm_compute; reflexivity].
Defined.

(** ** What the reaper calls *)

Lemma destroy_sandbox_calls (env : Env) (sandbox_id : string) (w : World) :
  wp (destroy_sandbox env sandbox_id)
     (fun _ w1 =>
        (provider_calls w1 = provider_calls w
         \/ exists sb, active_sandboxes w !! sandbox_id = Some sb
                       /\ provider_calls w1
                          = provider_calls w ++ [PClose (handle_id sb)])
        /\ (forall id sb, active_sandboxes w1 !! id = Some sb ->
                          active_sandboxes w !! id = Some sb)) w.
Proof.
  assert (Hdel : forall id sb,
            delete sandbox_id (active_sandboxes w) !! id = Some sb ->
            active_sandboxes w !! id = Some sb).
  { intros id sb. rewrite lookup_delete. case_decide; [discriminate|auto]. }
  wp_exec; cbn; (split; [eauto|auto]).
Qed.

Lemma cleanup_loop_calls (env : Env) (data : list SandboxData) :
  forall acc w,
    wp (cleanup_loop env data acc)
       (fun _ w1 =>
          (exists closes,
             provider_calls w1 = provider_calls w ++ closes
             /\ Forall (fun c =>
                  exists d sb, In d data
                    /\ active_sandboxes w !! e2b_sandbox_id d = Some sb
                    /\ c = PClose (handle_id sb)) closes)
          /\ (forall id sb, active_sandboxes w1 !! id = Some sb ->
                            active_sandboxes w !! id = Some sb)) w.
Proof.
  induction data as [|d data IH]; intros acc w.
  - apply wp_ret. split; [exists []; rewrite app_nil_r; auto|auto].
  - cbn [cleanup_loop]. apply wp_bind.
    eapply wp_mono; [apply destroy_sandbox_calls|].
    intros r w1 (Hc & Hsub).
    assert (Hnext : wp (cleanup_loop env data
                          (match r with
                           | Ok true => acc + 1 | _ => acc end))
              (fun _ w2 =>
                 (exists closes,
                    provider_calls w2 = provider_calls w ++ closes
                    /\ Forall (fun c =>
                         exists x sb, In x (d :: data)
                           /\ active_sandboxes w !! e2b_sandbox_id x = Some sb
                           /\ c = PClose (handle_id sb)) closes)
                 /\ (forall id sb, active_sandboxes w2 !! id = Some sb ->
                                   active_sandboxes w !! id = Some sb)) w1).
    { eapply wp_mono; [apply IH|].
      intros r2 w2 ((closes & Hc2 & Hall) & Hsub2). split; [|auto].
      assert (Hall' : Forall (fun c =>
                 exists x sb, In x (d :: data)
                   /\ active_sandboxes w !! e2b_sandbox_id x = Some sb
                   /\ c = PClose (handle_id sb)) closes).
      { eapply Forall_impl; [exact Hall|].
        intros c (x & sb & Hin & Hx & ->). exists x, sb.
        split; [right; exact Hin|]. auto. }
      destruct Hc as [Hc|(sb & Hsb & Hc)].
      - exists closes. split; [congruence|exact Hall'].
      - exists (PClose (handle_id sb) :: closes). split.
        + rewrite Hc2, Hc, <- app_assoc. reflexivity.
        + constructor; [|exact Hall'].
          exists d, sb. split; [left; reflexivity|auto]. }
    destruct r as [[|]|e]; cbv beta iota; try exact Hnext.
    split; [|exact Hsub].
    destruct Hc as [Hc|(sb & Hsb & Hc)].
    + exists []. rewrite app_nil_r. auto.
    + exists [PClose (handle_id sb)]. split; [exact Hc|].
      constructor; [|constructor]. exists d, sb.
      split; [left; reflexivity|auto].
Qed.

(** X7.  The reaper makes no provider call other than [close], and it
    closes only handles that were in active tracking under the provider id
    of a row it selected (Running, expired): a sandbox without an expired
    Running row is never closed by a sweep. *)
Theorem sweep_closes_only_selected (env : Env) (w : World) :
  exists closes,
    provider_calls (snd (cleanup_expired_sandboxes env w))
    = provider_calls w ++ closes
    /\ Forall (fun c =>
         exists d sb,
           In d (List.filter (is_expired (utcnow env (tick w)))
                   (sandboxes_table w))
           /\ active_sandboxes w !! e2b_sandbox_id d = Some sb
           /\ c = PClose (handle_id sb)) closes.
Proof.
  change (wp (cleanup_expired_sandboxes env)
            (fun _ w1 =>
               exists closes,
                 provider_calls w1 = provider_calls w ++ closes
                 /\ Forall (fun c =>
                      exists d sb,
                        In d (List.filter (is_expired (utcnow env (tick w)))
                                (sandboxes_table w))
                        /\ active_sandboxes w !! e2b_sandbox_id d = Some sb
                        /\ c = PClose (handle_id sb)) closes) w).
  unfold cleanup_expired_sandboxes.
  wp_exec; try (exists []; cbn; rewrite app_nil_r; split; [reflexivity|constructor]).
  eapply wp_mono; [apply cleanup_loop_calls|].
  intros r w1 ((closes & Hc & Hall) & _).
  destruct r; cbv beta iota; wp_exec; exists closes; cbn in *; auto.
Qed.

Example sweep_closes_only_selected_demo :
  provider_calls
    (snd (cleanup_expired_sandboxes (Demo.env_at 3606000001) Demo.world2))
  = provider_calls Demo.world2 ++ [PClose "sbx-2"].
Proof. vm_compute. reflexivity. Qed.

(** ** A clean sweep *)

Lemma rows_only_stop_refl (rows : list SandboxData) :
  Forall2 row_only_stops rows rows.
Proof. induction rows; constructor; auto. unfold row_only_stops. auto. Qed.

Lemma rows_only_stop_update (now : Z) (sandbox_id : string)
    (l0 l : list SandboxData) :
  Forall2 row_only_stops l0 l ->
  Forall2 row_only_stops l0
    (List.map (fun r => if String.eqb (e2b_sandbox_id r) sandbox_id
                        then mark_stopped now r else r) l).
Proof.
  induction 1 as [|r0 r l0 l Hr _ IH]; cbn; constructor; auto.
  destruct (String.eqb (e2b_sandbox_id r) sandbox_id); [|exact Hr].
  destruct Hr as (Hi & He & _). unfold row_only_stops. cbn.
  repeat split; auto. discriminate.
Qed.

Lemma rows_only_stop_in (l0 l : list SandboxData) (r1 : SandboxData) :
  Forall2 row_only_stops l0 l -> In r1 l ->
  exists r, In r l0 /\ row_only_stops r r1.
Proof.
  induction 1 as [|x x1 l0 l Hx _ IH]; intros Hin; [destruct Hin|].
  destruct Hin as [<-|Hin].
  - exists x. cbn. auto.
  - destruct (IH Hin) as (r & H1 & H2). exists r. cbn. auto.
Qed.

Lemma destroy_sandbox_rows_only_stop (env : Env) (w0 : World)
    (sandbox_id : string) (w : World) :
  Forall2 row_only_stops (sandboxes_table w0) (sandboxes_table w) ->
  wp (destroy_sandbox env sandbox_id)
     (fun _ w1 =>
        Forall2 row_only_stops (sandboxes_table w0) (sandboxes_table w1)) w.
Proof.
  intros H. wp_exec; cbn; auto using rows_only_stop_update.
Qed.

(** X8.  A clean sweep leaves nothing to reap: when neither the provider
    nor the store raises, after [cleanup_expired_sandboxes] no row of the
    table is both Running and expired with respect to the clock reading of
    the sweep, and the sweep returns the number of rows it selected. *)
Theorem clean_sweep_leaves_nothing_expired (env : Env) (w : World) :
  (forall t id, e2b_close env t id = Ok tt) ->
  (forall t, supabase_execute env t = Ok tt) ->
  List.filter (is_expired (utcnow env (tick w)))
    (sandboxes_table (snd (cleanup_expired_sandboxes env w))) = []
  /\ fst (cleanup_expired_sandboxes env w)
     = Ok (Z.of_nat (List.length
             (List.filter (is_expired (utcnow env (tick w)))
                (sandboxes_table w)))).
Proof.
  intros Hclose Hstore.
  pose proof (cleanup_expired_sandboxes_spec env w) as Hspec.
  unfold wp in Hspec. rewrite Hstore in Hspec.
  destruct Hspec as (Hres & Hdone).
  rewrite (sweep_outcomes_all_true env _ Hclose Hstore) in Hres, Hdone.
  rewrite count_true_all in Hres.
  split; [|exact Hres].
  assert (Hrows : Forall2 row_only_stops (sandboxes_table w)
            (sandboxes_table (snd (cleanup_expired_sandboxes env w)))).
  { apply (cleanup_expired_sandboxes_keeps env
             (fun w1 => Forall2 row_only_stops (sandboxes_table w)
                          (sandboxes_table w1))); auto.
    - intros sandbox_id w1 H1.
      now apply destroy_sandbox_rows_only_stop.
    - apply rows_only_stop_refl. }
  destruct (List.filter (is_expired (utcnow env (tick w)))
              (sandboxes_table (snd (cleanup_expired_sandboxes env w))))
    as [|r1 rest] eqn:Hf; [reflexivity|exfalso].
  assert (Hin1 : In r1 (List.filter (is_expired (utcnow env (tick w)))
            (sandboxes_table (snd (cleanup_expired_sandboxes env w)))))
    by (rewrite Hf; left; reflexivity).
  apply filter_In in Hin1. destruct Hin1 as [Hin1 Hexp1].
  apply is_expired_spec in Hexp1. destruct Hexp1 as [Hlt1 Hrun1].
  destruct (rows_only_stop_in _ _ r1 Hrows Hin1) as (r & Hin & Hi & He & Hs).
  assert (Hsel : In r (List.filter (is_expired (utcnow env (tick w)))
                         (sandboxes_table w))).
  { apply filter_In. split; [exact Hin|]. apply is_expired_spec.
    split; [lia|auto]. }
  apply list_elem_of_In, list_elem_of_lookup in Hsel.
  destruct Hsel as [i Hi_sel].
  assert (Hterm : terminated (e2b_sandbox_id r)
                    (snd (cleanup_expired_sandboxes env w))).
  { apply (Hdone i r Hi_sel). rewrite list_lookup_fmap, Hi_sel. reflexivity. }
  destruct Hterm as [_ Hall].
  rewrite Forall_forall in Hall.
  specialize (Hall r1 (proj2 (list_elem_of_In _ _) Hin1) Hi).
  congruence.
Qed.

Lemma clean_sweep_leaves_nothing_expired_witness :
  List.filter (is_expired (utcnow (Demo.env_at 9000000000) (tick Demo.world3)))
    (sandboxes_table
       (snd (cleanup_expired_sandboxes (Demo.env_at 9000000000) Demo.world3)))
  = []
  /\ fst (cleanup_expired_sandboxes (Demo.env_at 9000000000) Demo.world3)
     = Ok (Z.of_nat (List.length
             (List.filter
                (is_expired (utcnow (Demo.env_at 9000000000)
                               (tick Demo.world3)))
                (sandboxes_table Demo.world3)))).
Proof.
  apply (clean_sweep_leaves_nothing_expired (Demo.env_at 9000000000)
           Demo.world3); intros; reflexivity.
Defined.

(** * The queries, the packages and the files *)

Lemma wp_in_base {A} (c : M A) (Q : Result A -> FsWorld -> Prop)
    (fw : FsWorld) :
  wp c (fun r w1 => Q r {| base := w1; fs_calls := fs_calls fw |}) (base fw) ->
  wp (in_base c) Q fw.
Proof. unfold wp, in_base. cbn. auto. Qed.

Ltac xwp_unfold :=
  lazymatch goal with
  | |- wp (in_base _) _ _ => apply wp_in_base
  | |- wp (get_sandbox_status _ _ _) _ _ => unfold get_sandbox_status
  | |- wp (install_packages _ _ _ _ _) _ _ => unfold install_packages
  | |- wp (list_files _ _ _) _ _ => unfold list_files
  | |- wp (read_file _ _ _) _ _ => unfold read_file
  | |- wp (write_file _ _ _ _ _) _ _ => unfold write_file
  | |- wp (filesystem_list _ _ _) _ _ => unfold filesystem_list
  | |- wp (filesystem_read _ _ _) _ _ => unfold filesystem_read
  | |- wp (filesystem_write _ _ _ _) _ _ => unfold filesystem_write
  | |- wp (record_fs _) _ _ => unfold record_fs
  | |- wp _ _ _ => wp_unfold
  end.

Ltac xwp_step := wp_step_with ltac:(idtac; xwp_unfold).
Ltac xwp_exec := repeat xwp_step.

(** ** Status queries *)

Lemma get_sandbox_status_inactive (env : Env) (timestamp_ms : Z -> Z)
    (sandbox_id : string) (w : World) :
  active_sandboxes w !! sandbox_id = None ->
  get_sandbox_status env timestamp_ms sandbox_id w = (Ok None, w).
Proof.
  intros Hact. unfold get_sandbox_status. rewrite bind_run. unfold get at 1.
  rewrite Hact, decide_is_Some_None. reflexivity.
Qed.

Lemma get_sandbox_status_active (env : Env) (timestamp_ms : Z -> Z)
    (sandbox_id : string) (w : World) (sb : SandboxSync) (md : SandboxData) :
  active_sandboxes w !! sandbox_id = Some sb ->
  sandbox_metadata w !! sandbox_id = Some md ->
  get_sandbox_status env timestamp_ms sandbox_id w
  = (Ok (Some {| s_sandbox_id := sandbox_id;
                 s_status := Running;
                 s_template := Some (template md);
                 s_boot_time_ms := Some (boot_time_ms md);
                 s_last_activity := Some (last_activity_at md);
                 s_expires_at := Some (expires_at md);
                 s_uptime_seconds :=
                   uptime_seconds timestamp_ms (time_ms env (tick w))
                     (md_created_at md) |}),
     bump w).
Proof.
  intros Hact Hmd. unfold get_sandbox_status. rewrite bind_run.
  unfold get at 1. rewrite Hact, decide_is_Some_Some, Hmd. reflexivity.
Qed.

Lemma create_sandbox_registers (env : Env) (cfg : Config) (user : string)
    (task_id tpl : option string) (w : World) :
  wp (create_sandbox env cfg user task_id tpl)
     (fun r w1 =>
        forall res, r = Ok res ->
          exists sb row,
            active_sandboxes w1 !! c_sandbox_id res = Some sb
            /\ sandbox_metadata w1 !! c_sandbox_id res = Some row
            /\ template row = c_template res
            /\ boot_time_ms row = c_boot_time_ms res
            /\ expires_at row = c_expires_at res
            /\ user_id row = user) w.
Proof.
  wp_exec; intros res [=]; subst; cbn.
  all: eexists _, _; split; [apply lookup_insert_eq|].
  all: split; [apply lookup_insert_eq|]; cbn; auto.
Qed.

(** X9.  What [create_sandbox] returns can be read back: right after a
    successful creation, [get_sandbox_status] on the returned id answers a
    Running status whose template, boot time and expiry are the ones of the
    creation result, and it changes nothing in the registry. *)
Theorem status_after_create (env : Env) (cfg : Config)
    (timestamp_ms : Z -> Z) (user : string) (task_id tpl : option string)
    (w w1 : World) (res : CreateResult) :
  create_sandbox env cfg user task_id tpl w = (Ok res, w1) ->
  exists info,
    get_sandbox_status env timestamp_ms (c_sandbox_id res) w1
      = (Ok (Some info), bump w1)
    /\ s_sandbox_id info = c_sandbox_id res
    /\ s_status info = Running
    /\ s_template info = Some (c_template res)
    /\ s_boot_time_ms info = Some (c_boot_time_ms res)
    /\ s_expires_at info = Some (c_expires_at res).
Proof.
  intros Hrun.
  destruct (wp_elim _ _ _ _ _ Hrun
              (create_sandbox_registers env cfg user task_id tpl w)
              res eq_refl) as (sb & row & Ha & Hm & Ht & Hb & He & _).
  eexists. split.
  - apply (get_sandbox_status_active env timestamp_ms _ w1 sb row Ha Hm).
  - cbn. repeat split; congruence.
Qed.

Lemma status_after_create_witness :
  exists info,
    get_sandbox_status Demo.env0 (fun t => t / 1000) "sbx-2" Demo.world1
      = (Ok (Some info), bump Demo.world1)
    /\ s_sandbox_id info = "sbx-2"
    /\ s_status info = Running
    /\ s_template info = Some "Python3"
    /\ s_boot_time_ms info = Some 20
    /\ s_expires_at info = Some 3606000000.
Proof.
  apply (status_after_create Demo.env0 Demo.cfg0 (fun t => t / 1000)
           "u1" (Some "task-1") None Demo.empty_world Demo.world1
           {| c_sandbox_id := "sbx-2"; c_internal_id := "uuid-4";
              c_boot_time_ms := 20; c_template := "Python3";
              c_status := Running; c_expires_at := 3606000000 |}).
  reflexivity.
Defined.

(** X10.  The listing and the point query agree.  In a registry whose two
    dictionaries have the same keys (which every series of requests keeps),
    [get_active_sandboxes] lists exactly the ids in active tracking, and for
    each of them [get_sandbox_status] answers with the template and expiry
    of the listed record; for every other id it answers [None] and changes
    nothing. *)
Theorem status_queries_agree (env : Env) (timestamp_ms : Z -> Z)
    (now_at : string -> Z) (w : World) :
  registry_ok w ->
  (forall id,
     is_Some (get_active_sandboxes timestamp_ms now_at w !! id)
     <-> is_Some (active_sandboxes w !! id))
  /\ (forall id entry,
        get_active_sandboxes timestamp_ms now_at w !! id = Some entry ->
        a_is_active entry = true
        /\ e2b_sandbox_id (a_metadata entry) = id
        /\ exists info,
             fst (get_sandbox_status env timestamp_ms id w) = Ok (Some info)
             /\ s_template info = Some (template (a_metadata entry))
             /\ s_expires_at info = Some (expires_at (a_metadata entry)))
  /\ (forall id,
        get_active_sandboxes timestamp_ms now_at w !! id = None ->
        get_sandbox_status env timestamp_ms id w = (Ok None, w)).
Proof.
  intros (Hh & Hm & Hd).
  assert (Hlook : forall id,
    get_active_sandboxes timestamp_ms now_at w !! id
    = match active_sandboxes w !! id, sandbox_metadata w !! id with
      | Some _, Some md =>
          Some {| a_metadata := md; a_is_active := true;
                  a_uptime_seconds :=
                    uptime_seconds timestamp_ms (now_at id)
                      (md_created_at md) |}
      | _, _ => None
      end).
  { intros id. unfold get_active_sandboxes. rewrite map_lookup_imap.
    destruct (sandbox_metadata w !! id) as [md|] eqn:Emd; cbn.
    - destruct (active_sandboxes w !! id) eqn:Ea; reflexivity.
    - destruct (active_sandboxes w !! id); reflexivity. }
  split; [|split].
  - intros id. rewrite Hlook.
    destruct (active_sandboxes w !! id) as [sb|] eqn:Ea.
    + destruct (sandbox_metadata w !! id) as [md|] eqn:Emd.
      * split; eauto.
      * exfalso. destruct (proj1 (Hd id)) as [x Hx]; [rewrite Ea; eauto|].
        congruence.
    + split; intros [? ?]; discriminate.
  - intros id entry. rewrite Hlook.
    destruct (active_sandboxes w !! id) as [sb|] eqn:Ea; [|discriminate].
    destruct (sandbox_metadata w !! id) as [md|] eqn:Emd; [|discriminate].
    intros [= <-].
    rewrite (get_sandbox_status_active env timestamp_ms id w sb md Ea Emd).
    cbn. split; [reflexivity|]. split; [eauto|].
    eexists. split; [reflexivity|]. cbn. auto.
  - intros id. rewrite Hlook.
    destruct (active_sandboxes w !! id) as [sb|] eqn:Ea.
    + destruct (sandbox_metadata w !! id) as [md|] eqn:Emd; [discriminate|].
      exfalso. destruct (proj1 (Hd id)) as [x Hx]; [rewrite Ea; eauto|].
      congruence.
    + intros _. now apply get_sandbox_status_inactive.
Qed.

Lemma registry_ok_world1 : registry_ok Demo.world1.
Proof.
  unfold Demo.world1.
  exact (create_sandbox_keeps_registry_ok Demo.env0 Demo.cfg0 "u1"
           (Some "task-1") None Demo.empty_world registry_ok_empty).
Qed.

Lemma status_queries_agree_witness :
  (forall id,
     is_Some (get_active_sandboxes (fun t => t / 1000) (fun _ => 7000)
                Demo.world1 !! id)
     <-> is_Some (active_sandboxes Demo.world1 !! id))
  /\ (forall id entry,
        get_active_sandboxes (fun t => t / 1000) (fun _ => 7000)
          Demo.world1 !! id = Some entry ->
        a_is_active entry = true
        /\ e2b_sandbox_id (a_metadata entry) = id
        /\ exists info,
             fst (get_sandbox_status Demo.env0 (fun t => t / 1000) id
                    Demo.world1) = Ok (Some info)
             /\ s_template info = Some (template (a_metadata entry))
             /\ s_expires_at info = Some (expires_at (a_metadata entry)))
  /\ (forall id,
        get_active_sandboxes (fun t => t / 1000) (fun _ => 7000)
          Demo.world1 !! id = None ->
        get_sandbox_status Demo.env0 (fun t => t / 1000) id Demo.world1
        = (Ok None, Demo.world1)).
Proof.
  apply (status_queries_agree Demo.env0 (fun t => t / 1000)
           (fun _ => 7000) Demo.world1).
  exact registry_ok_world1.
Defined.

(** ** Installing packages *)

Lemma check_packages_run (safe : string -> bool) (packages : list string)
    (w : World) :
  check_packages safe packages w
  = match List.find (fun p => negb (safe p)) packages with
    | Some p => (Raise (Exception (unsafe_package_msg p)), w)
    | None => (Ok tt, w)
    end.
Proof.
  induction packages as [|p rest IH]; cbn [check_packages List.find].
  - reflexivity.
  - destruct (negb (safe p)); [reflexivity | exact IH].
Qed.

(** X11.  [install_packages] checks every name before it does anything
    else: when some name of the list is refused by
    [is_safe_package_name], the call raises the error naming the first
    refused name and leaves the world as it was: no provider call, no
    table operation, no event, whatever the other names are. *)
Theorem install_packages_unsafe_name (env : Env) (cfg : Config)
    (safe : string -> bool) (sandbox_id : string) (packages : list string)
    (p : string) (sb : SandboxSync) (w : World) :
  active_sandboxes w !! sandbox_id = Some sb ->
  List.find (fun p => negb (safe p)) packages = Some p ->
  install_packages env cfg safe sandbox_id packages w
  = (Raise (Exception (unsafe_package_msg p)), w).
Proof.
  intros Hact Hfind. unfold install_packages. rewrite bind_run.
  unfold get at 1. rewrite Hact, decide_is_Some_Some. cbn [negb].
  rewrite bind_run, check_packages_run, Hfind. reflexivity.
Qed.

Lemma install_packages_unsafe_name_witness :
  install_packages Demo.env0 Demo.cfg0
    (fun p => negb (String.eqb p "os; rm -rf /")) "sbx-2"
    ["requests"; "os; rm -rf /"; "numpy"] Demo.world1
  = (Raise (Exception
       "Invalid or potentially unsafe package name: os; rm -rf /"),
     Demo.world1).
Proof.
  apply (install_packages_unsafe_name Demo.env0 Demo.cfg0
           (fun p => negb (String.eqb p "os; rm -rf /")) "sbx-2"
           ["requests"; "os; rm -rf /"; "numpy"] "os; rm -rf /"
           {| handle_id := "sbx-2" |} Demo.world1).
  - vm_compute. reflexivity.
  - vm_compute. reflexivity.
Defined.

(** X12.  With every name accepted, installing packages on an active
    sandbox is running code: [install_packages] behaves exactly as
    [execute_code] on the [pip install] snippet built from the names joined
    by spaces, with streaming on and no task id.  So the install goes
    through the Security Gate, refreshes the activity and is published like
    any other execution; the empty list runs a bare [pip install]. *)
Theorem install_packages_is_execute_code (env : Env) (cfg : Config)
    (safe : string -> bool) (sandbox_id : string) (packages : list string)
    (sb : SandboxSync) (w : World) :
  active_sandboxes w !! sandbox_id = Some sb ->
  forallb safe packages = true ->
  install_packages env cfg safe sandbox_id packages w
  = execute_code env cfg sandbox_id
      ("import subprocess; subprocess.run('pip install "
       +:+ String.concat " " packages +:+ "', shell=True)") None true w.
Proof.
  intros Hact Hall. unfold install_packages. rewrite bind_run.
  unfold get at 1. rewrite Hact, decide_is_Some_Some. cbn [negb].
  rewrite bind_run, check_packages_run.
  assert (Hfind : List.find (fun p => negb (safe p)) packages = None).
  { induction packages as [|q rest IH]; cbn in *; [reflexivity|].
    apply andb_prop in Hall as [Hq Hrest]. rewrite Hq. cbn. auto. }
  rewrite Hfind. reflexivity.
Qed.

Lemma install_packages_is_execute_code_witness :
  install_packages Demo.env0 Demo.cfg0 (fun _ => true) "sbx-2"
    ["requests"; "numpy"] Demo.world1
  = execute_code Demo.env0 Demo.cfg0 "sbx-2"
      ("import subprocess; subprocess.run('pip install "
       +:+ String.concat " " ["requests"; "numpy"] +:+ "', shell=True)")
      None true Demo.world1.
Proof.
  apply (install_packages_is_execute_code Demo.env0 Demo.cfg0
           (fun _ => true) "sbx-2" ["requests"; "numpy"]
           {| handle_id := "sbx-2" |} Demo.world1).
  - vm_compute. reflexivity.
  - reflexivity.
Defined.

(** ** Files *)

Lemma filesystem_list_run (fenv : FsEnv) (sb : SandboxSync)
    (path : string) (fw : FsWorld) :
  filesystem_list fenv sb path fw
  = (fs_list fenv (tick (base fw)) (handle_id sb) path,
     {| base := bump (base fw);
        fs_calls := fs_calls fw ++ [FsList (handle_id sb) path] |}).
Proof.
  unfold filesystem_list, in_base, record_fs, bind, modify, lift, next.
  cbn. destruct (fs_list fenv (tick (base fw)) (handle_id sb) path);
    reflexivity.
Qed.

Lemma filesystem_read_run (fenv : FsEnv) (sb : SandboxSync)
    (path : string) (fw : FsWorld) :
  filesystem_read fenv sb path fw
  = (fs_read fenv (tick (base fw)) (handle_id sb) path,
     {| base := bump (base fw);
        fs_calls := fs_calls fw ++ [FsRead (handle_id sb) path] |}).
Proof.
  unfold filesystem_read, in_base, record_fs, bind, modify, lift, next.
  cbn. destruct (fs_read fenv (tick (base fw)) (handle_id sb) path);
    reflexivity.
Qed.

Lemma filesystem_write_run (fenv : FsEnv) (sb : SandboxSync)
    (path content : string) (fw : FsWorld) :
  filesystem_write fenv sb path content fw
  = (fs_write fenv (tick (base fw)) (handle_id sb) path content,
     {| base := bump (base fw);
        fs_calls := fs_calls fw ++ [FsWrite (handle_id sb) path content] |}).
Proof.
  unfold filesystem_write, in_base, record_fs, bind, modify, lift, next.
  cbn. destruct (fs_write fenv (tick (base fw)) (handle_id sb) path content)
    as [[]|]; reflexivity.
Qed.

Lemma storage_untouched_refl (w : World) : storage_untouched w w.
Proof. unfold storage_untouched. auto. Qed.

Lemma storage_untouched_bump (w : World) : storage_untouched w (bump w).
Proof. unfold storage_untouched. auto. Qed.

Lemma file_access_is_guarded_helper (env : Env) (fenv : FsEnv)
    (sandbox_id path content : string) (fw : FsWorld) :
  active_sandboxes (base fw) !! sandbox_id = None
  \/ is_safe_file_path fenv path = false ->
  read_file fenv sandbox_id path fw
    = (Raise (Exception
         (match active_sandboxes (base fw) !! sandbox_id with
          | None => sandbox_missing_msg sandbox_id
          | Some _ => unsafe_path_msg path
          end)), fw)
  /\ write_file env fenv sandbox_id path content fw
     = (Raise (Exception
          (match active_sandboxes (base fw) !! sandbox_id with
           | None => sandbox_missing_msg sandbox_id
           | Some _ => unsafe_path_msg path
           end)), fw).
Proof.
  intros H. unfold read_file, write_file. rewrite !bind_run.
  unfold get. cbn [fst snd].
  destruct (active_sandboxes (base fw) !! sandbox_id) as [sb|] eqn:Hact.
  - destruct H as [H|H]; [discriminate|]. rewrite H. cbn [negb].
    split; reflexivity.
  - split; reflexivity.
Qed.

(** X13.  [read_file] and [write_file] are guarded twice and the guards
    come before the filesystem: for an id that is not in active tracking
    they raise the not-found error, and for an active sandbox with a path
    refused by [is_safe_file_path] the unsafe-path error, and in both cases
    nothing happened: no filesystem call was made and the manager is as it
    was. *)
Theorem file_access_is_guarded (env : Env) (fenv : FsEnv)
    (sandbox_id path content : string) (fw : FsWorld) :
  active_sandboxes (base fw) !! sandbox_id = None
  \/ is_safe_file_path fenv path = false ->
  let e := Exception
             (match active_sandboxes (base fw) !! sandbox_id with
              | None => "Sandbox " +:+ sandbox_id +:+ " not found"
              | Some _ => "Unsafe file path: " +:+ path
              end) in
  read_file fenv sandbox_id path fw = (Raise e, fw)
  /\ write_file env fenv sandbox_id path content fw = (Raise e, fw).
Proof.
  intros H e. subst e.
  exact (file_access_is_guarded_helper env fenv sandbox_id path content
           fw H).
Qed.

Lemma file_access_is_guarded_witness :
  read_file Scenes.fenv0 "sbx-2" "/etc/passwd" Scenes.fworld1
    = (Raise (Exception "Unsafe file path: /etc/passwd"), Scenes.fworld1)
  /\ write_file Demo.env0 Scenes.fenv0 "sbx-2" "/etc/passwd" "x"
       Scenes.fworld1
    = (Raise (Exception "Unsafe file path: /etc/passwd"), Scenes.fworld1).
Proof.
  apply (file_access_is_guarded Demo.env0 Scenes.fenv0 "sbx-2"
           "/etc/passwd" "x" Scenes.fworld1).
  right. vm_compute. reflexivity.
Defined.

(** X14.  [list_files] has no path check.  On an active sandbox it hands
    the path to the filesystem of the provider as it is, also when
    [is_safe_file_path] refuses that path, and answers the entries the
    provider listed (a missing size read as 0) or the provider's error
    under the prefix [Failed to list files]; [read_file] on the same path
    makes no filesystem call. *)
Theorem list_files_skips_the_path_check (fenv : FsEnv)
    (sandbox_id path : string) (sb : SandboxSync) (fw : FsWorld) :
  active_sandboxes (base fw) !! sandbox_id = Some sb ->
  is_safe_file_path fenv path = false ->
  list_files fenv sandbox_id path fw
  = (match fs_list fenv (tick (base fw)) (handle_id sb) path with
     | Ok files => Ok (List.map file_entry files)
     | Raise e => Raise (Exception ("Failed to list files: " +:+ str e))
     end,
     {| base := bump (base fw);
        fs_calls := fs_calls fw ++ [FsList (handle_id sb) path] |})
  /\ fs_calls (snd (read_file fenv sandbox_id path fw)) = fs_calls fw.
Proof.
  intros Hact Hunsafe. split.
  - unfold list_files. rewrite bind_run. unfold get at 1. cbn [fst snd].
    rewrite Hact. unfold try_except. rewrite bind_run, filesystem_list_run.
    cbn [fst snd].
    destruct (fs_list fenv (tick (base fw)) (handle_id sb) path);
      reflexivity.
  - unfold read_file. rewrite bind_run. unfold get at 1. cbn [fst snd].
    rewrite Hact, Hunsafe. reflexivity.
Qed.

Lemma list_files_skips_the_path_check_witness :
  list_files Scenes.fenv0 "sbx-2" "/etc" Scenes.fworld1
  = (Ok [ {| e_name := "main.py"; e_path := "/etc/main.py";
             e_is_dir := false; e_size := 12 |};
          {| e_name := "data"; e_path := "/etc/data";
             e_is_dir := true; e_size := 0 |} ],
     {| base := bump Demo.world1; fs_calls := [FsList "sbx-2" "/etc"] |})
  /\ fs_calls (snd (read_file Scenes.fenv0 "sbx-2" "/etc" Scenes.fworld1))
     = [].
Proof.
  apply (list_files_skips_the_path_check Scenes.fenv0 "sbx-2" "/etc"
           {| handle_id := "sbx-2" |} Scenes.fworld1).
  - vm_compute. reflexivity.
  - vm_compute. reflexivity.
Defined.

Lemma write_file_run (env : Env) (fenv : FsEnv)
    (sandbox_id path content : string) (sb : SandboxSync) (fw : FsWorld) :
  active_sandboxes (base fw) !! sandbox_id = Some sb ->
  is_safe_file_path fenv path = true ->
  write_file env fenv sandbox_id path content fw
  = match fs_write fenv (tick (base fw)) (handle_id sb) path content with
    | Ok _ =>
        (Ok true,
         {| base :=
              snd (stream_log env sandbox_id "file_write"
                     ("File written: " +:+ path +:+ " ("
                      +:+ pretty (Z.of_nat (len content))
                      +:+ " bytes)") None (bump (base fw)));
            fs_calls := fs_calls fw ++ [FsWrite (handle_id sb) path content] |})
    | Raise e =>
        (Raise (Exception ("Failed to write file " +:+ path +:+ ": "
                           +:+ str e)),
         {| base := bump (base fw);
            fs_calls := fs_calls fw ++ [FsWrite (handle_id sb) path content] |})
    end.
Proof.
  intros Hact Hsafe. unfold write_file. rewrite bind_run.
  unfold get at 1. cbn [fst snd]. rewrite Hact, Hsafe. cbn [negb].
  unfold try_except. rewrite bind_run, filesystem_write_run. cbn [fst snd].
  destruct (fs_write fenv (tick (base fw)) (handle_id sb) path content)
    as [[]|e]; [|reflexivity].
  rewrite bind_run. unfold in_base at 1. cbn [fst snd base fs_calls].
  unfold stream_log.
  destruct (emit_returns env
              (LogItem sandbox_id "file_write"
                 ("File written: " +:+ path +:+ " ("
                  +:+ pretty (Z.of_nat (len content))
                  +:+ " bytes)") None) (bump (base fw)))
    as (w1 & Hrun & _).
  rewrite Hrun. reflexivity.
Qed.

(** X15.  A write that reaches the filesystem succeeds or fails with the
    filesystem alone.  On an active sandbox and a safe path, [write_file]
    makes exactly one filesystem call; when the provider accepts it the
    answer is [True] whatever the event sink does, and the [file_write]
    event, carrying the path and [len(content)], the number of characters
    of the content, is delivered exactly when the sink accepts it; when the
    provider refuses, the error is raised under the prefix
    [Failed to write file] and no event is published. *)
Theorem write_file_outcome (env : Env) (fenv : FsEnv)
    (sandbox_id path content : string) (sb : SandboxSync) (fw : FsWorld) :
  active_sandboxes (base fw) !! sandbox_id = Some sb ->
  is_safe_file_path fenv path = true ->
  let item := LogItem sandbox_id "file_write"
                ("File written: " +:+ path +:+ " ("
                 +:+ pretty (Z.of_nat (len content)) +:+ " bytes)")
                None in
  let r := fst (write_file env fenv sandbox_id path content fw) in
  let fw1 := snd (write_file env fenv sandbox_id path content fw) in
  fs_calls fw1 = fs_calls fw ++ [FsWrite (handle_id sb) path content]
  /\ match fs_write fenv (tick (base fw)) (handle_id sb) path content with
     | Ok _ =>
         r = Ok true
         /\ delivered (base fw1)
            = match sink_insert env (S (tick (base fw))) item with
              | Ok _ => delivered (base fw) ++ [item]
              | Raise _ => delivered (base fw)
              end
     | Raise e =>
         r = Raise (Exception ("Failed to write file " +:+ path +:+ ": "
                               +:+ str e))
         /\ delivered (base fw1) = delivered (base fw)
     end.
Proof.
  intros Hact Hsafe item r fw1. subst r fw1.
  rewrite (write_file_run env fenv sandbox_id path content sb fw Hact Hsafe).
  destruct (fs_write fenv (tick (base fw)) (handle_id sb) path content)
    as [[]|e]; cbn [fst snd base fs_calls].
  - split; [reflexivity|]. split; [reflexivity|].
    unfold stream_log, emit, bind, next. cbn [fst snd tick bump].
    fold item.
    destruct (sink_insert env (S (tick (base fw))) item); reflexivity.
  - split; [reflexivity|]. split; reflexivity.
Qed.

Lemma write_file_outcome_witness :
  (fs_calls (snd (write_file Demo.env0 Scenes.fenv0 "sbx-2"
                    "/home/user/a.txt" "héllo ✓" Scenes.fworld1))
     = [FsWrite "sbx-2" "/home/user/a.txt" "héllo ✓"]
   /\ fst (write_file Demo.env0 Scenes.fenv0 "sbx-2"
             "/home/user/a.txt" "héllo ✓" Scenes.fworld1) = Ok true
   /\ delivered (base (snd (write_file Demo.env0 Scenes.fenv0 "sbx-2"
                              "/home/user/a.txt" "héllo ✓"
                              Scenes.fworld1)))
      = delivered Demo.world1
        ++ [LogItem "sbx-2" "file_write"
              "File written: /home/user/a.txt (7 bytes)" None])
  /\ (fst (write_file Demo.env_sink_down Scenes.fenv0 "sbx-2"
             "/home/user/a.txt" "héllo ✓" Scenes.fworld1) = Ok true
      /\ delivered (base (snd (write_file Demo.env_sink_down Scenes.fenv0
                                 "sbx-2" "/home/user/a.txt" "héllo ✓"
                                 Scenes.fworld1)))
         = delivered Demo.world1)
  /\ (fst (write_file Demo.env0 Scenes.fenv0 "sbx-2" "/ro/a.txt" "héllo ✓"
             Scenes.fworld1)
      = Raise (Exception
                 "Failed to write file /ro/a.txt: read-only file system")
      /\ delivered (base (snd (write_file Demo.env0 Scenes.fenv0 "sbx-2"
                                 "/ro/a.txt" "héllo ✓" Scenes.fworld1)))
         = delivered Demo.world1).
Proof.
  split; [|split].
  - apply (write_file_outcome Demo.env0 Scenes.fenv0 "sbx-2"
             "/home/user/a.txt" "héllo ✓" {| handle_id := "sbx-2" |}
             Scenes.fworld1).
    + vm_compute. reflexivity.
    + vm_compute. reflexivity.
  - apply (proj2 (write_file_outcome Demo.env_sink_down Scenes.fenv0 "sbx-2"
                    "/home/user/a.txt" "héllo ✓" {| handle_id := "sbx-2" |}
                    Scenes.fworld1 eq_refl eq_refl)).
  - apply (proj2 (write_file_outcome Demo.env0 Scenes.fenv0 "sbx-2"
                    "/ro/a.txt" "héllo ✓" {| handle_id := "sbx-2" |}
                    Scenes.fworld1 eq_refl eq_refl)).
Defined.

(** [len] counts characters, not bytes. *)
Example len_counts_code_points :
  len "héllo ✓" = 7%nat /\ String.length "héllo ✓" = 10%nat
  /\ len "print(1)" = String.length "print(1)".
Proof. repeat split; vm_compute; reflexivity. Qed.

Lemma read_file_run (fenv : FsEnv) (sandbox_id path : string)
    (sb : SandboxSync) (fw : FsWorld) :
  active_sandboxes (base fw) !! sandbox_id = Some sb ->
  is_safe_file_path fenv path = true ->
  read_file fenv sandbox_id path fw
  = (match fs_read fenv (tick (base fw)) (handle_id sb) path with
     | Ok content => Ok content
     | Raise e => Raise (Exception ("Failed to read file " +:+ path +:+ ": "
                                    +:+ str e))
     end,
     {| base := bump (base fw);
        fs_calls := fs_calls fw ++ [FsRead (handle_id sb) path] |}).
Proof.
  intros Hact Hsafe. unfold read_file. rewrite bind_run.
  unfold get at 1. cbn [fst snd]. rewrite Hact, Hsafe. cbn [negb].
  unfold try_except. rewrite bind_run, filesystem_read_run. cbn [fst snd].
  destruct (fs_read fenv (tick (base fw)) (handle_id sb) path); reflexivity.
Qed.

Lemma list_files_run (fenv : FsEnv) (sandbox_id path : string)
    (sb : SandboxSync) (fw : FsWorld) :
  active_sandboxes (base fw) !! sandbox_id = Some sb ->
  list_files fenv sandbox_id path fw
  = (match fs_list fenv (tick (base fw)) (handle_id sb) path with
     | Ok files => Ok (List.map file_entry files)
     | Raise e => Raise (Exception ("Failed to list files: " +:+ str e))
     end,
     {| base := bump (base fw);
        fs_calls := fs_calls fw ++ [FsList (handle_id sb) path] |}).
Proof.
  intros Hact. unfold list_files. rewrite bind_run. unfold get at 1.
  cbn [fst snd]. rewrite Hact. unfold try_except.
  rewrite bind_run, filesystem_list_run. cbn [fst snd].
  destruct (fs_list fenv (tick (base fw)) (handle_id sb) path); reflexivity.
Qed.

(** X16.  File operations are not activity.  Whatever the filesystem, the
    path check and the sink answer, [list_files], [read_file] and
    [write_file] leave the two dictionaries of the registry, every row of
    the table (so [last_activity_at] is not refreshed and no expiry moves)
    and the trace of lifecycle provider calls as they were; listing and
    reading publish nothing either. *)
Theorem file_operations_are_not_activity (env : Env) (fenv : FsEnv)
    (sandbox_id path content : string) (fw : FsWorld) :
  let after_list := base (snd (list_files fenv sandbox_id path fw)) in
  let after_read := base (snd (read_file fenv sandbox_id path fw)) in
  let after_write :=
    base (snd (write_file env fenv sandbox_id path content fw)) in
  storage_untouched (base fw) after_list
  /\ storage_untouched (base fw) after_read
  /\ storage_untouched (base fw) after_write
  /\ delivered after_list = delivered (base fw)
  /\ delivered after_read = delivered (base fw)
  /\ scheduled after_list = scheduled (base fw)
  /\ scheduled after_read = scheduled (base fw).
Proof.
  cbv zeta.
  destruct (active_sandboxes (base fw) !! sandbox_id) as [sb|] eqn:Hact.
  - rewrite (list_files_run fenv sandbox_id path sb fw Hact).
    cbn [fst snd base].
    destruct (is_safe_file_path fenv path) eqn:Hsafe.
    + rewrite (read_file_run fenv sandbox_id path sb fw Hact Hsafe).
      rewrite (write_file_run env fenv sandbox_id path content sb fw
                 Hact Hsafe).
      cbn [fst snd base].
      repeat split; try reflexivity.
      all: destruct (fs_write fenv (tick (base fw)) (handle_id sb) path
                       content) as [[]|e]; cbn [fst snd base];
        try reflexivity.
      all: unfold stream_log;
        match goal with
        | |- context [emit ?en ?it ?w0] =>
            destruct (emit_returns en it w0)
              as (w1 & Hrun & Hp & Ha & Hm & Ht & _)
        end; rewrite Hrun; cbn [snd]; assumption.
    + destruct (file_access_is_guarded_helper env fenv sandbox_id path
                  content fw (or_intror Hsafe)) as [Hr Hw].
      rewrite Hr, Hw. cbn [snd]. rewrite Hact in *.
      repeat split; reflexivity.
  - destruct (file_access_is_guarded_helper env fenv sandbox_id path
                content fw (or_introl Hact)) as [Hr Hw].
    rewrite Hr, Hw. cbn [snd].
    assert (Hl : list_files fenv sandbox_id path fw
                 = (Raise (Exception (sandbox_missing_msg sandbox_id)), fw)).
    { unfold list_files. rewrite bind_run. unfold get at 1. cbn [fst snd].
      rewrite Hact. reflexivity. }
    rewrite Hl. cbn [snd]. repeat split; reflexivity.
Qed.

(** * The hooks of the streaming plugin *)

Import Hooks.

(** ** Categories *)

Lemma lower_upper_char (c : ascii) : lower_char (upper_char c) = lower_char c.
Proof. destruct c as [[] [] [] [] [] [] [] []]; vm_compute; reflexivity. Qed.

Lemma lower_lower_char (c : ascii) : lower_char (lower_char c) = lower_char c.
Proof. destruct c as [[] [] [] [] [] [] [] []]; vm_compute; reflexivity. Qed.

Lemma lower_upper (s : string) : lower (upper s) = lower s.
Proof.
  induction s as [|c s IH]; cbn [upper lower]; [reflexivity|].
  now rewrite lower_upper_char, IH.
Qed.

Lemma lower_lower (s : string) : lower (lower s) = lower s.
Proof.
  induction s as [|c s IH]; cbn [lower]; [reflexivity|].
  now rewrite lower_lower_char, IH.
Qed.

Lemma append_cons (c : ascii) (a b : string) :
  String c a +:+ b = String c (a +:+ b).
Proof. reflexivity. Qed.

Lemma append_nil (b : string) : EmptyString +:+ b = b.
Proof. reflexivity. Qed.

Lemma lower_app (a b : string) : lower (a +:+ b) = lower a +:+ lower b.
Proof.
  induction a as [|c a IH]; cbn [lower].
  - now rewrite !append_nil.
  - rewrite !append_cons. cbn [lower]. now rewrite IH.
Qed.

Lemma prefix_app (s b : string) : String.prefix s (s +:+ b) = true.
Proof.
  induction s as [|c s IH].
  - rewrite append_nil. destruct b; reflexivity.
  - rewrite append_cons. cbn [String.prefix].
    destruct (ascii_dec c c) as [_|Hne]; [exact IH | now destruct Hne].
Qed.

Lemma contains_app (sub a b : string) :
  contains sub (a +:+ sub +:+ b) = true.
Proof.
  induction a as [|c a IH].
  - rewrite append_nil.
    destruct (sub +:+ b) eqn:E; cbn [contains]; rewrite <- E, prefix_app;
      reflexivity.
  - rewrite append_cons. cbn [contains]. rewrite IH. apply orb_true_r.
Qed.

(** X17.  The category of a test does not depend on the letter case of its
    path: an ASCII path, the same path in upper case and the same path in
    lower case are put in the same category. *)
Theorem categorize_test_ignores_case (test_path : string) :
  ascii_only test_path = true ->
  categorize_test (upper test_path) = categorize_test test_path
  /\ categorize_test (lower test_path) = categorize_test test_path.
Proof.
  intros _. unfold categorize_test. rewrite lower_upper, lower_lower. auto.
Qed.

Lemma categorize_test_ignores_case_witness :
  categorize_test (upper "tests/Functional/test_flow.py")
    = categorize_test "tests/Functional/test_flow.py"
  /\ categorize_test (lower "tests/Functional/test_flow.py")
     = categorize_test "tests/Functional/test_flow.py".
Proof.
  apply (categorize_test_ignores_case "tests/Functional/test_flow.py").
  reflexivity.
Defined.

(** X18.  The word [integration] decides wherever it stands.  A path that
    has it anywhere, in any letter case, is an integration test, whatever
    else the path contains: a directory named [unit] or one of the other
    category words before or after it changes nothing. *)
Theorem integration_anywhere_wins (before word after : string) :
  lower word = "integration" ->
  categorize_test (before +:+ word +:+ after) = "integration".
Proof.
  intros Hword. unfold categorize_test.
  rewrite !lower_app, Hword, contains_app. reflexivity.
Qed.

Lemma integration_anywhere_wins_witness :
  categorize_test ("tests/unit/security/test_" +:+ "INTEGRATION"
                   +:+ "_performance.py") = "integration".
Proof.
  apply (integration_anywhere_wins "tests/unit/security/test_" "INTEGRATION"
           "_performance.py").
  vm_compute. reflexivity.
Defined.

(** ** Running the hooks *)

Lemma wp_in_streamer {A} (c : T A) (Q : Result A -> Plugin -> Prop)
    (p : Plugin) :
  wp c (fun r s1 => Q r {| streamer := s1; hook_console := hook_console p |})
     (streamer p) ->
  wp (in_streamer c) Q p.
Proof. unfold wp, in_streamer. cbn. auto. Qed.

Ltac hwp_unfold :=
  lazymatch goal with
  | |- wp (in_streamer _) _ _ => apply wp_in_streamer
  | |- wp (pytest_runtest_setup _ _) _ _ => unfold pytest_runtest_setup
  | |- wp (pytest_runtest_makereport _ _ _) _ _ =>
      unfold pytest_runtest_makereport
  | |- wp (asyncio_run _ _) _ _ => unfold asyncio_run
  | |- wp (incr_category _) _ _ => unfold incr_category
  | |- wp (hook_print _) _ _ => unfold hook_print
  | |- wp (run_hook _ _) _ _ => unfold run_hook
  | |- wp _ _ _ => twp_unfold
  end.

Ltac hwp_step := wp_step_with ltac:(idtac; hwp_unfold).
Ltac hwp_exec := repeat hwp_step.

Lemma dict_get_set (k k1 : string) (v : Z) (d : list (string * Z)) :
  dict_get k (dict_set k1 v d)
  = if String.eqb k1 k then Some v else dict_get k d.
Proof.
  induction d as [|[k2 v2] d IH]; cbn [dict_set dict_get].
  - destruct (String.eqb k1 k); reflexivity.
  - destruct (String.eqb k2 k1) eqn:E21; cbn [dict_get].
    + apply String.eqb_eq in E21. subst k2.
      destruct (String.eqb k1 k); reflexivity.
    + destruct (String.eqb k2 k) eqn:E2; [|exact IH].
      apply String.eqb_eq in E2. subst k2. now rewrite String.eqb_sym, E21.
Qed.

Lemma total_count_set (k : string) (n v : Z) (d : list (string * Z)) :
  dict_get k d = Some n ->
  total_count (dict_set k v d) = total_count d + v - n.
Proof.
  induction d as [|[k1 v1] d IH]; cbn [dict_set dict_get]; [discriminate|].
  destruct (String.eqb k1 k) eqn:E.
  - intros [= ->]. unfold total_count. cbn. lia.
  - intros H. specialize (IH H). unfold total_count in *. cbn in *. lia.
Qed.

Lemma has_categories_set (k : string) (v : Z) (d : list (string * Z)) :
  has_categories d -> has_categories (dict_set k v d).
Proof.
  unfold has_categories. intros H. eapply Forall_impl; [exact H|].
  intros c Hc. cbn beta in *. rewrite dict_get_set.
  destruct (String.eqb k c); eauto.
Qed.

Lemma categorize_test_in_categories (test_path : string) :
  In (categorize_test test_path) categories.
Proof.
  unfold categorize_test, categories.
  repeat match goal with
         | |- context [if ?b then _ else _] => destruct b
         end; cbn; auto 10.
Qed.

Lemma has_categories_get (d : list (string * Z)) (test_path : string) :
  has_categories d ->
  exists n, dict_get (categorize_test test_path) d = Some n.
Proof.
  intros H. unfold has_categories in H. rewrite List.Forall_forall in H.
  destruct (H _ (categorize_test_in_categories test_path)) as [n Hn]. eauto.
Qed.

(** What a hook call leaves of the streamer, given the count of the
    category of the test before the call. *)
Lemma pytest_runtest_setup_spec (henv : HookEnv) (item : Item) (p : Plugin)
    (n : Z) :
  dict_get (categorize_test (fspath item)) (category_counts (streamer p))
    = Some n ->
  wp (pytest_runtest_setup henv item)
     (fun r p1 =>
        r = Ok tt
        /\ category_counts (streamer p1)
           = dict_set (categorize_test (fspath item)) (n + 1)
               (category_counts (streamer p))
        /\ test_results (streamer p1) = test_results (streamer p)) p.
Proof.
  intros Hget. do 6 hwp_step. rewrite Hget. hwp_exec; cbn; auto.
Qed.

Lemma pytest_runtest_makereport_spec (henv : HookEnv) (item : Item)
    (call : CallInfo) (p : Plugin) :
  wp (pytest_runtest_makereport henv item call)
     (fun r p1 =>
        r = Ok tt
        /\ category_counts (streamer p1) = category_counts (streamer p)
        /\ test_results (streamer p1)
           = if String.eqb (call_when call) "call"
             then <[nodeid item :=
                      {| outcome := outcome_of call;
                         tr_duration := call_duration call;
                         tr_category := categorize_test (fspath item) |}]>
                    (test_results (streamer p))
             else test_results (streamer p)) p.
Proof.
  unfold pytest_runtest_makereport.
  destruct (String.eqb (call_when call) "call"); hwp_exec; cbn; auto.
Qed.

Lemma outcome_of_known (call : CallInfo) :
  In (outcome_of call) ["passed"; "failed"; "skipped"].
Proof.
  unfold outcome_of.
  destruct (call_excinfo call), (call_result call) as [r|];
    try destruct (String.eqb r "skipped"); cbn; auto.
Qed.

Lemma setups_cons (c : HookCall) (cs : list HookCall) :
  setups (c :: cs)
  = (match c with Setup _ => 1 | MakeReport _ _ => 0 end) + setups cs.
Proof. unfold setups. destruct c; cbn [List.filter List.length]; lia. Qed.

Lemma run_hooks_spec (henv : HookEnv) (V : string -> Prop)
    (HV : forall call, V (outcome_of call)) (cs : list HookCall) :
  forall p,
    has_categories (category_counts (streamer p)) ->
    map_Forall (fun _ r => V (outcome r)) (test_results (streamer p)) ->
    wp (run_hooks henv cs)
       (fun r p1 =>
          r = Ok tt
          /\ has_categories (category_counts (streamer p1))
          /\ total_count (category_counts (streamer p1))
             = total_count (category_counts (streamer p)) + setups cs
          /\ map_Forall (fun _ r => V (outcome r))
               (test_results (streamer p1))
          /\ dom (test_results (streamer p1))
             = dom (test_results (streamer p)) ∪ list_to_set (reported cs)) p.
Proof.
  induction cs as [|c cs IH]; intros p Hcat Hres.
  - cbn [run_hooks]. apply wp_ret. cbn.
    repeat split; auto; [unfold setups; cbn; lia|].
    now rewrite (right_id_L ∅ (∪)).
  - cbn [run_hooks]. apply wp_bind. destruct c as [item|item call].
    + destruct (has_categories_get _ (fspath item) Hcat) as [n Hn].
      unfold run_hook.
      eapply wp_mono; [apply (pytest_runtest_setup_spec henv item p n Hn)|].
      intros r p1 (-> & Hc & Hr). cbv beta iota.
      eapply wp_mono; [apply IH|].
      * rewrite Hc. now apply has_categories_set.
      * now rewrite Hr.
      * intros r p2 (-> & Hc2 & Ht2 & Hv2 & Hd2).
        split; [reflexivity|]. split; [assumption|].
        split; [|split; [assumption|]].
        -- rewrite Ht2, Hc, (total_count_set _ n _ _ Hn), setups_cons. lia.
        -- rewrite Hd2, Hr. reflexivity.
    + unfold run_hook.
      eapply wp_mono; [apply pytest_runtest_makereport_spec|].
      intros r p1 (-> & Hc & Hr). cbv beta iota.
      eapply wp_mono; [apply IH|].
      * now rewrite Hc.
      * rewrite Hr. destruct (String.eqb (call_when call) "call"); [|exact Hres].
        apply map_Forall_insert_2; [apply HV | exact Hres].
      * intros r p2 (-> & Hc2 & Ht2 & Hv2 & Hd2).
        split; [reflexivity|]. split; [assumption|].
        split; [|split; [assumption|]].
        -- rewrite Ht2, Hc, setups_cons. lia.
        -- rewrite Hd2, Hr. unfold reported.
           cbn [List.map List.concat]. fold (reported cs).
           destruct (String.eqb (call_when call) "call").
           ++ rewrite dom_insert_L. cbn [app list_to_set].
              rewrite (comm_L (∪) {[nodeid item]} (dom _)).
              now rewrite <- (assoc_L (∪)).
           ++ reflexivity.
Qed.

(** X19.  [pytest_runtest_setup] never stops a test from running.  With
    the five category keys in [category_counts], the hook returns normally
    whatever the event loop and the [logs] table answer; it adds one to the
    count of the category of the test and to no other count, and it leaves
    the recorded results alone. *)
Theorem setup_counts_the_test (henv : HookEnv) (item : Item) (p : Plugin) :
  has_categories (category_counts (streamer p)) ->
  exists p1,
    pytest_runtest_setup henv item p = (Ok tt, p1)
    /\ (forall k,
          dict_get k (category_counts (streamer p1))
          = if String.eqb (categorize_test (fspath item)) k
            then Z.succ <$> dict_get k (category_counts (streamer p))
            else dict_get k (category_counts (streamer p)))
    /\ has_categories (category_counts (streamer p1))
    /\ test_results (streamer p1) = test_results (streamer p).
Proof.
  intros Hcat.
  destruct (has_categories_get _ (fspath item) Hcat) as [n Hn].
  destruct (wp_ex _ _ _ (pytest_runtest_setup_spec henv item p n Hn))
    as (r & p1 & Hrun & -> & Hc & Hr).
  exists p1. split; [exact Hrun|]. split; [|split; [|exact Hr]].
  - intros k. rewrite Hc, dict_get_set.
    destruct (String.eqb (categorize_test (fspath item)) k) eqn:E;
      [|reflexivity].
    apply String.eqb_eq in E. subst k. rewrite Hn. reflexivity.
  - rewrite Hc. now apply has_categories_set.
Qed.

Lemma has_categories_initial : has_categories initial_category_counts.
Proof. unfold has_categories. repeat constructor; vm_compute; eauto. Qed.

Lemma setup_counts_the_test_witness :
  exists p1,
    pytest_runtest_setup henv_down
      {| fspath := "tests/Security/test_gate.py";
         nodeid := "tests/Security/test_gate.py::test_rm";
         name := "test_rm" |} (plugin0 true) = (Ok tt, p1)
    /\ (forall k,
          dict_get k (category_counts (streamer p1))
          = if String.eqb "security" k
            then Z.succ <$> dict_get k initial_category_counts
            else dict_get k initial_category_counts)
    /\ has_categories (category_counts (streamer p1))
    /\ test_results (streamer p1) = ∅.
Proof.
  apply (setup_counts_the_test henv_down
           {| fspath := "tests/Security/test_gate.py";
              nodeid := "tests/Security/test_gate.py::test_rm";
              name := "test_rm" |} (plugin0 true)).
  exact has_categories_initial.
Defined.

(** X20.  The category counts count the tests that were set up.  Over a
    whole run, whatever the paths, the answers of the [logs] table and of
    the event loop, no hook raises, and the counts of the five categories
    add up to what they were before plus the number of
    [pytest_runtest_setup] calls: every test is counted in exactly one
    category. *)
Theorem category_counts_add_up (henv : HookEnv) (cs : list HookCall)
    (p : Plugin) :
  has_categories (category_counts (streamer p)) ->
  exists p1,
    run_hooks henv cs p = (Ok tt, p1)
    /\ has_categories (category_counts (streamer p1))
    /\ total_count (category_counts (streamer p1))
       = total_count (category_counts (streamer p)) + setups cs.
Proof.
  intros Hcat.
  assert (Hres : map_Forall (fun (_ : string) r => True)
                   (test_results (streamer p))).
  { intros k r _. exact I. }
  destruct (wp_ex _ _ _
              (run_hooks_spec henv (fun _ => True) (fun _ => I) cs p
                 Hcat Hres))
    as (r & p1 & Hrun & -> & Hc & Ht & _).
  eauto.
Qed.

Lemma category_counts_add_up_witness :
  exists p1,
    run_hooks henv_down
      [Setup {| fspath := "tests/unit/test_a.py"; nodeid := "a";
                name := "test_a" |};
       MakeReport {| fspath := "tests/unit/test_a.py"; nodeid := "a";
                     name := "test_a" |}
                  {| call_when := "call"; call_excinfo := None;
                     call_duration := 1; call_result := None |};
       Setup {| fspath := "tests/integration/test_b.py"; nodeid := "b";
                name := "test_b" |}] (plugin0 true) = (Ok tt, p1)
    /\ has_categories (category_counts (streamer p1))
    /\ total_count (category_counts (streamer p1)) = 2.
Proof.
  apply (category_counts_add_up henv_down
      [Setup {| fspath := "tests/unit/test_a.py"; nodeid := "a";
                name := "test_a" |};
       MakeReport {| fspath := "tests/unit/test_a.py"; nodeid := "a";
                     name := "test_a" |}
                  {| call_when := "call"; call_excinfo := None;
                     call_duration := 1; call_result := None |};
       Setup {| fspath := "tests/integration/test_b.py"; nodeid := "b";
                name := "test_b" |}] (plugin0 true)).
  exact has_categories_initial.
Defined.

(** X21.  Only the call phase of a test is reported.  For the setup and
    teardown phases [pytest_runtest_makereport] does nothing at all.  For
    the call phase it returns normally whatever the event loop and the
    [logs] table answer, and files the result under the node id of the
    test, in place of an earlier result of the same node id: the outcome
    is one of passed, failed and skipped, where skipped is chosen over the
    other two by a [result] attribute equal to [skipped], and failed over
    passed by a captured exception. *)
Theorem makereport_records_the_call_phase (henv : HookEnv) (item : Item)
    (call : CallInfo) (p : Plugin) :
  (call_when call <> "call" ->
   pytest_runtest_makereport henv item call p = (Ok tt, p))
  /\ (call_when call = "call" ->
      exists p1 res,
        pytest_runtest_makereport henv item call p = (Ok tt, p1)
        /\ test_results (streamer p1)
           = <[nodeid item := res]> (test_results (streamer p))
        /\ category_counts (streamer p1) = category_counts (streamer p)
        /\ tr_duration res = call_duration call
        /\ tr_category res = categorize_test (fspath item)
        /\ (call_result call = Some "skipped" -> outcome res = "skipped")
        /\ (call_result call <> Some "skipped" ->
            outcome res = match call_excinfo call with
                          | None => "passed"
                          | Some _ => "failed"
                          end)).
Proof.
  split.
  - intros Hne. unfold pytest_runtest_makereport.
    destruct (String.eqb (call_when call) "call") eqn:E; [|reflexivity].
    apply String.eqb_eq in E. contradiction.
  - intros Hcall.
    destruct (wp_ex _ _ _ (pytest_runtest_makereport_spec henv item call p))
      as (r & p1 & Hrun & -> & Hc & Hr).
    rewrite Hcall in Hr. cbn in Hr.
    eexists p1, _. split; [exact Hrun|]. split; [exact Hr|].
    split; [exact Hc|]. cbn. split; [reflexivity|]. split; [reflexivity|].
    unfold outcome_of. split.
    + intros ->. reflexivity.
    + intros Hns. destruct (call_result call) as [r|]; [|reflexivity].
      destruct (String.eqb r "skipped") eqn:E; [|reflexivity].
      apply String.eqb_eq in E. subst r. contradiction.
Qed.

Lemma makereport_records_the_call_phase_witness :
  exists p1 res,
    pytest_runtest_makereport henv_down
      {| fspath := "tests/unit/test_a.py"; nodeid := "a"; name := "test_a" |}
      {| call_when := "call"; call_excinfo := Some "assert 1 == 2";
         call_duration := 1; call_result := None |} (plugin0 true)
    = (Ok tt, p1)
    /\ test_results (streamer p1) = <[ "a" := res ]> ∅
    /\ category_counts (streamer p1) = initial_category_counts
    /\ tr_duration res = 1%Q
    /\ tr_category res = "unit"
    /\ (@None string = Some "skipped" -> outcome res = "skipped")
    /\ (@None string <> Some "skipped" -> outcome res = "failed").
Proof.
  apply (proj2 (makereport_records_the_call_phase henv_down
      {| fspath := "tests/unit/test_a.py"; nodeid := "a"; name := "test_a" |}
      {| call_when := "call"; call_excinfo := Some "assert 1 == 2";
         call_duration := 1; call_result := None |} (plugin0 true))).
  reflexivity.
Defined.

Lemma count_outcome_cons (o : string) (r : TestResult)
    (l : list TestResult) :
  count_outcome o (r :: l)
  = (if String.eqb (outcome r) o then 1 else 0) + count_outcome o l.
Proof.
  unfold count_outcome. cbn [List.filter].
  destruct (String.eqb (outcome r) o); cbn [List.length]; lia.
Qed.

Lemma count_outcomes_total (l : list TestResult) :
  Forall (fun r => In (outcome r) ["passed"; "failed"; "skipped"]) l ->
  count_outcome "passed" l + count_outcome "failed" l
  + count_outcome "skipped" l = Z.of_nat (List.length l).
Proof.
  induction 1 as [|r l Hr _ IH]; [reflexivity|].
  rewrite !count_outcome_cons. cbn [List.length].
  cbn in Hr. destruct Hr as [<-|[<-|[<-|[]]]]; cbn; lia.
Qed.

(** [pytest_sessionfinish] hands [summary_counts] to [end_session]. *)
Lemma pytest_sessionfinish_counts (tenv : TestEnv) (testsfailed : Z)
    (s : Streamer) :
  pytest_sessionfinish tenv testsfailed s
  = (let '(passed, failed, skipped) := summary_counts s in
     bind (end_session tenv passed failed skipped 85)
       (fun _ =>
          if coverage_low 85 then
            bind (print PCritical) (fun _ =>
            bind (print (PCurrentCoverage 85)) (fun _ =>
            bind (print PBuildWillFailPRD) (fun _ =>
            ret (testsfailed + 1))))
          else ret testsfailed)) s.
Proof. reflexivity. Qed.

(** X22.  The summary counts every reported test once.  After a run that
    started with no results, the recorded results are exactly those of the
    node ids that had a call-phase report, and the passed, failed and
    skipped numbers that [pytest_sessionfinish] computes from them add up
    to the number of these node ids: a test reported twice is counted
    once, and no result falls outside the three outcomes. *)
Theorem summary_counts_every_test_once (henv : HookEnv)
    (cs : list HookCall) (p : Plugin) :
  has_categories (category_counts (streamer p)) ->
  test_results (streamer p) = ∅ ->
  exists p1,
    run_hooks henv cs p = (Ok tt, p1)
    /\ dom (test_results (streamer p1)) = list_to_set (reported cs)
    /\ (let '(passed, failed, skipped) := summary_counts (streamer p1) in
        passed + failed + skipped
        = Z.of_nat (size (test_results (streamer p1)))).
Proof.
  intros Hcat Hempty.
  assert (Hres : map_Forall
            (fun (_ : string) r =>
               In (outcome r) ["passed"; "failed"; "skipped"])
            (test_results (streamer p))).
  { rewrite Hempty. apply map_Forall_empty. }
  destruct (wp_ex _ _ _
              (run_hooks_spec henv
                 (fun o => In o ["passed"; "failed"; "skipped"])
                 outcome_of_known cs p Hcat Hres))
    as (r & p1 & Hrun & -> & _ & _ & Hv & Hd).
  exists p1. split; [exact Hrun|]. split.
  - rewrite Hd, Hempty, dom_empty_L. now rewrite (left_id_L ∅ (∪)).
  - unfold summary_counts. rewrite count_outcomes_total.
    + rewrite length_fmap, length_map_to_list. reflexivity.
    + apply Forall_fmap. apply map_Forall_to_list in Hv.
      eapply Forall_impl; [exact Hv|]. intros [k r0] Hk. exact Hk.
Qed.

Lemma summary_counts_every_test_once_witness :
  exists p1,
    run_hooks henv0
      [MakeReport {| fspath := "tests/unit/test_a.py"; nodeid := "a";
                     name := "test_a" |}
                  {| call_when := "call"; call_excinfo := Some "boom";
                     call_duration := 1; call_result := None |};
       MakeReport {| fspath := "tests/unit/test_a.py"; nodeid := "a";
                     name := "test_a" |}
                  {| call_when := "call"; call_excinfo := None;
                     call_duration := 1; call_result := None |};
       MakeReport {| fspath := "tests/unit/test_a.py"; nodeid := "a";
                     name := "test_a" |}
                  {| call_when := "teardown"; call_excinfo := None;
                     call_duration := 1; call_result := None |}]
      (plugin0 true) = (Ok tt, p1)
    /\ dom (test_results (streamer p1)) = list_to_set ["a"; "a"]
    /\ (let '(passed, failed, skipped) := summary_counts (streamer p1) in
        passed + failed + skipped
        = Z.of_nat (size (test_results (streamer p1)))).
Proof.
  apply (summary_counts_every_test_once henv0
      [MakeReport {| fspath := "tests/unit/test_a.py"; nodeid := "a";
                     name := "test_a" |}
                  {| call_when := "call"; call_excinfo := Some "boom";
                     call_duration := 1; call_result := None |};
       MakeReport {| fspath := "tests/unit/test_a.py"; nodeid := "a";
                     name := "test_a" |}
                  {| call_when := "call"; call_excinfo := None;
                     call_duration := 1; call_result := None |};
       MakeReport {| fspath := "tests/unit/test_a.py"; nodeid := "a";
                     name := "test_a" |}
                  {| call_when := "teardown"; call_excinfo := None;
                     call_duration := 1; call_result := None |}]
      (plugin0 true)).
  - exact has_categories_initial.
  - reflexivity.
Defined.

(** ** The summary of a session *)





(** * Quota slots *)

Lemma destroy_sandbox_table (env : Env) (sandbox_id : string) (w : World) :
  wp (destroy_sandbox env sandbox_id)
     (fun r w1 =>
        r = Ok true ->
        exists now,
          sandboxes_table w1
          = List.map (fun r => if String.eqb (e2b_sandbox_id r) sandbox_id
                               then mark_stopped now r else r)
              (sandboxes_table w)) w.
Proof.
  wp_exec; intros [=]; cbn; eexists; reflexivity.
Qed.

Lemma running_count_after_stop (user sandbox_id : string) (now : Z)
    (rows : list SandboxData) :
  running_count user
    (List.map (fun r => if String.eqb (e2b_sandbox_id r) sandbox_id
                        then mark_stopped now r else r) rows)
  = running_count user
      (List.filter (fun r => negb (String.eqb (e2b_sandbox_id r) sandbox_id))
         rows).
Proof.
  unfold running_count. f_equal.
  induction rows as [|r rows IH]; [reflexivity|].
  cbn [List.map List.filter].
  destruct (String.eqb (e2b_sandbox_id r) sandbox_id); cbn [negb].
  - replace (owned_running user (mark_stopped now r)) with false.
    + exact IH.
    + unfold owned_running. cbn. now rewrite andb_false_r.
  - cbn [List.filter]. destruct (owned_running user r); cbn [List.length];
      now rewrite IH.
Qed.

Lemma running_count_filter_le (user : string) (p : SandboxData -> bool)
    (rows : list SandboxData) :
  running_count user (List.filter p rows) <= running_count user rows.
Proof.
  unfold running_count.
  induction rows as [|r rows IH]; cbn [List.filter]; [lia|].
  destruct (p r); cbn [List.filter]; destruct (owned_running user r);
    cbn [List.length]; lia.
Qed.

Lemma running_count_filter_lt (user sandbox_id : string)
    (rows : list SandboxData) (r : SandboxData) :
  In r rows -> e2b_sandbox_id r = sandbox_id ->
  owned_running user r = true ->
  running_count user
    (List.filter (fun r => negb (String.eqb (e2b_sandbox_id r) sandbox_id))
       rows)
  < running_count user rows.
Proof.
  intros Hin Hid Hown.
  induction rows as [|r1 rows IH]; [destruct Hin|].
  pose proof (running_count_filter_le user
                (fun r => negb (String.eqb (e2b_sandbox_id r) sandbox_id))
                rows) as Hle.
  destruct Hin as [->|Hin].
  - cbn [List.filter]. rewrite Hid, String.eqb_refl. cbn [negb].
    unfold running_count in *. cbn [List.filter]. rewrite Hown.
    cbn [List.length]. lia.
  - specialize (IH Hin). cbn [List.filter].
    unfold running_count in *.
    destruct (negb (String.eqb (e2b_sandbox_id r1) sandbox_id));
      cbn [List.filter]; destruct (owned_running user r1);
      cbn [List.length]; lia.
Qed.

(** X24.  A destroy that answers [True] gives the quota slot back.  After
    it, the rows of the destroyed sandbox no longer count for anyone: the
    number of Running rows of every owner is what it was without the rows
    of that id, so the owner of a Running row of that id has strictly
    fewer Running rows than before. *)
Theorem destroy_frees_the_quota_slot (env : Env) (sandbox_id : string)
    (w w1 : World) :
  destroy_sandbox env sandbox_id w = (Ok true, w1) ->
  forall user,
    running_count user (sandboxes_table w1)
    = running_count user
        (List.filter
           (fun r => negb (String.eqb (e2b_sandbox_id r) sandbox_id))
           (sandboxes_table w))
    /\ (forall r, In r (sandboxes_table w) ->
                  e2b_sandbox_id r = sandbox_id ->
                  user_id r = user -> status r = Running ->
                  running_count user (sandboxes_table w1)
                  < running_count user (sandboxes_table w)).
Proof.
  intros Hrun user.
  destruct (wp_elim _ _ _ _ _ Hrun (destroy_sandbox_table env sandbox_id w)
              eq_refl) as [now Ht].
  rewrite Ht, running_count_after_stop. split; [reflexivity|].
  intros r Hin Hid Hu Hs.
  apply (running_count_filter_lt user sandbox_id _ r Hin Hid).
  unfold owned_running. rewrite Hu, Hs, String.eqb_refl. reflexivity.
Qed.

Lemma destroy_frees_the_quota_slot_witness :
  running_count "u1"
    (sandboxes_table (snd (destroy_sandbox Demo.env0 "sbx-2" Demo.world1)))
  = running_count "u1"
      (List.filter (fun r => negb (String.eqb (e2b_sandbox_id r) "sbx-2"))
         (sandboxes_table Demo.world1))
  /\ (forall r, In r (sandboxes_table Demo.world1) ->
                e2b_sandbox_id r = "sbx-2" ->
                user_id r = "u1" -> status r = Running ->
                running_count "u1"
                  (sandboxes_table
                     (snd (destroy_sandbox Demo.env0 "sbx-2" Demo.world1)))
                < running_count "u1" (sandboxes_table Demo.world1)).
Proof.
  apply (destroy_frees_the_quota_slot Demo.env0 "sbx-2" Demo.world1
           (snd (destroy_sandbox Demo.env0 "sbx-2" Demo.world1))).
  vm_compute. reflexivity.
Defined.

(** X25.  A successful [create_sandbox] takes exactly one slot of the quota
    of its user and none of anybody else: the number of Running rows of
    the user grows by one, and the number of every other owner stays. *)
Theorem create_takes_one_quota_slot (env : Env) (cfg : Config)
    (user : string) (task_id tpl : option string) (w w1 : World)
    (res : CreateResult) :
  create_sandbox env cfg user task_id tpl w = (Ok res, w1) ->
  forall other,
    running_count other (sandboxes_table w1)
    = running_count other (sandboxes_table w)
      + (if String.eqb user other then 1 else 0).
Proof.
  intros Hrun other.
  destruct (wp_elim _ _ _ _ _ Hrun
              (create_sandbox_fixes_expiry env cfg user task_id tpl w)
              res eq_refl) as (row & Ht & Hm & _ & Hs & _).
  destruct (wp_elim _ _ _ _ _ Hrun
              (create_sandbox_registers env cfg user task_id tpl w)
              res eq_refl) as (sb & row1 & _ & Hm1 & _ & _ & _ & Hu).
  assert (row1 = row) by congruence. subst row1.
  rewrite Ht, running_count_app. f_equal.
  unfold running_count, owned_running. cbn [List.filter].
  rewrite Hu, Hs. destruct (String.eqb user other); reflexivity.
Qed.

Lemma create_takes_one_quota_slot_witness :
  running_count "u1" (sandboxes_table Demo.world1)
  = running_count "u1" (sandboxes_table Demo.empty_world)
    + (if String.eqb "u1" "u1" then 1 else 0).
Proof.
  apply (create_takes_one_quota_slot Demo.env0 Demo.cfg0 "u1"
           (Some "task-1") None Demo.empty_world Demo.world1
           {| c_sandbox_id := "sbx-2"; c_internal_id := "uuid-4";
              c_boot_time_ms := 20; c_template := "Python3";
              c_status := Running; c_expires_at := 3606000000 |}).
  reflexivity.
Defined.
